(** * obsidian-git-sync: the Git executor and the sync manager

    A shallow embedding of [src/git/executor.ts] (class [GitExecutor]),
    [src/sync/sync-manager.ts] (class [SyncManager]) and of the three
    command entry points of [main.ts] (class [GitSyncPlugin]).

    Conventions of the embedding.
    - A JavaScript string is a Rocq [string]: a sequence of bytes, the
      UTF-8 encoding of the text.  Every pattern the code searches for is
      ASCII, and an ASCII byte never occurs inside a multi-byte UTF-8
      sequence, so [includes], [split], [replace] and the status codes read
      at positions 0 and 1 agree with the UTF-16 originals on all text whose
      first three characters are ASCII.  White space ([trim], [\s]) is the
      ASCII white space, and the line terminators that [.] refuses are LF
      and CR.
    - A JavaScript [number] that counts something is an [N].
    - The external [git] process is an oracle [exec] over an abstract
      [World]; an [async] method is a function in the monad [M] below, which
      threads the world, the log of the commands issued, the status events
      emitted and the notices shown, and which can throw a [GitError]. *)

From Stdlib Require Import String Ascii List NArith ZArith Bool.
Import ListNotations.
Open Scope string_scope.
Open Scope list_scope.

(* ================================================================== *)
(** ** JavaScript string primitives *)
(* ================================================================== *)

Module Js.

(** The double-quote character. *)
Definition dquote : ascii := "034"%char.
Definition backslash : ascii := "092"%char.
Definition LF : ascii := "010"%char.
Definition CR : ascii := "013"%char.

(** ASCII white space: TAB, LF, VT, FF, CR, SPACE.  A text is held as its
    UTF-8 bytes, where the white space of JavaScript that is not ASCII
    (U+00A0, U+1680, U+2000 to U+200A, U+2028, U+2029, U+202F, U+205F,
    U+3000, U+FEFF) takes two or three bytes: [trim()] and [\s] are as in
    the code on texts without those. *)
Definition isSpace (c : ascii) : bool :=
  let n := nat_of_ascii c in
  (Nat.leb 9 n && Nat.leb n 13) || Nat.eqb n 32.

Definition isDigit (c : ascii) : bool :=
  let n := nat_of_ascii c in Nat.leb 48 n && Nat.leb n 57.

(** [s.startsWith(p)] *)
Fixpoint startsWith (p s : string) : bool :=
  match p with
  | EmptyString => true
  | String a p' =>
      match s with
      | EmptyString => false
      | String b s' => Ascii.eqb a b && startsWith p' s'
      end
  end.

(** [s.includes(p)] *)
Fixpoint includes (s p : string) : bool :=
  startsWith p s ||
  match s with
  | EmptyString => false
  | String _ s' => includes s' p
  end.

Fixpoint rev_acc (s acc : string) : string :=
  match s with
  | EmptyString => acc
  | String a s' => rev_acc s' (String a acc)
  end.

Definition rev (s : string) : string := rev_acc s EmptyString.

Fixpoint trimStart (s : string) : string :=
  match s with
  | EmptyString => EmptyString
  | String a s' => if isSpace a then trimStart s' else s
  end.

Definition trimEnd (s : string) : string := rev (trimStart (rev s)).

(** [s.trim()] *)
Definition trim (s : string) : string := trimEnd (trimStart s).

(** [s.substring(n)] *)
Fixpoint substringFrom (n : nat) (s : string) : string :=
  match n, s with
  | O, _ => s
  | S _, EmptyString => EmptyString
  | S n', String _ s' => substringFrom n' s'
  end.

(** [s[i]]: [None] is [undefined]. *)
Definition charAt (s : string) (i : nat) : option ascii := String.get i s.

(** [s.split(sep)] for a non-empty separator.  [cur] holds, reversed, the
    piece being read; [skip] counts the characters of a separator still to
    be passed over. *)
Fixpoint split_go (sep : string) (skip : nat) (cur : string) (s : string)
  : list string :=
  match s with
  | EmptyString => [rev cur]
  | String a s' =>
      match skip with
      | S k => split_go sep k cur s'
      | O =>
          if startsWith sep s
          then rev cur :: split_go sep (String.length sep - 1) EmptyString s'
          else split_go sep 0 (String a cur) s'
      end
  end.

Definition split (s sep : string) : list string :=
  split_go sep 0 EmptyString s.

(** [xs.filter(Boolean)] on strings: the empty string is the only falsy one. *)
Definition nonEmpty (s : string) : bool :=
  match s with EmptyString => false | _ => true end.

Definition filterBoolean (xs : list string) : list string :=
  filter nonEmpty xs.

(** [s.trim().split('\n').filter(Boolean)] *)
Definition nonEmptyLines (s : string) : list string :=
  filterBoolean (split (trim s) (String LF EmptyString)).

(** [s.replace(/"/g, '\\"')]: a backslash before every double quote. *)
Fixpoint escapeQuotes (s : string) : string :=
  match s with
  | EmptyString => EmptyString
  | String a s' =>
      if Ascii.eqb a dquote
      then String backslash (String dquote (escapeQuotes s'))
      else String a (escapeQuotes s')
  end.

(** [s.replace(pat, '')] with a string pattern: the first occurrence only. *)
Fixpoint removeFirst (pat : string) (s : string) : string :=
  if startsWith pat s then substringFrom (String.length pat) s
  else
    match s with
    | EmptyString => EmptyString
    | String a s' => String a (removeFirst pat s')
    end.

(** [parseInt(s)] on a string of decimal digits: the exact value, which is
    the number of the code up to 2^53. *)
Definition digitValue (c : ascii) : N := N.of_nat (nat_of_ascii c - 48).

Fixpoint parseDigits (acc : N) (s : string) : N :=
  match s with
  | EmptyString => acc
  | String a s' => parseDigits (10 * acc + digitValue a)%N s'
  end.

Definition parseInt (s : string) : N := parseDigits 0%N s.

(** [xs.includes(x)] on an array of strings. *)
Definition arrayIncludes (xs : list string) (x : string) : bool :=
  existsb (String.eqb x) xs.

End Js.

(* ================================================================== *)
(** ** A backtracking matcher for the two regular expressions of the code *)
(* ================================================================== *)

(** The expressions used by [status] and [parsePullFiles] are anchored at
    the start, repeat single characters only, and capture at most two
    groups.  The matcher follows the priorities of a backtracking engine:
    the left alternative first, a greedy repetition longest first, a lazy
    one shortest first, an optional group present first. *)
Module Regex.

Inductive re : Type :=
| Eps : re
| Lit : string -> re                    (* a literal text *)
| Seq : re -> re -> re
| Alt : re -> re -> re
| Rep : (ascii -> bool) -> nat -> bool -> re
    (* [Rep p min greedy]: at least [min] characters satisfying [p] *)
| Cap : nat -> re -> re.                 (* capture group number n *)

Definition Opt (r : re) : re := Alt r Eps.

(** Capture groups: [None] is [undefined]. *)
Definition caps := nat -> option string.
Definition noCaps : caps := fun _ => None.
Definition setCap (n : nat) (v : string) (c : caps) : caps :=
  fun m => if Nat.eqb m n then Some v else c m.

Section Matcher.
Context {R : Type}.

Fixpoint lit (p s : string) (k : string -> option R) : option R :=
  match p with
  | EmptyString => k s
  | String a p' =>
      match s with
      | EmptyString => None
      | String b s' => if Ascii.eqb a b then lit p' s' k else None
      end
  end.

Fixpoint repGreedy (p : ascii -> bool) (need : nat) (s : string)
         (k : string -> option R) : option R :=
  let stop := match need with O => k s | S _ => None end in
  match s with
  | String a s' =>
      if p a then
        match repGreedy p (Nat.pred need) s' k with
        | Some r => Some r
        | None => stop
        end
      else stop
  | EmptyString => stop
  end.

Fixpoint repLazy (p : ascii -> bool) (need : nat) (s : string)
         (k : string -> option R) : option R :=
  let more :=
    match s with
    | String a s' => if p a then repLazy p (Nat.pred need) s' k else None
    | EmptyString => None
    end in
  match need with
  | O => match k s with Some r => Some r | None => more end
  | S _ => more
  end.

End Matcher.

(** The text consumed between [s] and its suffix [s']. *)
Definition consumed (s s' : string) : string :=
  String.substring 0 (String.length s - String.length s') s.

Fixpoint run (r : re) (s : string) (c : caps)
         (k : string -> caps -> option caps) : option caps :=
  match r with
  | Eps => k s c
  | Lit p => lit p s (fun s' => k s' c)
  | Seq r1 r2 => run r1 s c (fun s' c' => run r2 s' c' k)
  | Alt r1 r2 =>
      match run r1 s c k with
      | Some x => Some x
      | None => run r2 s c k
      end
  | Rep p need true => repGreedy p need s (fun s' => k s' c)
  | Rep p need false => repLazy p need s (fun s' => k s' c)
  | Cap n r1 => run r1 s c (fun s' c' => k s' (setCap n (consumed s s') c'))
  end.

(** [s.match(/^r/)]: [None] is [null]. *)
Definition matchStart (r : re) (s : string) : option caps :=
  run r s noCaps (fun _ c => Some c).

Definition notSpace (c : ascii) : bool := negb (Js.isSpace c).
(** [.] matches anything but a line terminator: LF and CR, on texts
    without U+2028 and U+2029. *)
Definition dot (c : ascii) : bool :=
  negb (Ascii.eqb c Js.LF || Ascii.eqb c Js.CR).

Fixpoint seqs (rs : list re) : re :=
  match rs with
  | [] => Eps
  | [r] => r
  | r :: rs' => Seq r (seqs rs')
  end.

End Regex.

(* ================================================================== *)
(** ** Types ([src/git/types.ts]) *)
(* ================================================================== *)

Record GitStatus : Type := mkGitStatus {
  st_isRepo : bool;
  st_branch : string;
  st_ahead : N;
  st_behind : N;
  st_staged : list string;
  st_modified : list string;
  st_untracked : list string;
  st_conflicts : list string;
  st_clean : bool
}.

(** [GitError]: an [Error] with optional [code], [stderr] and [stdout]. *)
Record GitError : Type := mkGitError {
  err_message : string;
  err_code : option string;
  err_stderr : option string;
  err_stdout : option string
}.

Record SyncResult : Type := mkSyncResult {
  sr_success : bool;
  sr_message : string;
  sr_pulled : option N;
  sr_pushed : option N;
  sr_conflicts : option (list string)
}.

Record PullResult : Type := mkPullResult {
  pl_success : bool;
  pl_message : string;
  pl_files : list string;
  pl_conflicts : list string
}.

Record PushResult : Type := mkPushResult {
  ps_success : bool;
  ps_message : string;
  ps_pushed : N
}.

Record CommitResult : Type := mkCommitResult {
  cm_success : bool;
  cm_message : string;
  cm_files : N
}.

Inductive SyncStatus : Type :=
| idle | syncing | pulling | pushing | committing | error | conflict | success.

(** What the child process gives back: its two output streams, or the
    error [execAsync] rejects with. *)
Record Output : Type := mkOutput {
  out_stdout : string;
  out_stderr : string
}.

Definition ExecResult : Type := (Output + GitError)%type.

(** A [Date], in milliseconds since the epoch. *)
Definition Date : Type := Z.

(** The fields of a [SyncManager] that its methods read and write. *)
Record Manager : Type := mkManager {
  syncLock : bool;
  lastSyncTime : option Date;
  lastSyncResult : option SyncResult;
  onStatusChange : bool          (* is a status callback registered? *)
}.

(* ================================================================== *)
(** ** The environment and the monad of asynchronous methods *)
(* ================================================================== *)

(** The environment of the plugin: the world outside (the repository on
    disk, the remote, the clock), the [git] child process as an oracle on
    it, and the two settings that the modelled methods read. *)
Class Env : Type := mkEnv {
  World : Type;
  (** [exec cmd w] runs [git cmd] in the vault directory. *)
  exec : string -> World -> ExecResult * World;
  (** [new Date()] *)
  clock : World -> Date;
  (** [generateCommitMessage(this.plugin.settings.commitMessage)], which
      formats the current instant into the configured template. *)
  generateCommitMessage : World -> string;
  (** [this.settings.showNotifications] *)
  showNotifications : bool
}.

Inductive Res (A : Type) : Type :=
| Ok : A -> Res A
| Throw : GitError -> Res A.
Arguments Ok {A} _.
Arguments Throw {A} _.

Section Monad.
Context `{E : Env}.

Record Sys : Type := mkSys {
  world : World;
  issued : list string;                    (* git commands run, oldest first *)
  events : list (SyncStatus * string);     (* calls of the status callback *)
  notices : list string;                   (* notices shown *)
  mgr : Manager
}.

Definition M (A : Type) : Type := Sys -> Res A * Sys.

Definition ret {A} (a : A) : M A := fun s => (Ok a, s).

Definition bind {A B} (m : M A) (f : A -> M B) : M B :=
  fun s =>
    match m s with
    | (Ok a, s') => f a s'
    | (Throw e, s') => (Throw e, s')
    end.

Definition throw {A} (e : GitError) : M A := fun s => (Throw e, s).

(** [try { body } catch (error) { handler }] *)
Definition tryCatch {A} (body : M A) (handler : GitError -> M A) : M A :=
  fun s =>
    match body s with
    | (Ok a, s') => (Ok a, s')
    | (Throw e, s') => handler e s'
    end.

(** [try { body } finally { final }], for a [final] that does not throw. *)
Definition tryFinally {A} (body : M A) (final : Sys -> Sys) : M A :=
  fun s => let '(r, s') := body s in (r, final s').

Definition modify (f : Sys -> Sys) : M unit := fun s => (Ok tt, f s).
Definition gets {A} (f : Sys -> A) : M A := fun s => (Ok (f s), s).

(** The state after one more child process has run: the command is logged
    and the world has moved on. *)
Definition after (command : string) (w : World) (s : Sys) : Sys :=
  mkSys w (issued s ++ [command]) (events s) (notices s) (mgr s).
Definition logEvent (e : SyncStatus * string) (s : Sys) : Sys :=
  mkSys (world s) (issued s) (events s ++ [e]) (notices s) (mgr s).
Definition logNotice (n : string) (s : Sys) : Sys :=
  mkSys (world s) (issued s) (events s) (notices s ++ [n]) (mgr s).
Definition setMgr (m : Manager) (s : Sys) : Sys :=
  mkSys (world s) (issued s) (events s) (notices s) m.

End Monad.

Declare Scope js_scope.
Delimit Scope js_scope with js.
Notation "x <- m ;; k" := (bind m (fun x => k))
  (at level 61, m at next level, right associativity) : js_scope.
Notation "m ;;; k" := (bind m (fun _ => k))
  (at level 61, right associativity) : js_scope.
Open Scope js_scope.

Section Engine.
Context `{E : Env}.

(** [execAsync]: one child process. *)
Definition spawn (command : string) : Sys -> ExecResult * Sys :=
  fun s =>
    let '(r, w') := exec command (world s) in
    (r, after command w' s).

Definition orEmpty (o : option string) : string :=
  match o with Some x => x | None => "" end.

(* ================================================================== *)
(** ** [GitExecutor] ([src/git/executor.ts]) *)
(* ================================================================== *)

(** The [GitError] that [run] builds in its [catch]: [stderr] and [stdout]
    default to the empty string. *)
Definition thrown (e : GitError) : GitError :=
  mkGitError (err_message e) (err_code e)
             (Some (orEmpty (err_stderr e))) (Some (orEmpty (err_stdout e))).

Definition run (command : string) : M Output :=
  fun s =>
    match spawn command s with
    | (inl out, s') => (Ok out, s')
    | (inr e, s') => (Throw (thrown e), s')
    end.

Definition isGitAvailable : M bool :=
  fun s =>
    match spawn "--version" s with
    | (inl _, s') => (Ok true, s')
    | (inr _, s') => (Ok false, s')
    end.

Definition isRepo : M bool :=
  tryCatch (run "rev-parse --is-inside-work-tree" ;;; ret true)
           (fun _ => ret false).

Definition getCurrentBranch : M string :=
  result <- run "rev-parse --abbrev-ref HEAD" ;;
  ret (Js.trim (out_stdout result)).

Definition pickRemote (remotes : list string) : option string :=
  if Js.arrayIncludes remotes "origin" then Some "origin"
  else hd_error remotes.

Definition getRemoteName : M (option string) :=
  tryCatch (result <- run "remote" ;;
            ret (pickRemote (Js.nonEmptyLines (out_stdout result))))
           (fun _ => ret None).

Definition fetch : M unit :=
  remote <- getRemoteName ;;
  match remote with
  | Some r => run ("fetch " ++ r) ;;; ret tt
  | None => ret tt
  end.

(** [/^## (?:No branch|\S+)(?:\.\.\.\S+)?(?:\s+\[(?:ahead (\d+))?(?:, )?(?:behind (\d+))?\])?/] *)
Definition branchRe : Regex.re :=
  Regex.seqs
    [ Regex.Lit "## ";
      Regex.Alt (Regex.Lit "No branch") (Regex.Rep Regex.notSpace 1 true);
      Regex.Opt (Regex.Seq (Regex.Lit "...") (Regex.Rep Regex.notSpace 1 true));
      Regex.Opt
        (Regex.seqs
           [ Regex.Rep Js.isSpace 1 true;
             Regex.Lit "[";
             Regex.Opt (Regex.Seq (Regex.Lit "ahead ")
                                  (Regex.Cap 1 (Regex.Rep Js.isDigit 1 true)));
             Regex.Opt (Regex.Lit ", ");
             Regex.Opt (Regex.Seq (Regex.Lit "behind ")
                                  (Regex.Cap 2 (Regex.Rep Js.isDigit 1 true)));
             Regex.Lit "]" ]) ].

(** [branchMatch?.[n] ? parseInt(branchMatch[n]) : 0] *)
Definition capturedCount (m : option Regex.caps) (n : nat) : N :=
  match m with
  | Some c =>
      match c n with
      | Some d => if Js.nonEmpty d then Js.parseInt d else 0%N
      | None => 0%N
      end
  | None => 0%N
  end.

(** [branchLine.replace(/^## /, '').split('...')[0].split(' ')[0]] *)
Definition branchName (branchLine : string) : string :=
  let stripped :=
    if Js.startsWith "## " branchLine then Js.substringFrom 3 branchLine
    else branchLine in
  hd "" (Js.split (hd "" (Js.split stripped "...")) " ").

(** [c === x] and [c !== x] for a character that may be [undefined]. *)
Definition charIs (c : option ascii) (x : ascii) : bool :=
  match c with Some a => Ascii.eqb a x | None => false end.
Definition charIsNot (c : option ascii) (x : ascii) : bool :=
  negb (charIs c x).

(** The four lists that the loop over the status lines fills. *)
Record FileLists : Type := mkFileLists {
  fl_staged : list string;
  fl_modified : list string;
  fl_untracked : list string;
  fl_conflicts : list string
}.

Definition noFiles : FileLists := mkFileLists [] [] [] [].

Definition isConflictCode (indexStatus workTreeStatus : option ascii) : bool :=
  charIs indexStatus "U" || charIs workTreeStatus "U" ||
  (charIs indexStatus "A" && charIs workTreeStatus "A") ||
  (charIs indexStatus "D" && charIs workTreeStatus "D").

(** The body of [for (const line of statusLines)]. *)
Definition statusLine (acc : FileLists) (line : string) : FileLists :=
  let indexStatus := Js.charAt line 0 in
  let workTreeStatus := Js.charAt line 1 in
  let fileName := Js.substringFrom 3 line in
  if isConflictCode indexStatus workTreeStatus then
    mkFileLists (fl_staged acc) (fl_modified acc) (fl_untracked acc)
                (fl_conflicts acc ++ [fileName])
  else
    let staged :=
      if charIsNot indexStatus " " && charIsNot indexStatus "?"
      then fl_staged acc ++ [fileName] else fl_staged acc in
    let modified :=
      if charIsNot workTreeStatus " " && charIsNot workTreeStatus "?"
      then fl_modified acc ++ [fileName] else fl_modified acc in
    let untracked :=
      if charIs indexStatus "?" && charIs workTreeStatus "?"
      then fl_untracked acc ++ [fileName] else fl_untracked acc in
    mkFileLists staged modified untracked (fl_conflicts acc).

Definition isEmpty {A} (l : list A) : bool :=
  match l with [] => true | _ => false end.

(** [status] after the command has returned [stdout]. *)
Definition parseStatus (stdout : string) : GitStatus :=
  let lines := Js.nonEmptyLines stdout in
  let branchLine := hd "" lines in
  let statusLines := tl lines in
  let branchMatch := Regex.matchStart branchRe branchLine in
  let branch := branchName branchLine in
  let ahead := capturedCount branchMatch 1 in
  let behind := capturedCount branchMatch 2 in
  let files := fold_left statusLine statusLines noFiles in
  mkGitStatus true
    (if String.eqb branch "HEAD" then "(detached)" else branch)
    ahead behind
    (fl_staged files) (fl_modified files) (fl_untracked files)
    (fl_conflicts files)
    (isEmpty (fl_staged files) && isEmpty (fl_modified files) &&
     isEmpty (fl_untracked files) && isEmpty (fl_conflicts files)).

Definition status : M GitStatus :=
  result <- run "status --porcelain=v1 --branch" ;;
  ret (parseStatus (out_stdout result)).

Definition unmergedCommand : string := "diff --name-only --diff-filter=U".

Definition hasConflicts : M bool :=
  tryCatch (result <- run unmergedCommand ;;
            ret (Js.nonEmpty (Js.trim (out_stdout result))))
           (fun _ => ret false).

Definition addAll : M unit := run "add -A" ;;; ret tt.

(** [error.stdout?.includes('nothing to commit')] *)
Definition saysNothingToCommit (e : GitError) : bool :=
  match err_stdout e with
  | Some out => Js.includes out "nothing to commit"
  | None => false
  end.

Definition quoted (s : string) : string :=
  String Js.dquote (Js.escapeQuotes s ++ String Js.dquote "").

Definition commitCommand (message : string) : string :=
  "commit -m " ++ quoted message.

Definition commit (message : string) : M CommitResult :=
  tryCatch
    (run (commitCommand message) ;;;
     ret (mkCommitResult true "Commit successful" 0))
    (fun e =>
       if saysNothingToCommit e
       then ret (mkCommitResult true "Nothing to commit" 0)
       else throw e).

Definition getConflictFiles : M (list string) :=
  tryCatch (result <- run unmergedCommand ;;
            ret (Js.nonEmptyLines (out_stdout result)))
           (fun _ => ret []).

(** [/^\s+(.+?)\s*\|/] *)
Definition pullFileRe : Regex.re :=
  Regex.seqs
    [ Regex.Rep Js.isSpace 1 true;
      Regex.Cap 1 (Regex.Rep Regex.dot 1 false);
      Regex.Rep Js.isSpace 0 true;
      Regex.Lit "|" ].

Definition parsePullLine (line : string) : list string :=
  match Regex.matchStart pullFileRe line with
  | Some c => [Js.trim (orEmpty (c 1))]
  | None => []
  end.

Definition parsePullFiles (output : string) : list string :=
  flat_map parsePullLine (Js.split output (String Js.LF "")).

Definition stashPushCommand : string :=
  "stash push -m " ++ String Js.dquote ("obsidian-git-sync-auto-stash" ++ String Js.dquote "").

Definition pullCommand (remote branch : string) : string :=
  "pull " ++ remote ++ " " ++ branch ++ " --rebase".

Definition pull : M PullResult :=
  tryCatch
    (branch <- getCurrentBranch ;;
     remote <- getRemoteName ;;
     match remote with
     | None => ret (mkPullResult false "No remote configured" [] [])
     | Some r =>
         fetch ;;;
         st <- status ;;
         (if negb (isEmpty (st_modified st)) || negb (isEmpty (st_staged st))
          then run stashPushCommand ;;; ret tt
          else ret tt) ;;;
         result <- run (pullCommand r branch) ;;
         tryCatch (run "stash pop" ;;; ret tt) (fun _ => ret tt) ;;;
         ret (mkPullResult true "Pull successful"
                (parsePullFiles (out_stdout result)) [])
     end)
    (fun e =>
       c <- hasConflicts ;;
       if c then
         conflictFiles <- getConflictFiles ;;
         ret (mkPullResult false "Merge conflicts detected" [] conflictFiles)
       else throw e).

(** [parsePushError]: the messages are the UTF-8 text of the source. *)
Definition httpsAuthMessage : string :=
  "认证失败：HTTPS 推送需要配置凭证。请在终端运行: git config --global credential.helper store，然后手动执行一次 git push 输入用户名和 Personal Access Token".
Definition sshAuthMessage : string :=
  "SSH 认证失败：请检查 SSH 密钥是否已添加到 GitHub/GitLab".
Definition permissionMessage : string :=
  "无推送权限：请检查是否有仓库写入权限".
Definition networkMessage : string :=
  "网络错误：无法解析远程主机".
Definition genericPushMessage : string :=
  "推送失败，请检查网络和凭证配置".

Definition parsePushError (e : GitError) : string :=
  let stderr := orEmpty (err_stderr e) in
  if Js.includes stderr "Authentication failed" ||
     Js.includes stderr "403" ||
     Js.includes stderr "fatal: unable to access"
  then httpsAuthMessage
  else if Js.includes stderr "Permission denied (publickey)"
  then sshAuthMessage
  else if Js.includes stderr "Permission to" && Js.includes stderr "denied"
  then permissionMessage
  else if Js.includes stderr "Could not resolve host"
  then networkMessage
  else
    match (if Js.includes stderr "fatal:"
           then find (fun line => Js.includes line "fatal:")
                     (Js.split stderr (String Js.LF ""))
           else None) with
    | Some fatalLine => Js.trim (Js.removeFirst "fatal: " fatalLine)
    | None => genericPushMessage
    end.

Definition noRemoteMessage : string := "未配置远程仓库".
Definition pushedMessage : string := "推送成功".

(** [push] and [pushWithUpstream] differ in the command only. *)
Definition pushWith (command : string -> string -> string) : M PushResult :=
  tryCatch
    (branch <- getCurrentBranch ;;
     remote <- getRemoteName ;;
     match remote with
     | None => ret (mkPushResult false noRemoteMessage 0)
     | Some r =>
         run (command r branch) ;;;
         ret (mkPushResult true pushedMessage 1)
     end)
    (fun e => ret (mkPushResult false (parsePushError e) 0)).

Definition pushCommand (remote branch : string) : string :=
  "push " ++ remote ++ " " ++ branch.
Definition pushUpstreamCommand (remote branch : string) : string :=
  "push -u " ++ remote ++ " " ++ branch.

Definition push : M PushResult := pushWith pushCommand.
Definition pushWithUpstream : M PushResult := pushWith pushUpstreamCommand.

Definition hasUpstream : M bool :=
  tryCatch
    (branch <- getCurrentBranch ;;
     run ("rev-parse --abbrev-ref " ++ branch ++ "@{upstream}") ;;;
     ret true)
    (fun _ => ret false).

(* ================================================================== *)
(** ** [SyncManager] ([src/sync/sync-manager.ts]) *)
(* ================================================================== *)

(** [if (this.onStatusChange) this.onStatusChange(status, message)] *)
Definition noted (st : SyncStatus) (message : string) (s : Sys) : Sys :=
  if onStatusChange (mgr s) then logEvent (st, message) s else s.

Definition updateStatus (st : SyncStatus) (message : string) : M unit :=
  modify (noted st message).

Definition isSyncing : M bool := gets (fun s => syncLock (mgr s)).

Definition setSyncLock (b : bool) (s : Sys) : Sys :=
  setMgr (mkManager b (lastSyncTime (mgr s)) (lastSyncResult (mgr s))
                    (onStatusChange (mgr s))) s.

Definition setLastSyncTime (t : Date) (s : Sys) : Sys :=
  setMgr (mkManager (syncLock (mgr s)) (Some t) (lastSyncResult (mgr s))
                    (onStatusChange (mgr s))) s.

Definition setLastSyncResult (r : SyncResult) (s : Sys) : Sys :=
  setMgr (mkManager (syncLock (mgr s)) (lastSyncTime (mgr s)) (Some r)
                    (onStatusChange (mgr s))) s.

(** [this.lastSyncResult = r; return this.lastSyncResult;] *)
Definition recordResult (r : SyncResult) : M SyncResult :=
  modify (setLastSyncResult r) ;;; ret r.

(** The result of [checkGitStatus]. *)
Record GitCheck : Type := mkGitCheck {
  ck_available : bool;
  ck_isRepo : bool;
  ck_error : option string
}.

Definition checkGitStatus : M GitCheck :=
  gitAvailable <- isGitAvailable ;;
  if negb gitAvailable
  then ret (mkGitCheck false false
                       (Some "Git is not installed or not found in PATH"))
  else
    r <- isRepo ;;
    ret (mkGitCheck true r None).

Definition getStatus : M GitStatus := status.

Definition pullOnly : M PullResult :=
  tryCatch
    (remote <- getRemoteName ;;
     match remote with
     | None =>
         ret (mkPullResult true "No remote configured, skipping pull" [] [])
     | Some _ =>
         fetch ;;;
         st <- status ;;
         if N.eqb (st_behind st) 0
         then ret (mkPullResult true "Already up to date" [] [])
         else
           updateStatus pulling "Pulling changes..." ;;;
           pull
     end)
    (fun e =>
       c <- hasConflicts ;;
       if c then
         conflictFiles <- (s <- getStatus ;; ret (st_conflicts s)) ;;
         updateStatus conflict "Merge conflicts detected" ;;;
         ret (mkPullResult false "Merge conflicts detected" [] conflictFiles)
       else throw e).

Definition commitAndPush : M PushResult :=
  tryCatch
    (st <- status ;;
     if st_clean st then
       if N.ltb 0 (st_ahead st) then
         updateStatus pushing "Pushing changes..." ;;;
         push
       else ret (mkPushResult true "Nothing to commit or push" 0)
     else
       addAll ;;;
       message <- gets (fun s => generateCommitMessage (world s)) ;;
       commit message ;;;
       upstream <- hasUpstream ;;
       updateStatus pushing "Pushing changes..." ;;;
       if upstream then push else pushWithUpstream)
    (fun e =>
       if saysNothingToCommit e
       then tryCatch push
                     (fun pushError =>
                        ret (mkPushResult false (err_message pushError) 0))
       else ret (mkPushResult false (err_message e) 0)).

Definition busyResult : SyncResult :=
  mkSyncResult false "Sync already in progress" None None None.

(** [error || 'Git not available'], [error.message || '...']: the empty
    string is falsy. *)
Definition orDefault (o : option string) (d : string) : string :=
  match o with
  | Some x => if Js.nonEmpty x then x else d
  | None => d
  end.

(** The [try] block of [sync]. *)
Definition syncBody : M SyncResult :=
  ck <- checkGitStatus ;;
  if negb (ck_available ck) then
    updateStatus error (orDefault (ck_error ck) "Git not available") ;;;
    ret (mkSyncResult false (orDefault (ck_error ck) "Git not available")
                      None None None)
  else if negb (ck_isRepo ck) then
    updateStatus error "Not a git repository" ;;;
    ret (mkSyncResult false
           "Not a git repository. Please initialize a git repository first."
           None None None)
  else
    c <- hasConflicts ;;
    if c then
      updateStatus conflict "Merge conflicts detected" ;;;
      ret (mkSyncResult false
             "Merge conflicts detected. Please resolve them manually."
             None None (Some []))
    else
      updateStatus pulling "Pulling changes..." ;;;
      pullResult <- pullOnly ;;
      if negb (pl_success pullResult) && negb (isEmpty (pl_conflicts pullResult))
      then
        updateStatus conflict "Merge conflicts detected" ;;;
        recordResult (mkSyncResult false "Merge conflicts after pull" None None
                                   (Some (pl_conflicts pullResult)))
      else
        updateStatus pushing "Committing and pushing changes..." ;;;
        pushResult <- commitAndPush ;;
        if ps_success pushResult then
          updateStatus success "Sync completed successfully" ;;;
          now <- gets (fun s => clock (world s)) ;;
          modify (setLastSyncTime now) ;;;
          recordResult (mkSyncResult true "Sync completed"
                          (Some (N.of_nat (length (pl_files pullResult))))
                          (Some (ps_pushed pushResult)) None)
        else
          updateStatus error (ps_message pushResult) ;;;
          recordResult (mkSyncResult false (ps_message pushResult)
                                     None None None).

(** The [catch] block of [sync]. *)
Definition syncCatch (e : GitError) : M SyncResult :=
  let message := orDefault (Some (err_message e)) "Unknown error during sync" in
  updateStatus error message ;;;
  recordResult (mkSyncResult false message None None None).

Definition sync : M SyncResult :=
  locked <- gets (fun s => syncLock (mgr s)) ;;
  if locked then ret busyResult
  else
    modify (setSyncLock true) ;;;
    tryFinally (tryCatch syncBody syncCatch) (setSyncLock false).

(* ================================================================== *)
(** ** The commands of [GitSyncPlugin] ([main.ts]) *)
(* ================================================================== *)

(** [showNotice(message, isError)]: the flag [isError] only sets how long
    the notice stays on screen, which the log of notices does not keep. *)
Definition showNotice (message : string) : M unit :=
  if negb showNotifications then ret tt
  else modify (logNotice ("Git 同步: " ++ message)).

Definition busyNotice : string := "同步正在进行中".

(** [GitSyncPlugin.sync] *)
Definition pluginSync : M unit :=
  busy <- isSyncing ;;
  if busy then showNotice busyNotice
  else
    showNotice "开始同步..." ;;;
    result <- sync ;;
    if sr_success result then showNotice (sr_message result)
    else showNotice ("同步失败: " ++ sr_message result).

(** [GitSyncPlugin.pull] *)
Definition pluginPull : M unit :=
  busy <- isSyncing ;;
  if busy then showNotice busyNotice
  else
    result <- pullOnly ;;
    if pl_success result then showNotice (pl_message result)
    else showNotice ("拉取失败: " ++ pl_message result).

(** [GitSyncPlugin.commitAndPush] *)
Definition pluginCommitAndPush : M unit :=
  busy <- isSyncing ;;
  if busy then showNotice busyNotice
  else
    result <- commitAndPush ;;
    if ps_success result then showNotice (ps_message result)
    else showNotice ("推送失败: " ++ ps_message result).

End Engine.

(* ================================================================== *)
(** ** The rest of [GitExecutor] and of [SyncManager] *)
(* ================================================================== *)

Section EngineRest.
Context `{E : Env}.

Definition init : M unit := run "init" ;;; ret tt.

Definition getRemoteUrl : M (option string) :=
  tryCatch
    (remote <- getRemoteName ;;
     match remote with
     | None => ret None
     | Some r =>
         result <- run ("remote get-url " ++ r) ;;
         ret (Some (Js.trim (out_stdout result)))
     end)
    (fun _ => ret None).

(** [files.map(f => `"${f.replace(/"/g, '\\"')}"`).join(' ')] *)
Definition escapedFiles (files : list string) : string :=
  String.concat " " (map quoted files).

Definition add (files : list string) : M unit :=
  if isEmpty files then ret tt
  else run ("add " ++ escapedFiles files) ;;; ret tt.

Definition setUpstream : M unit :=
  branch <- getCurrentBranch ;;
  remote <- getRemoteName ;;
  match remote with
  | Some r => run ("branch --set-upstream-to=" ++ r ++ "/" ++ branch) ;;; ret tt
  | None => ret tt
  end.

Definition abortRebase : M unit := run "rebase --abort" ;;; ret tt.
Definition abortMerge : M unit := run "merge --abort" ;;; ret tt.

(** [`"${name}"`]: the text between double quotes, as it is. *)
Definition inQuotes (s : string) : string :=
  String Js.dquote (s ++ String Js.dquote "").

Definition setUserName (name : string) : M unit :=
  run ("config user.name " ++ inQuotes name) ;;; ret tt.
Definition setUserEmail (email : string) : M unit :=
  run ("config user.email " ++ inQuotes email) ;;; ret tt.

(** [result.stdout.trim() || null] *)
Definition trimmedOrNull (out : Output) : option string :=
  let t := Js.trim (out_stdout out) in
  if Js.nonEmpty t then Some t else None.

(** [getUserName], [getUserEmail] and [getCredentialHelper] differ in the
    command only. *)
Definition configValue (command : string) : M (option string) :=
  tryCatch (result <- run command ;; ret (trimmedOrNull result))
           (fun _ => ret None).

Definition getUserName : M (option string) := configValue "config user.name".
Definition getUserEmail : M (option string) := configValue "config user.email".
Definition getCredentialHelper : M (option string) :=
  configValue "config --global credential.helper".

Definition hasRemote (name : string) : M bool :=
  tryCatch (result <- run "remote" ;;
            ret (Js.arrayIncludes (Js.nonEmptyLines (out_stdout result)) name))
           (fun _ => ret false).

Definition addRemote (name url : string) : M unit :=
  run ("remote add " ++ name ++ " " ++ inQuotes url) ;;; ret tt.
Definition setRemoteUrl (name url : string) : M unit :=
  run ("remote set-url " ++ name ++ " " ++ inQuotes url) ;;; ret tt.

(** [SyncManager.initRepo] *)
Definition initRepo : M unit := init.

End EngineRest.

(* ================================================================== *)
(** ** The timer of the automatic sync *)
(* ================================================================== *)

(** The timers of the window that the manager has set: the identifier of
    each with its period in milliseconds, and the identifier that the next
    [setInterval] returns.  The callback of the timer is always a call of
    [sync] and is not kept. *)
Record Window : Type := mkWindow {
  timers : list (nat * N);
  nextTimer : nat
}.

Definition setInterval (ms : N) (w : Window) : nat * Window :=
  (nextTimer w, mkWindow ((nextTimer w, ms) :: timers w) (S (nextTimer w))).

Definition clearInterval (id : nat) (w : Window) : Window :=
  mkWindow (filter (fun t => negb (Nat.eqb (fst t) id)) (timers w))
           (nextTimer w).

(** The field [autoSyncInterval] of the manager, the window, and the
    identifiers handed to [registerInterval]. *)
Record AutoSync : Type := mkAutoSync {
  autoSyncInterval : option nat;
  window : Window;
  registered : list nat
}.

Definition stopAutoSync (a : AutoSync) : AutoSync :=
  match autoSyncInterval a with
  | Some id => mkAutoSync None (clearInterval id (window a)) (registered a)
  | None => a
  end.

(** [syncInterval] is [this.plugin.settings.syncInterval], in minutes. *)
Definition startAutoSync (syncInterval : N) (a : AutoSync) : AutoSync :=
  let a1 := match autoSyncInterval a with
            | Some _ => stopAutoSync a
            | None => a
            end in
  let intervalMs := (syncInterval * 60 * 1000)%N in
  let '(id, w) := setInterval intervalMs (window a1) in
  mkAutoSync (Some id) w (registered a1 ++ [id]).

(** [autoSync] is [this.plugin.settings.autoSync]. *)
Definition restartAutoSync (autoSync : bool) (syncInterval : N)
           (a : AutoSync) : AutoSync :=
  if autoSync then startAutoSync syncInterval (stopAutoSync a)
  else stopAutoSync a.

Definition dispose (a : AutoSync) : AutoSync := stopAutoSync a.

Section Startup.
Context `{E : Env}.

(** [initialize]; the three settings it reads are its first arguments.  The
    error of the pull at start goes to the console only. *)
Definition initialize (autoPullOnStart autoSync : bool) (syncInterval : N)
           (a : AutoSync) : M AutoSync :=
  ck <- checkGitStatus ;;
  if negb (ck_available ck) then
    updateStatus error "Git not available" ;;; ret a
  else if negb (ck_isRepo ck) then
    updateStatus error "Not a git repository" ;;; ret a
  else
    (if autoPullOnStart
     then tryCatch (pullOnly ;;; ret tt) (fun _ => ret tt)
     else ret tt) ;;;
    let a' := if autoSync then startAutoSync syncInterval a else a in
    updateStatus idle "Ready" ;;;
    ret a'.

End Startup.

(* ================================================================== *)
(** ** The other commands of [GitSyncPlugin] ([main.ts]) *)
(* ================================================================== *)

Section PluginRest.
Context `{E : Env}.

(** [GitSyncPlugin.checkGitStatus] *)
Definition pluginCheckGitStatus : M GitCheck :=
  available <- isGitAvailable ;;
  if negb available
  then ret (mkGitCheck false false (Some "Git 未安装或未找到"))
  else
    r <- isRepo ;;
    ret (mkGitCheck true r None).

(** [GitSyncPlugin.initRepo] *)
Definition pluginInitRepo : M unit :=
  ck <- pluginCheckGitStatus ;;
  if ck_isRepo ck then showNotice "已经是 Git 仓库"
  else
    tryCatch (init ;;; showNotice "Git 仓库已初始化")
             (fun e => showNotice ("初始化失败: " ++ err_message e)).

End PluginRest.

(* ================================================================== *)
(** ** Helpers ([src/utils/helpers.ts]) *)
(* ================================================================== *)

Module Helpers.

(** What the helpers read of a [Date]: [toISOString()],
    [getTime().toString()] and [toTimeString()]. *)
Record Instant : Type := mkInstant {
  toISOString : string;
  getTimeString : string;
  toTimeString : string
}.

(** [s.replace(/T/, ' ')]: the first [T] only. *)
Fixpoint replaceFirstT (s : string) : string :=
  match s with
  | EmptyString => EmptyString
  | String a s' =>
      if Ascii.eqb a "T" then String " " s' else String a (replaceFirstT s')
  end.

Fixpoint dropWhile (p : ascii -> bool) (s : string) : string :=
  match s with
  | EmptyString => EmptyString
  | String a s' => if p a then dropWhile p s' else s
  end.

Definition startsWithChar (p : ascii -> bool) (s : string) : bool :=
  match s with
  | EmptyString => false
  | String a _ => p a
  end.

(** [s.replace(/\..+/, '')]: the first full stop that has a character other
    than a line terminator after it goes, with all such characters that
    follow it. *)
Fixpoint cutFraction (s : string) : string :=
  match s with
  | EmptyString => EmptyString
  | String a s' =>
      if Ascii.eqb a "." && startsWithChar Regex.dot s'
      then dropWhile Regex.dot s'
      else String a (cutFraction s')
  end.

(** [formatDate(date)], on the ISO text of the date. *)
Definition formatDate (now : Instant) : string :=
  cutFraction (replaceFirstT (toISOString now)).

(** [s.replace(/token/g, value)] for a literal token and a value without
    [$]: every occurrence, left to right, without overlap.  [skip] counts
    the characters of a token still to be passed over. *)
Fixpoint replaceAll_go (token value : string) (skip : nat) (s : string)
  : string :=
  match s with
  | EmptyString => EmptyString
  | String a s' =>
      match skip with
      | S k => replaceAll_go token value k s'
      | O =>
          if Js.startsWith token s
          then value ++ replaceAll_go token value (String.length token - 1) s'
          else String a (replaceAll_go token value 0 s')
      end
  end.

Definition replaceAll (token value s : string) : string :=
  replaceAll_go token value 0 s.

(** [generateCommitMessage(template)] at the instant [now].  The values
    come from [Date] and hold no [$]. *)
Definition generateCommitMessage (template : string) (now : Instant) : string :=
  replaceAll "{{time}}" (hd "" (Js.split (toTimeString now) " "))
    (replaceAll "{{isoDate}}" (toISOString now)
       (replaceAll "{{timestamp}}" (getTimeString now)
          (replaceAll "{{datetime}}" (formatDate now)
             (replaceAll "{{date}}" (formatDate now) template)))).

(** [escapeHtml(text)] *)
Definition escapeChar (c : ascii) : string :=
  if Ascii.eqb c "&" then "&amp;"
  else if Ascii.eqb c "<" then "&lt;"
  else if Ascii.eqb c ">" then "&gt;"
  else if Ascii.eqb c Js.dquote then "&quot;"
  else if Ascii.eqb c "'" then "&#039;"
  else String c "".

Fixpoint escapeHtml (text : string) : string :=
  match text with
  | EmptyString => EmptyString
  | String c text' => escapeChar c ++ escapeHtml text'
  end.

End Helpers.



(* ================================================================== *)
(** ** Vocabulary for the statements *)
(* ================================================================== *)

(** The tests of the loop of [status], line by line. *)
Definition lineIsConflict (line : string) : bool :=
  isConflictCode (Js.charAt line 0) (Js.charAt line 1).
Definition lineIsStaged (line : string) : bool :=
  negb (lineIsConflict line) &&
  (charIsNot (Js.charAt line 0) " " && charIsNot (Js.charAt line 0) "?").
Definition lineIsModified (line : string) : bool :=
  negb (lineIsConflict line) &&
  (charIsNot (Js.charAt line 1) " " && charIsNot (Js.charAt line 1) "?").
Definition lineIsUntracked (line : string) : bool :=
  negb (lineIsConflict line) &&
  (charIs (Js.charAt line 0) "?" && charIs (Js.charAt line 1) "?").
Definition lineFile (line : string) : string := Js.substringFrom 3 line.

(** The file names of the lines that pass a test, in order. *)
Definition pick (p : string -> bool) (lines : list string) : list string :=
  map lineFile (filter p lines).

(** The conflict test of the loop, as a proposition on the two codes. *)
Definition conflictCodes (i w : option ascii) : Prop :=
  i = Some "U"%char \/ w = Some "U"%char \/
  (i = Some "A"%char /\ w = Some "A"%char) \/
  (i = Some "D"%char /\ w = Some "D"%char).

(** Commands that move data to or from the remote, or set local work aside
    for that. *)
Definition isTransferCommand (command : string) : bool :=
  Js.startsWith "fetch" command || Js.startsWith "pull" command ||
  Js.startsWith "push" command || Js.startsWith "stash" command.

(** The three commands that [sync] runs before it pulls. *)
Definition preflightCommands : list string :=
  ["--version"; "rev-parse --is-inside-work-tree"; unmergedCommand].

(** What [hasConflicts] makes of the answer of [git]. *)
Definition reportsConflicts (r : ExecResult) : bool :=
  match r with
  | inl out => Js.nonEmpty (Js.trim (out_stdout out))
  | inr _ => false
  end.

(** The verdicts of [sync]. *)
Definition existingConflictResult : SyncResult :=
  mkSyncResult false "Merge conflicts detected. Please resolve them manually."
               None None (Some []).

Definition pullConflictResult (pr : PullResult) : SyncResult :=
  mkSyncResult false "Merge conflicts after pull" None None
               (Some (pl_conflicts pr)).

Definition completedResult (pr : PullResult) (pu : PushResult) : SyncResult :=
  mkSyncResult true "Sync completed"
               (Some (N.of_nat (length (pl_files pr))))
               (Some (ps_pushed pu)) None.

(** [!pullResult.success && pullResult.conflicts.length > 0] *)
Definition pullConflict (pr : PullResult) : bool :=
  negb (pl_success pr) && negb (isEmpty (pl_conflicts pr)).

Section Vocabulary.
Context `{E : Env}.

(** [keeps m]: running [m] leaves the fields of the manager alone. *)
Definition keeps {A} (m : M A) : Prop :=
  forall s, mgr (snd (m s)) = mgr s.

(** The last step of [commitAndPush]: the push, with or without
    [--set-upstream]. *)
Definition pushStep : M PushResult :=
  upstream <- hasUpstream ;;
  updateStatus pushing "Pushing changes..." ;;;
  if upstream then push else pushWithUpstream.

(** The state after the notice that a sync is running has been shown. *)
Definition busyNoticed (s : Sys) : Sys :=
  if showNotifications then logNotice ("Git 同步: " ++ busyNotice) s else s.

(** The state in which [sync] starts its pull: the lock taken, the three
    checks made, the status callback told. *)
Definition readyToPull (s : Sys) (w1 w2 w3 : World) : Sys :=
  noted pulling "Pulling changes..."
        (after unmergedCommand w3
               (after "rev-parse --is-inside-work-tree" w2
                      (after "--version" w1 (setSyncLock true s)))).

(** The ways in which the [try] and [catch] blocks of [sync], started in
    [s0], can end with the verdict [v] in the state [s1]: nothing recorded;
    the verdict recorded; the verdict and the time recorded, after
    [pullOnly] and [commitAndPush] have both returned. *)
Inductive SyncEnd (s0 : Sys) (v : SyncResult) (s1 : Sys) : Prop :=
| EndUntouched :
    mgr s1 = mgr s0 ->
    sr_success v = false ->
    SyncEnd s0 v s1
| EndRecorded :
    mgr s1 = mkManager (syncLock (mgr s0)) (lastSyncTime (mgr s0)) (Some v)
                       (onStatusChange (mgr s0)) ->
    sr_success v = false ->
    SyncEnd s0 v s1
| EndCompleted (sa sb sc : Sys) (pr : PullResult) (pu : PushResult) :
    pullOnly sa = (Ok pr, sb) ->
    pullConflict pr = false ->
    commitAndPush (noted pushing "Committing and pushing changes..." sb)
    = (Ok pu, sc) ->
    ps_success pu = true ->
    v = completedResult pr pu ->
    mgr s1 = mkManager (syncLock (mgr s0)) (Some (clock (world sc))) (Some v)
                       (onStatusChange (mgr s0)) ->
    SyncEnd s0 v s1.

End Vocabulary.

(* ================================================================== *)
(** ** Vocabulary for the further statements *)
(* ================================================================== *)

(** The codes of a file line that [status] puts in no list. *)
Definition inertCodes (i w : option ascii) : Prop :=
  (i = Some " "%char \/ i = Some "?"%char) /\
  (w = Some " "%char \/ w = Some "?"%char) /\
  ~ (i = Some "?"%char /\ w = Some "?"%char).

(** The file lines of a status output. *)
Definition fileLines (stdout : string) : list string :=
  tl (Js.nonEmptyLines stdout).

(** The fixed messages of [parsePushError]. *)
Definition fixedPushMessages : list string :=
  [httpsAuthMessage; sshAuthMessage; permissionMessage; networkMessage;
   genericPushMessage].

(** Does the character occur in the text? *)
Fixpoint occurs (c : ascii) (s : string) : bool :=
  match s with
  | EmptyString => false
  | String a s' => Ascii.eqb a c || occurs c s'
  end.

(** A character of the ISO text of a date: one byte of ASCII that is no line
    terminator. *)
Definition isoChar (c : ascii) : bool :=
  Regex.dot c && Nat.ltb (nat_of_ascii c) 128.

(** Do all the characters of the text pass the test? *)
Definition allChars (p : ascii -> bool) (s : string) : bool :=
  forallb p (list_ascii_of_string s).

(** The white space and the line terminators of JavaScript that are not
    ASCII, as UTF-8 texts: U+00A0, U+1680, U+2000 to U+200A, U+2028, U+2029,
    U+202F, U+205F, U+3000 and U+FEFF. *)
Definition utf8of2 (a b : nat) : string :=
  String (ascii_of_nat a) (String (ascii_of_nat b) "").
Definition utf8of3 (a b c : nat) : string :=
  String (ascii_of_nat a) (utf8of2 b c).
Definition wideSpaces : list string :=
  [utf8of2 194 160; utf8of3 225 154 128] ++
  map (utf8of3 226 128) (seq 128 11) ++
  [utf8of3 226 128 168; utf8of3 226 128 169; utf8of3 226 128 175;
   utf8of3 226 129 159; utf8of3 227 128 128; utf8of3 239 187 191].

(** A text whose white space is all ASCII.  On such a text [trim()], [\s]
    and [.] of JavaScript do what [Js.trim], [Js.isSpace] and [Regex.dot]
    do on its bytes. *)
Definition plainSpaced (s : string) : bool :=
  forallb (fun wide => negb (Js.includes s wide)) wideSpaces.

(** [name] is what is left of [text] without the white space at its two
    ends. *)
Definition strippedTo (text name : string) : Prop :=
  exists ws1 ws2,
    text = (ws1 ++ name ++ ws2)%string /\
    allChars Js.isSpace ws1 = true /\
    allChars Js.isSpace ws2 = true /\
    Helpers.startsWithChar Js.isSpace name = false /\
    Helpers.startsWithChar Js.isSpace (Js.rev name) = false.

(** What [stdout.trim() || null] makes of a text: null for a blank one, and
    otherwise the text without the white space at its two ends. *)
Definition configAnswer (text : string) (v : option string) : Prop :=
  match v with
  | None => allChars Js.isSpace text = true
  | Some name => name <> "" /\ strippedTo text name
  end.

(** What can be done to the timer of the automatic sync, with the settings
    in force at that moment. *)
Inductive TimerOp : Type :=
| OpStart (syncInterval : N)
| OpStop
| OpRestart (autoSync : bool) (syncInterval : N)
| OpDispose.

Definition applyOp (a : AutoSync) (op : TimerOp) : AutoSync :=
  match op with
  | OpStart m => startAutoSync m a
  | OpStop => stopAutoSync a
  | OpRestart b m => restartAutoSync b m a
  | OpDispose => dispose a
  end.

(** A manager just built: no timer, in a window that has set none. *)
Definition newAutoSync (next : nat) : AutoSync :=
  mkAutoSync None (mkWindow [] next) [].

(** The field names the one timer that runs, if any. *)
Definition oneTimer (a : AutoSync) : Prop :=
  match autoSyncInterval a with
  | None => timers (window a) = []
  | Some id => exists ms, timers (window a) = [(id, ms)]
  end.

(** A regular expression without capture groups. *)
Fixpoint capFree (r : Regex.re) : bool :=
  match r with
  | Regex.Cap _ _ => false
  | Regex.Seq a b => capFree a && capFree b
  | Regex.Alt a b => capFree a && capFree b
  | _ => true
  end.


Section FurtherVocabulary.
Context `{E : Env}.

(** [quiet m]: running [m] shows no notice. *)
Definition quiet {A} (m : M A) : Prop :=
  forall s, notices (snd (m s)) = notices s.

(** The notice that a command of the plugin shows for a result. *)
Definition resultNotice (success : bool) (failed message : string) : string :=
  "Git 同步: " ++ (if success then message else failed ++ message).

End FurtherVocabulary.

(* ================================================================== *)
(** ** A scripted [git] for concrete runs *)
(* ================================================================== *)

(** The world is the list of the exchanges still to come: the command
    expected next and what [git] answers to it.  Any other command fails
    and leaves the script where it is. *)
Module Mock.

Definition Script : Type := list (string * ExecResult).

Definition nl : string := String Js.LF "".

Definition ok (stdout : string) : ExecResult := inl (mkOutput stdout "").

Definition failure (message stdout stderr : string) : ExecResult :=
  inr (mkGitError message (Some "1") (Some stderr) (Some stdout)).

Definition unexpected : ExecResult :=
  inr (mkGitError "unexpected command" None None None).

Definition exec (command : string) (w : Script) : ExecResult * Script :=
  match w with
  | (expected, answer) :: rest =>
      if String.eqb command expected then (answer, rest) else (unexpected, w)
  | [] => (unexpected, [])
  end.

(** A fixed clock. *)
Definition clock (w : Script) : Date := 1700000000000%Z.

#[export] Instance env : Env :=
  mkEnv Script exec clock (fun _ => "vault backup") true.

(** A manager with a status callback registered and nothing recorded yet. *)
Definition start (locked : bool) (script : Script) : Sys :=
  mkSys script [] [] [] (mkManager locked None None true).

Definition statusCommand : string := "status --porcelain=v1 --branch".

(** The three checks of [sync] pass and find no unmerged path. *)
Definition preflightClean : Script :=
  [ ("--version", ok ("git version 2.43.0" ++ nl));
    ("rev-parse --is-inside-work-tree", ok ("true" ++ nl));
    (unmergedCommand, ok "") ].

(** The three checks pass; [notes.md] is unmerged. *)
Definition preflightConflict : Script :=
  [ ("--version", ok ("git version 2.43.0" ++ nl));
    ("rev-parse --is-inside-work-tree", ok ("true" ++ nl));
    (unmergedCommand, ok ("notes.md" ++ nl)) ].

(** No remote is configured. *)
Definition noRemote : Script := [ ("remote", ok "") ].

(** A remote, and nothing new on it. *)
Definition upToDate : Script :=
  [ ("remote", ok ("origin" ++ nl));
    ("remote", ok ("origin" ++ nl));
    ("fetch origin", ok "");
    (statusCommand, ok ("## main...origin/main" ++ nl)) ].

(** A clean tree on a branch level with its upstream. *)
Definition cleanTree : Script :=
  [ (statusCommand, ok ("## main...origin/main" ++ nl)) ].

(** [notes.md] is modified locally; the remote has one new commit that
    touches it too.  The rebase goes through, and putting the stash back
    conflicts. *)
Definition stashPopConflicts : Script :=
  [ ("rev-parse --abbrev-ref HEAD", ok ("main" ++ nl));
    ("remote", ok ("origin" ++ nl));
    ("remote", ok ("origin" ++ nl));
    ("fetch origin", ok "");
    (statusCommand,
     ok ("## main...origin/main [behind 1]" ++ nl ++ " M notes.md" ++ nl));
    (stashPushCommand,
     ok ("Saved working directory and index state On main: obsidian-git-sync-auto-stash" ++ nl));
    ("pull origin main --rebase",
     ok (" notes.md | 2 +-" ++ nl ++
         " 1 file changed, 1 insertion(+), 1 deletion(-)" ++ nl));
    ("stash pop",
     failure "Command failed: git stash pop"
             ("Auto-merging notes.md" ++ nl ++
              "CONFLICT (content): Merge conflict in notes.md" ++ nl)
             "");
    (unmergedCommand, ok ("notes.md" ++ nl)) ].

(** The remote has one new commit that conflicts with a local commit: the
    rebase stops. *)
Definition rebaseConflicts : Script :=
  preflightClean ++
  [ ("remote", ok ("origin" ++ nl));
    ("remote", ok ("origin" ++ nl));
    ("fetch origin", ok "");
    (statusCommand, ok ("## main...origin/main [ahead 1, behind 1]" ++ nl));
    ("rev-parse --abbrev-ref HEAD", ok ("main" ++ nl));
    ("remote", ok ("origin" ++ nl));
    ("remote", ok ("origin" ++ nl));
    ("fetch origin", ok "");
    (statusCommand, ok ("## main...origin/main [ahead 1, behind 1]" ++ nl));
    ("pull origin main --rebase",
     failure "Command failed: git pull origin main --rebase"
             ("Auto-merging notes.md" ++ nl ++
              "CONFLICT (content): Merge conflict in notes.md" ++ nl)
             ("error: could not apply 3f2a1c9... vault backup" ++ nl));
    (unmergedCommand, ok ("notes.md" ++ nl));
    (unmergedCommand, ok ("notes.md" ++ nl)) ].

(** [status] sees a change, and by the time of the commit another actor
    has committed it. *)
Definition committedElsewhere : Script :=
  [ (statusCommand,
     ok ("## main...origin/main" ++ nl ++ " M notes.md" ++ nl));
    ("add -A", ok "");
    (commitCommand "vault backup",
     failure "Command failed: git commit"
             ("On branch main" ++ nl ++
              "nothing to commit, working tree clean" ++ nl)
             "");
    ("rev-parse --abbrev-ref HEAD", ok ("main" ++ nl));
    ("rev-parse --abbrev-ref main@{upstream}", ok ("origin/main" ++ nl));
    ("rev-parse --abbrev-ref HEAD", ok ("main" ++ nl));
    ("remote", ok ("origin" ++ nl));
    ("push origin main", ok "") ].

(** The commit itself finds nothing to commit. *)
Definition nothingToCommit : Script :=
  [ (commitCommand "vault backup",
     failure "Command failed: git commit"
             ("On branch main" ++ nl ++
              "nothing to commit, working tree clean" ++ nl)
             "") ].

(** A status with a file changed both in the index and in the work tree,
    an unmerged file, and a file added by us and changed by them. *)
Definition mixedStatus : string :=
  "## main...origin/main [ahead 1, behind 2]" ++ nl ++
  "MM notes.md" ++ nl ++
  "UU plan.md" ++ nl ++
  "?? draft.md" ++ nl.

(** One file line: [notes.md] changed in the index and again in the work
    tree. *)
Definition bothChanged : string :=
  "## main...origin/main" ++ nl ++ "MM notes.md" ++ nl.

Definition addedByUs : string :=
  "## main...origin/main" ++ nl ++ "AU both.md" ++ nl.




(** The fetch cannot reach the remote; no path is unmerged. *)
Definition fetchFails : Script :=
  [ ("remote", ok ("origin" ++ nl));
    ("remote", ok ("origin" ++ nl));
    ("fetch origin",
     failure "Command failed: git fetch origin" ""
             ("ssh: Could not resolve hostname example.com: Name or service not known" ++ nl ++
              "fatal: Could not read from remote repository." ++ nl));
    (unmergedCommand, ok "") ].

(** The three checks pass, then the fetch fails. *)
Definition syncFetchFails : Script := preflightClean ++ fetchFails.

(** On a branch, with no remote configured. *)
Definition branchNoRemote : Script :=
  [ ("rev-parse --abbrev-ref HEAD", ok ("main" ++ nl));
    ("remote", ok "") ].

(** Only an untracked file locally; the pull goes through; the stash holds
    an older entry of the user, which [stash pop] applies. *)
Definition popsOlderStash : Script :=
  [ ("rev-parse --abbrev-ref HEAD", ok ("main" ++ nl));
    ("remote", ok ("origin" ++ nl));
    ("remote", ok ("origin" ++ nl));
    ("fetch origin", ok "");
    (statusCommand,
     ok ("## main...origin/main [behind 1]" ++ nl ++ "?? draft.md" ++ nl));
    ("pull origin main --rebase",
     ok (" notes.md | 2 +-" ++ nl ++
         " 1 file changed, 1 insertion(+), 1 deletion(-)" ++ nl));
    ("stash pop",
     ok ("Dropped refs/stash@{0} (1c2d3e4f)" ++ nl)) ].

(** [notes.md] is modified locally and stashed; the rebase then stops on a
    conflict with a local commit. *)
Definition stashLeftBehind : Script :=
  [ ("rev-parse --abbrev-ref HEAD", ok ("main" ++ nl));
    ("remote", ok ("origin" ++ nl));
    ("remote", ok ("origin" ++ nl));
    ("fetch origin", ok "");
    (statusCommand,
     ok ("## main...origin/main [ahead 1, behind 1]" ++ nl ++
         " M notes.md" ++ nl));
    (stashPushCommand,
     ok ("Saved working directory and index state On main: obsidian-git-sync-auto-stash" ++ nl));
    ("pull origin main --rebase",
     failure "Command failed: git pull origin main --rebase"
             ("CONFLICT (content): Merge conflict in plan.md" ++ nl)
             ("error: could not apply 3f2a1c9... vault backup" ++ nl));
    (unmergedCommand, ok ("plan.md" ++ nl));
    (unmergedCommand, ok ("plan.md" ++ nl)) ].

(** Two remotes, [origin] listed second. *)
Definition twoRemotes : Script :=
  [ ("remote", ok ("backup" ++ nl ++ "origin" ++ nl)) ].

(** A remote, and a branch that tracks no upstream. *)
Definition noTracking : Script :=
  [ ("remote", ok ("origin" ++ nl));
    ("remote", ok ("origin" ++ nl));
    ("fetch origin", ok "");
    (statusCommand, ok ("## main" ++ nl)) ].

(** [git] is not installed. *)
Definition gitMissing : Script :=
  [ ("--version",
     failure "Command failed: git --version" ""
             ("/bin/sh: git: command not found" ++ nl)) ].

(** The vault is not a repository. *)
Definition notARepository : Script :=
  [ ("--version", ok ("git version 2.43.0" ++ nl));
    ("rev-parse --is-inside-work-tree",
     failure "Command failed: git rev-parse --is-inside-work-tree" ""
             ("fatal: not a git repository (or any of the parent directories): .git" ++ nl)) ].

(** A hook refuses the commit. *)
Definition hookRefuses : Script :=
  [ (statusCommand,
     ok ("## main...origin/main" ++ nl ++ " M notes.md" ++ nl));
    ("add -A", ok "");
    (commitCommand "vault backup",
     failure "Command failed: git commit" ""
             ("pre-commit hook failed" ++ nl)) ].

(** At start: the checks pass, the fetch of the pull fails. *)
Definition startupOffline : Script :=
  [ ("--version", ok ("git version 2.43.0" ++ nl));
    ("rev-parse --is-inside-work-tree", ok ("true" ++ nl)) ] ++ fetchFails.

(** No user name is configured. *)
Definition noUserName : Script :=
  [ ("config user.name", failure "Command failed: git config user.name" "" "") ].

(** A user name is configured. *)
Definition userNamed : Script :=
  [ ("config user.name", ok ("张三" ++ nl)) ].

(** The summary of a pull that changed one file. *)
Definition pullSummary : string :=
  "Updating 3f2a1c9..8d4e5b7" ++ nl ++ "Fast-forward" ++ nl ++
  " 笔记/计划.md | 2 +-" ++ nl ++
  " 1 file changed, 1 insertion(+), 1 deletion(-)" ++ nl.

(** An instant, as [Date] reports it. *)
Definition instant : Helpers.Instant :=
  Helpers.mkInstant "2026-11-03T07:24:05.123Z" "1793690645123"
                    "07:24:05 GMT+0000 (Coordinated Universal Time)".

(** The host of an SSH remote cannot be resolved. *)
Definition hostUnknown : GitError :=
  mkGitError "Command failed: git push origin main" (Some "128")
    (Some ("ssh: Could not resolve hostname example.com: Name or service not known" ++ nl ++
           "fatal: Could not read from remote repository." ++ nl)%string)
    (Some "").

End Mock.

(* ================================================================== *)
(** ** Facts about the monad and the executor *)
(* ================================================================== *)

Section Facts.
Context `{E : Env}.

Lemma spawn_eq (command : string) (s : Sys) :
  spawn command s =
  (fst (exec command (world s)),
   after command (snd (exec command (world s))) s).
Proof.
  unfold spawn. destruct (exec command (world s)); reflexivity.
Qed.

Lemma run_ok (command : string) (s : Sys) (out : Output) (w : World) :
  exec command (world s) = (inl out, w) ->
  run command s = (Ok out, after command w s).
Proof.
  intros H. unfold run. rewrite spawn_eq, H. reflexivity.
Qed.

Lemma run_throw (command : string) (s : Sys) (e : GitError) (w : World) :
  exec command (world s) = (inr e, w) ->
  run command s = (Throw (thrown e), after command w s).
Proof.
  intros H. unfold run. rewrite spawn_eq, H. reflexivity.
Qed.

Lemma bind_ok {A B} (m : M A) (f : A -> M B) (s s' : Sys) (a : A) :
  m s = (Ok a, s') -> bind m f s = f a s'.
Proof. intros H. unfold bind. rewrite H. reflexivity. Qed.

Lemma bind_throw {A B} (m : M A) (f : A -> M B) (s s' : Sys) (e : GitError) :
  m s = (Throw e, s') -> bind m f s = (Throw e, s').
Proof. intros H. unfold bind. rewrite H. reflexivity. Qed.

Lemma tryCatch_ok {A} (m : M A) (h : GitError -> M A) (s s' : Sys) (a : A) :
  m s = (Ok a, s') -> tryCatch m h s = (Ok a, s').
Proof. intros H. unfold tryCatch. rewrite H. reflexivity. Qed.

Lemma updateStatus_eq (st : SyncStatus) (message : string) (s : Sys) :
  updateStatus st message s = (Ok tt, noted st message s).
Proof. reflexivity. Qed.

Lemma mgr_noted (st : SyncStatus) (message : string) (s : Sys) :
  mgr (noted st message s) = mgr s.
Proof. unfold noted. destruct (onStatusChange (mgr s)); reflexivity. Qed.

Lemma recordResult_eq (v : SyncResult) (s : Sys) :
  recordResult v s = (Ok v, setLastSyncResult v s).
Proof. reflexivity. Qed.

(** *** The queries, as equations on the answer of [git] *)

Lemma getCurrentBranch_cases (s : Sys) :
  (exists o w,
      getCurrentBranch s =
      (Ok (Js.trim (out_stdout o)), after "rev-parse --abbrev-ref HEAD" w s))
  \/
  (exists e w,
      getCurrentBranch s =
      (Throw e, after "rev-parse --abbrev-ref HEAD" w s)).
Proof.
  unfold getCurrentBranch, bind, ret.
  destruct (exec "rev-parse --abbrev-ref HEAD" (world s)) as [[o | e] w] eqn:H.
  - rewrite (run_ok _ _ _ _ H). left; eauto.
  - rewrite (run_throw _ _ _ _ H). right; eauto.
Qed.

Lemma getRemoteName_eq (s : Sys) :
  getRemoteName s =
  (Ok match fst (exec "remote" (world s)) with
      | inl out => pickRemote (Js.nonEmptyLines (out_stdout out))
      | inr _ => None
      end,
   after "remote" (snd (exec "remote" (world s))) s).
Proof.
  unfold getRemoteName, tryCatch, bind, ret.
  destruct (exec "remote" (world s)) as [[o | e] w] eqn:H.
  - rewrite (run_ok _ _ _ _ H). reflexivity.
  - rewrite (run_throw _ _ _ _ H). reflexivity.
Qed.

Lemma isGitAvailable_eq (s : Sys) :
  isGitAvailable s =
  (Ok match fst (exec "--version" (world s)) with
      | inl _ => true
      | inr _ => false
      end,
   after "--version" (snd (exec "--version" (world s))) s).
Proof.
  unfold isGitAvailable. rewrite spawn_eq.
  destruct (exec "--version" (world s)) as [[o | e] w]; reflexivity.
Qed.

Lemma isRepo_eq (s : Sys) :
  isRepo s =
  (Ok match fst (exec "rev-parse --is-inside-work-tree" (world s)) with
      | inl _ => true
      | inr _ => false
      end,
   after "rev-parse --is-inside-work-tree"
         (snd (exec "rev-parse --is-inside-work-tree" (world s))) s).
Proof.
  unfold isRepo, tryCatch, bind, ret.
  destruct (exec "rev-parse --is-inside-work-tree" (world s))
    as [[o | e] w] eqn:H.
  - rewrite (run_ok _ _ _ _ H). reflexivity.
  - rewrite (run_throw _ _ _ _ H). reflexivity.
Qed.

Lemma hasConflicts_eq (s : Sys) :
  hasConflicts s =
  (Ok (reportsConflicts (fst (exec unmergedCommand (world s)))),
   after unmergedCommand (snd (exec unmergedCommand (world s))) s).
Proof.
  unfold hasConflicts, tryCatch, bind, ret.
  destruct (exec unmergedCommand (world s)) as [[o | e] w] eqn:H.
  - rewrite (run_ok _ _ _ _ H). reflexivity.
  - rewrite (run_throw _ _ _ _ H). reflexivity.
Qed.

Lemma commit_eq (message : string) (s : Sys) :
  commit message s =
  (match fst (exec (commitCommand message) (world s)) with
   | inl _ => Ok (mkCommitResult true "Commit successful" 0)
   | inr e =>
       if Js.includes (orEmpty (err_stdout e)) "nothing to commit"
       then Ok (mkCommitResult true "Nothing to commit" 0)
       else Throw (thrown e)
   end,
   after (commitCommand message)
         (snd (exec (commitCommand message) (world s))) s).
Proof.
  unfold commit, tryCatch, bind, ret.
  destruct (exec (commitCommand message) (world s)) as [[o | e] w] eqn:H.
  - rewrite (run_ok _ _ _ _ H). reflexivity.
  - rewrite (run_throw _ _ _ _ H).
    change (saysNothingToCommit (thrown e))
      with (Js.includes (orEmpty (err_stdout e)) "nothing to commit").
    cbn [fst snd].
    destruct (Js.includes (orEmpty (err_stdout e)) "nothing to commit");
      reflexivity.
Qed.

Lemma checkGitStatus_unavailable (s : Sys) (e : GitError) (w1 : World) :
  exec "--version" (world s) = (inr e, w1) ->
  checkGitStatus s =
  (Ok (mkGitCheck false false
                  (Some "Git is not installed or not found in PATH")),
   after "--version" w1 s).
Proof.
  intros H1. unfold checkGitStatus.
  rewrite (bind_ok _ _ _ _ _ (isGitAvailable_eq s)), H1. reflexivity.
Qed.

Lemma checkGitStatus_notRepo (s : Sys) (o1 : Output) (e : GitError)
      (w1 w2 : World) :
  exec "--version" (world s) = (inl o1, w1) ->
  exec "rev-parse --is-inside-work-tree" w1 = (inr e, w2) ->
  checkGitStatus s =
  (Ok (mkGitCheck true false None),
   after "rev-parse --is-inside-work-tree" w2 (after "--version" w1 s)).
Proof.
  intros H1 H2. unfold checkGitStatus.
  rewrite (bind_ok _ _ _ _ _ (isGitAvailable_eq s)), H1. cbn [fst snd negb].
  rewrite (bind_ok _ _ _ _ _ (isRepo_eq _)). cbn [world after fst snd].
  rewrite H2. reflexivity.
Qed.

Lemma checkGitStatus_ready (s : Sys) (o1 o2 : Output) (w1 w2 : World) :
  exec "--version" (world s) = (inl o1, w1) ->
  exec "rev-parse --is-inside-work-tree" w1 = (inl o2, w2) ->
  checkGitStatus s =
  (Ok (mkGitCheck true true None),
   after "rev-parse --is-inside-work-tree" w2 (after "--version" w1 s)).
Proof.
  intros H1 H2. unfold checkGitStatus.
  rewrite (bind_ok _ _ _ _ _ (isGitAvailable_eq s)), H1. cbn [fst snd negb].
  rewrite (bind_ok _ _ _ _ _ (isRepo_eq _)). cbn [world after fst snd].
  rewrite H2. reflexivity.
Qed.

(** *** Pushing never throws *)

Lemma pushWith_cases (command : string -> string -> string) (s : Sys) :
  exists s',
    pushWith command s = (Ok (mkPushResult true pushedMessage 1), s') \/
    pushWith command s = (Ok (mkPushResult false noRemoteMessage 0), s') \/
    exists e, pushWith command s =
              (Ok (mkPushResult false (parsePushError e) 0), s').
Proof.
  unfold pushWith, tryCatch.
  destruct (getCurrentBranch_cases s) as [(o & w & H) | (e & w & H)].
  - rewrite (bind_ok _ _ _ _ _ H).
    rewrite (bind_ok _ _ _ _ _ (getRemoteName_eq _)).
    match goal with
    | |- context [match ?x with Some _ => _ | None => _ end] =>
        destruct x as [r |]
    end.
    + unfold bind, ret, run. rewrite spawn_eq.
      match goal with
      | |- context [fst ?x] => destruct x as [[o' | e'] w']
      end; cbn [fst snd]; eauto.
    + unfold ret. eauto.
  - rewrite (bind_throw _ _ _ _ _ H). unfold ret. eauto.
Qed.

Lemma pushWith_ok (command : string -> string -> string) (s : Sys) :
  exists r s', pushWith command s = (Ok r, s').
Proof.
  destruct (pushWith_cases command s) as (s' & [H | [H | (e & H)]]);
    rewrite H; eauto.
Qed.

Lemma hasUpstream_ok (s : Sys) : exists b s', hasUpstream s = (Ok b, s').
Proof.
  unfold hasUpstream, tryCatch.
  destruct (getCurrentBranch_cases s) as [(o & w & H) | (e & w & H)].
  - rewrite (bind_ok _ _ _ _ _ H). unfold bind, ret, run. rewrite spawn_eq.
    match goal with
    | |- context [fst ?x] => destruct x as [[o' | e'] w']
    end; cbn [fst snd]; eauto.
  - rewrite (bind_throw _ _ _ _ _ H). unfold ret. eauto.
Qed.

Lemma pushStep_ok (s : Sys) : exists r s', pushStep s = (Ok r, s').
Proof.
  unfold pushStep. destruct (hasUpstream_ok s) as (b & s1 & H).
  rewrite (bind_ok _ _ _ _ _ H).
  rewrite (bind_ok _ _ _ _ _ (updateStatus_eq _ _ _)).
  destruct b; [unfold push | unfold pushWithUpstream]; apply pushWith_ok.
Qed.

(** *** The executor leaves the fields of the manager alone *)

Lemma keeps_ret {A} (a : A) : keeps (ret a).
Proof. intros s. reflexivity. Qed.

Lemma keeps_throw {A} (e : GitError) : keeps (throw (A:=A) e).
Proof. intros s. reflexivity. Qed.

Lemma keeps_gets {A} (f : Sys -> A) : keeps (gets f).
Proof. intros s. reflexivity. Qed.

Lemma keeps_bind {A B} (m : M A) (f : A -> M B) :
  keeps m -> (forall a, keeps (f a)) -> keeps (bind m f).
Proof.
  intros Hm Hf s. unfold bind. specialize (Hm s).
  destruct (m s) as [[a | e] s1]; simpl in *.
  - rewrite Hf. assumption.
  - assumption.
Qed.

Lemma keeps_tryCatch {A} (m : M A) (h : GitError -> M A) :
  keeps m -> (forall e, keeps (h e)) -> keeps (tryCatch m h).
Proof.
  intros Hm Hh s. unfold tryCatch. specialize (Hm s).
  destruct (m s) as [[a | e] s1]; simpl in *.
  - assumption.
  - rewrite Hh. assumption.
Qed.

Lemma keeps_run (command : string) : keeps (run command).
Proof.
  intros s. unfold run. rewrite spawn_eq.
  destruct (fst (exec command (world s))); reflexivity.
Qed.

Lemma keeps_updateStatus (st : SyncStatus) (message : string) :
  keeps (updateStatus st message).
Proof. intros s. rewrite updateStatus_eq. apply mgr_noted. Qed.

Ltac keeps_step :=
  first
    [ apply keeps_ret | apply keeps_throw | apply keeps_gets
    | apply keeps_run | apply keeps_updateStatus
    | assumption
    | apply keeps_bind; [| intro]
    | apply keeps_tryCatch; [| intro]
    | match goal with
      | |- keeps (if ?b then _ else _) => destruct b
      | |- keeps (match ?x with Some _ => _ | None => _ end) => destruct x
      end ].

Ltac keeps_auto := repeat keeps_step.

Lemma keeps_getCurrentBranch : keeps getCurrentBranch.
Proof. unfold getCurrentBranch. keeps_auto. Qed.

Lemma keeps_getRemoteName : keeps getRemoteName.
Proof. unfold getRemoteName. keeps_auto. Qed.

Lemma keeps_fetch : keeps fetch.
Proof. pose proof keeps_getRemoteName. unfold fetch. keeps_auto. Qed.

Lemma keeps_status : keeps status.
Proof. unfold status. keeps_auto. Qed.

Lemma keeps_hasConflicts : keeps hasConflicts.
Proof. unfold hasConflicts. keeps_auto. Qed.

Lemma keeps_getConflictFiles : keeps getConflictFiles.
Proof. unfold getConflictFiles. keeps_auto. Qed.

Lemma keeps_pull : keeps pull.
Proof.
  pose proof keeps_getCurrentBranch. pose proof keeps_getRemoteName.
  pose proof keeps_fetch. pose proof keeps_status.
  pose proof keeps_hasConflicts. pose proof keeps_getConflictFiles.
  unfold pull. keeps_auto.
Qed.

Lemma keeps_pushWith (command : string -> string -> string) :
  keeps (pushWith command).
Proof.
  pose proof keeps_getCurrentBranch. pose proof keeps_getRemoteName.
  unfold pushWith. keeps_auto.
Qed.

Lemma keeps_hasUpstream : keeps hasUpstream.
Proof. pose proof keeps_getCurrentBranch. unfold hasUpstream. keeps_auto. Qed.

Lemma keeps_commit (message : string) : keeps (commit message).
Proof. unfold commit. keeps_auto. Qed.

Lemma keeps_pullOnly : keeps pullOnly.
Proof.
  pose proof keeps_getRemoteName. pose proof keeps_fetch.
  pose proof keeps_status. pose proof keeps_hasConflicts.
  pose proof keeps_pull.
  unfold pullOnly, getStatus. keeps_auto.
Qed.

Lemma keeps_commitAndPush : keeps commitAndPush.
Proof.
  pose proof keeps_status. pose proof keeps_hasUpstream.
  pose proof (keeps_pushWith pushCommand).
  pose proof (keeps_pushWith pushUpstreamCommand).
  pose proof keeps_commit.
  unfold commitAndPush, addAll, push, pushWithUpstream in *. keeps_auto.
Qed.

Lemma keeps_isGitAvailable : keeps isGitAvailable.
Proof. intros s. rewrite isGitAvailable_eq. reflexivity. Qed.

Lemma keeps_isRepo : keeps isRepo.
Proof. unfold isRepo. keeps_auto. Qed.

Lemma keeps_checkGitStatus : keeps checkGitStatus.
Proof.
  pose proof keeps_isGitAvailable. pose proof keeps_isRepo.
  unfold checkGitStatus. keeps_auto.
Qed.

(* ================================================================== *)
(** ** [status]: the classification of the file lines *)
(* ================================================================== *)

Lemma statusLine_fold (lines : list string) : forall acc : FileLists,
  fold_left statusLine lines acc =
  mkFileLists (fl_staged acc ++ pick lineIsStaged lines)
              (fl_modified acc ++ pick lineIsModified lines)
              (fl_untracked acc ++ pick lineIsUntracked lines)
              (fl_conflicts acc ++ pick lineIsConflict lines).
Proof.
  induction lines as [| l lines IH]; intros acc.
  - simpl. unfold pick. simpl. rewrite !app_nil_r. destruct acc; reflexivity.
  - simpl. rewrite IH. unfold pick, statusLine, lineIsStaged, lineIsModified,
      lineIsUntracked, lineIsConflict, lineFile.
    simpl filter.
    destruct (isConflictCode (Js.charAt l 0) (Js.charAt l 1)); simpl.
    + rewrite <- app_assoc. reflexivity.
    + destruct (charIsNot (Js.charAt l 0) " " && charIsNot (Js.charAt l 0) "?");
      destruct (charIsNot (Js.charAt l 1) " " && charIsNot (Js.charAt l 1) "?");
      destruct (charIs (Js.charAt l 0) "?" && charIs (Js.charAt l 1) "?");
      simpl; rewrite <- ?app_assoc; reflexivity.
Qed.

(** Each list of the status is the file names of the lines that pass its
    test, in the order of the output. *)
Lemma parseStatus_lists (stdout : string) :
  let lines := tl (Js.nonEmptyLines stdout) in
  let st := parseStatus stdout in
  st_staged st = pick lineIsStaged lines /\
  st_modified st = pick lineIsModified lines /\
  st_untracked st = pick lineIsUntracked lines /\
  st_conflicts st = pick lineIsConflict lines.
Proof.
  cbv zeta. unfold parseStatus. rewrite statusLine_fold. simpl. auto.
Qed.

Lemma in_pick (p : string -> bool) (lines : list string) (f : string) :
  In f (pick p lines) <-> exists l, In l lines /\ p l = true /\ lineFile l = f.
Proof.
  unfold pick. rewrite in_map_iff. split.
  - intros (l & Hf & Hin). apply filter_In in Hin. destruct Hin. eauto.
  - intros (l & Hin & Hp & Hf). exists l. split; [assumption |].
    apply filter_In. auto.
Qed.

Lemma charIs_true (c : option ascii) (x : ascii) :
  charIs c x = true <-> c = Some x.
Proof.
  destruct c as [a |]; simpl.
  - rewrite Ascii.eqb_eq. split; [intros -> | intros [= ->]]; reflexivity.
  - split; discriminate.
Qed.

Lemma charIsNot_true (c : option ascii) (x : ascii) :
  charIsNot c x = true <-> c <> Some x.
Proof.
  unfold charIsNot. rewrite negb_true_iff, <- not_true_iff_false, charIs_true.
  reflexivity.
Qed.

Lemma isConflictCode_true (i w : option ascii) :
  isConflictCode i w = true <-> conflictCodes i w.
Proof.
  unfold isConflictCode, conflictCodes.
  rewrite !orb_true_iff, !andb_true_iff, !charIs_true. tauto.
Qed.

Lemma isConflictCode_false (i w : option ascii) :
  isConflictCode i w = false <-> ~ conflictCodes i w.
Proof.
  rewrite <- isConflictCode_true. symmetry. apply not_true_iff_false.
Qed.

(** C3, as the code has it.  For every file line of the status output,
    with index code [i], work-tree code [w] and path [f]: when either code
    is [U], or both are [A], or both are [D], the path goes to the
    conflicts; otherwise a code [i] other than space and [?] puts it in the
    staged list, a code [w] other than space and [?] puts it in the
    modified list, and [??] puts it in the untracked list.  A path all of
    whose lines carry conflict codes is in no list but the conflicts. *)
Theorem status_classification (stdout line : string) :
  In line (tl (Js.nonEmptyLines stdout)) ->
  let i := Js.charAt line 0 in
  let w := Js.charAt line 1 in
  let f := Js.substringFrom 3 line in
  let st := parseStatus stdout in
  (conflictCodes i w -> In f (st_conflicts st)) /\
  (~ conflictCodes i w ->
   (i <> Some " "%char -> i <> Some "?"%char -> In f (st_staged st)) /\
   (w <> Some " "%char -> w <> Some "?"%char -> In f (st_modified st)) /\
   (i = Some "?"%char -> w = Some "?"%char -> In f (st_untracked st))) /\
  ((forall l, In l (tl (Js.nonEmptyLines stdout)) ->
              Js.substringFrom 3 l = f ->
              conflictCodes (Js.charAt l 0) (Js.charAt l 1)) ->
   ~ In f (st_staged st) /\ ~ In f (st_modified st) /\
   ~ In f (st_untracked st)).
Proof.
  intros Hin. cbv zeta.
  destruct (parseStatus_lists stdout) as (Hs & Hm & Hu & Hc).
  rewrite Hs, Hm, Hu, Hc. clear Hs Hm Hu Hc.
  split; [| split].
  - intros H. apply in_pick. exists line. split; [assumption |].
    split; [| reflexivity]. apply isConflictCode_true, H.
  - intros H. apply isConflictCode_false in H.
    repeat split; intros H1 H2; apply in_pick; exists line;
      (split; [assumption |]); (split; [| reflexivity]).
    + unfold lineIsStaged, lineIsConflict. rewrite H. simpl.
      apply andb_true_iff. split; apply charIsNot_true; assumption.
    + unfold lineIsModified, lineIsConflict. rewrite H. simpl.
      apply andb_true_iff. split; apply charIsNot_true; assumption.
    + unfold lineIsUntracked, lineIsConflict. rewrite H. simpl.
      apply andb_true_iff. split; apply charIs_true; assumption.
  - intros Hall.
    assert (Hno : forall p, (forall l, p l = true -> lineIsConflict l = false) ->
                            ~ In (Js.substringFrom 3 line)
                                 (pick p (tl (Js.nonEmptyLines stdout)))).
    { intros p Hp Hf. apply in_pick in Hf. destruct Hf as (l & Hl & Hpl & Hfl).
      specialize (Hall l Hl Hfl). apply isConflictCode_true in Hall.
      specialize (Hp l Hpl). unfold lineIsConflict in Hp. congruence. }
    repeat split; apply Hno; intros l Hl;
      [unfold lineIsStaged in Hl | unfold lineIsModified in Hl
       | unfold lineIsUntracked in Hl];
      apply andb_true_iff in Hl; destruct Hl as [Hl _];
      apply negb_true_iff in Hl; exact Hl.
Qed.

(* ================================================================== *)
(** ** [parsePushError], [push], [pushWithUpstream] *)
(* ================================================================== *)



(** C9.  [push] and [pushWithUpstream] always return a result, and its
    [pushed] counter is 1 when [success] is true and 0 when it is false,
    whatever the repository and the remote hold. *)
Theorem push_counter_is_a_flag (s : Sys) :
  (exists r s', push s = (Ok r, s') /\
                ps_pushed r = if ps_success r then 1%N else 0%N) /\
  (exists r s', pushWithUpstream s = (Ok r, s') /\
                ps_pushed r = if ps_success r then 1%N else 0%N).
Proof.
  unfold push, pushWithUpstream. split.
  - destruct (pushWith_cases pushCommand s) as (s' & [H | [H | (e & H)]]);
      rewrite H; do 2 eexists; split; reflexivity.
  - destruct (pushWith_cases pushUpstreamCommand s)
      as (s' & [H | [H | (e & H)]]);
      rewrite H; do 2 eexists; split; reflexivity.
Qed.

(* ================================================================== *)
(** ** [commit] and [commitAndPush] *)
(* ================================================================== *)

Lemma commitAndPush_after_empty_commit (s s1 s2 : Sys) (st : GitStatus)
      (e : GitError) (w3 : World) :
  status s = (Ok st, s1) ->
  st_clean st = false ->
  addAll s1 = (Ok tt, s2) ->
  exec (commitCommand (generateCommitMessage (world s2))) (world s2)
  = (inr e, w3) ->
  Js.includes (orEmpty (err_stdout e)) "nothing to commit" = true ->
  forall r s',
    pushStep (after (commitCommand (generateCommitMessage (world s2))) w3 s2)
    = (Ok r, s') ->
    commitAndPush s = (Ok r, s').
Proof.
  intros H H0 H1 H2 H3 r s' Hp.
  unfold commitAndPush. apply tryCatch_ok.
  rewrite (bind_ok _ _ _ _ _ H), H0, (bind_ok _ _ _ _ _ H1).
  unfold bind at 1, gets.
  assert (Hc := commit_eq (generateCommitMessage (world s2)) s2).
  rewrite H2 in Hc. cbn [fst snd] in Hc. rewrite H3 in Hc.
  rewrite (bind_ok _ _ _ _ _ Hc). exact Hp.
Qed.

(** C7.  [commit] succeeds when the command does; when the command fails
    with ["nothing to commit"] in its output it returns a successful result
    all the same; on any other failure it throws the error of the command.
    When the commit of [commitAndPush] fails with ["nothing to commit"],
    [commitAndPush] goes on to the push and returns what the push
    returns. *)
Theorem commit_nothing_to_commit_is_not_fatal (s : Sys) :
  (forall message out w,
      exec (commitCommand message) (world s) = (inl out, w) ->
      commit message s =
      (Ok (mkCommitResult true "Commit successful" 0),
       after (commitCommand message) w s)) /\
  (forall message e w,
      exec (commitCommand message) (world s) = (inr e, w) ->
      Js.includes (orEmpty (err_stdout e)) "nothing to commit" = true ->
      commit message s =
      (Ok (mkCommitResult true "Nothing to commit" 0),
       after (commitCommand message) w s)) /\
  (forall message e w,
      exec (commitCommand message) (world s) = (inr e, w) ->
      Js.includes (orEmpty (err_stdout e)) "nothing to commit" = false ->
      commit message s =
      (Throw (thrown e), after (commitCommand message) w s)) /\
  (forall st s1 s2 e w3,
      status s = (Ok st, s1) ->
      st_clean st = false ->
      addAll s1 = (Ok tt, s2) ->
      exec (commitCommand (generateCommitMessage (world s2))) (world s2)
      = (inr e, w3) ->
      Js.includes (orEmpty (err_stdout e)) "nothing to commit" = true ->
      commitAndPush s =
      pushStep (after (commitCommand (generateCommitMessage (world s2))) w3 s2)
      /\ exists r s', commitAndPush s = (Ok r, s')).
Proof.
  split; [| split; [| split]].
  - intros message out w H. rewrite commit_eq, H. reflexivity.
  - intros message e w H Hn. rewrite commit_eq, H. cbn [fst snd].
    rewrite Hn. reflexivity.
  - intros message e w H Hn. rewrite commit_eq, H. cbn [fst snd].
    rewrite Hn. reflexivity.
  - intros st s1 s2 e w3 H H0 H1 H2 H3.
    destruct (pushStep_ok
                (after (commitCommand (generateCommitMessage (world s2))) w3 s2))
      as (r & s' & Hp).
    pose proof (commitAndPush_after_empty_commit
                  s s1 s2 st e w3 H H0 H1 H2 H3 r s' Hp) as Hcp.
    split; [congruence | eauto].
Qed.

(* ================================================================== *)
(** ** [pull] and [pullOnly] *)
(* ================================================================== *)

(** C2, as the code has it.  When the status taken after the fetch shows
    modified or staged files, [pull] runs [stash push] right before the
    rebasing pull, and when that pull succeeds it runs [stash pop] right
    after it.  Whatever [stash pop] answers, a failure included, [pull]
    returns success with the files of the pull and an empty list of
    conflicts. *)
Theorem pull_stashes_and_swallows_pop_failure
        (s s1 s2 s3 s4 : Sys) (b r : string) (st : GitStatus)
        (o5 o6 : Output) (w5 w6 : World) :
  getCurrentBranch s = (Ok b, s1) ->
  getRemoteName s1 = (Ok (Some r), s2) ->
  fetch s2 = (Ok tt, s3) ->
  status s3 = (Ok st, s4) ->
  st_modified st <> [] \/ st_staged st <> [] ->
  exec stashPushCommand (world s4) = (inl o5, w5) ->
  exec (pullCommand r b) w5 = (inl o6, w6) ->
  pull s =
  (Ok (mkPullResult true "Pull successful"
                    (parsePullFiles (out_stdout o6)) []),
   after "stash pop" (snd (exec "stash pop" w6))
         (after (pullCommand r b) w6 (after stashPushCommand w5 s4))) /\
  issued (snd (pull s)) =
  issued s4 ++ [stashPushCommand; pullCommand r b; "stash pop"].
Proof.
  intros H1 H2 H3 H4 Hdirty H5 H6.
  assert (Hpull : pull s =
    (Ok (mkPullResult true "Pull successful"
                      (parsePullFiles (out_stdout o6)) []),
     after "stash pop" (snd (exec "stash pop" w6))
           (after (pullCommand r b) w6 (after stashPushCommand w5 s4)))).
  { unfold pull. apply tryCatch_ok.
    rewrite (bind_ok _ _ _ _ _ H1), (bind_ok _ _ _ _ _ H2),
      (bind_ok _ _ _ _ _ H3), (bind_ok _ _ _ _ _ H4).
    assert (Hd : negb (isEmpty (st_modified st)) || negb (isEmpty (st_staged st))
                 = true).
    { destruct Hdirty as [Hd | Hd].
      - destruct (st_modified st); [contradiction | reflexivity].
      - destruct (st_staged st); [contradiction |].
        apply orb_true_r. }
    rewrite Hd.
    assert (Hstash : (run stashPushCommand ;;; ret tt) s4 =
                     (Ok tt, after stashPushCommand w5 s4)).
    { rewrite (bind_ok _ _ _ _ _ (run_ok _ _ _ _ H5)). reflexivity. }
    rewrite (bind_ok _ _ _ _ _ Hstash).
    assert (Hrun : run (pullCommand r b) (after stashPushCommand w5 s4) =
                   (Ok o6, after (pullCommand r b) w6
                                 (after stashPushCommand w5 s4))).
    { apply run_ok. exact H6. }
    rewrite (bind_ok _ _ _ _ _ Hrun).
    unfold bind, tryCatch, ret, run. rewrite spawn_eq. cbn [world after].
    destruct (exec "stash pop" w6) as [[o7 | e7] w7]; reflexivity. }
  split; [exact Hpull |].
  rewrite Hpull. cbn [snd issued after]. rewrite <- !app_assoc. reflexivity.
Qed.

(** C8.  When no remote is configured, [pullOnly] returns success with no
    files and the only command it has run is the [remote] query.  When a
    remote is configured, the fetch goes through and the status then shows
    the branch not behind, [pullOnly] returns success with no files. *)
Theorem pullOnly_trivial_success (s : Sys) :
  (forall s1,
      getRemoteName s = (Ok None, s1) ->
      pullOnly s =
      (Ok (mkPullResult true "No remote configured, skipping pull" [] []), s1)
      /\ issued s1 = issued s ++ ["remote"]
      /\ isTransferCommand "remote" = false) /\
  (forall r s1 s2 st s3,
      getRemoteName s = (Ok (Some r), s1) ->
      fetch s1 = (Ok tt, s2) ->
      status s2 = (Ok st, s3) ->
      st_behind st = 0%N ->
      pullOnly s = (Ok (mkPullResult true "Already up to date" [] []), s3)).
Proof.
  split.
  - intros s1 H. split; [| split].
    + unfold pullOnly. apply tryCatch_ok.
      rewrite (bind_ok _ _ _ _ _ H). reflexivity.
    + rewrite getRemoteName_eq in H. injection H as _ <-. reflexivity.
    + reflexivity.
  - intros r s1 s2 st s3 H1 H2 H3 H4.
    unfold pullOnly. apply tryCatch_ok.
    rewrite (bind_ok _ _ _ _ _ H1), (bind_ok _ _ _ _ _ H2),
      (bind_ok _ _ _ _ _ H3), H4.
    reflexivity.
Qed.

(* ================================================================== *)
(** ** [sync]: the lock, the checks, what is recorded *)
(* ================================================================== *)

Lemma sync_busy (s : Sys) :
  syncLock (mgr s) = true -> sync s = (Ok busyResult, s).
Proof.
  intros H. unfold sync, bind, gets. rewrite H. reflexivity.
Qed.

Lemma sync_unlocked (s : Sys) :
  syncLock (mgr s) = false ->
  sync s =
  (fst (tryCatch syncBody syncCatch (setSyncLock true s)),
   setSyncLock false (snd (tryCatch syncBody syncCatch (setSyncLock true s)))).
Proof.
  intros H. unfold sync, bind, gets, modify, tryFinally. rewrite H.
  destruct (tryCatch syncBody syncCatch (setSyncLock true s)). reflexivity.
Qed.

Lemma showNotice_busy (s : Sys) :
  showNotice busyNotice s = (Ok tt, busyNoticed s).
Proof.
  unfold showNotice, busyNoticed. destruct showNotifications; reflexivity.
Qed.

(** C1, as the code has it.  [sync] called while the lock is held returns
    the busy verdict at once and changes nothing: no command is run and
    [lastSyncTime] keeps its value.  The three commands of the plugin
    (sync, pull, commit-and-push) test [isSyncing] first, and with the lock
    held they show the busy notice and do nothing else. *)
Theorem lock_held_rejection (s : Sys) :
  syncLock (mgr s) = true ->
  sync s = (Ok busyResult, s) /\
  lastSyncTime (mgr (snd (sync s))) = lastSyncTime (mgr s) /\
  pluginSync s = (Ok tt, busyNoticed s) /\
  pluginPull s = (Ok tt, busyNoticed s) /\
  pluginCommitAndPush s = (Ok tt, busyNoticed s) /\
  world (busyNoticed s) = world s /\
  issued (busyNoticed s) = issued s /\
  mgr (busyNoticed s) = mgr s.
Proof.
  intros H.
  split; [exact (sync_busy s H) |].
  split; [rewrite (sync_busy s H); reflexivity |].
  unfold pluginSync, pluginPull, pluginCommitAndPush, isSyncing, bind, gets.
  rewrite H, showNotice_busy.
  repeat split; unfold busyNoticed; destruct showNotifications; reflexivity.
Qed.

(** When the two blocks of [sync] leave the manager as they found it, so
    does [sync]. *)
Lemma sync_untouched (s s1 : Sys) (v : SyncResult) :
  syncLock (mgr s) = false ->
  syncBody (setSyncLock true s) = (Ok v, s1) ->
  mgr s1 = mgr (setSyncLock true s) ->
  mgr (snd (sync s)) = mgr s.
Proof.
  intros Hlock Hbody Hm.
  rewrite (sync_unlocked s Hlock), (tryCatch_ok _ _ _ _ _ Hbody).
  cbn [snd setSyncLock setMgr mgr]. rewrite Hm.
  destruct s as [w i ev n [l t r c]]. simpl in *. subst l. reflexivity.
Qed.

Lemma syncBody_existing_conflict
      (s0 : Sys) (o1 o2 o3 : Output) (w1 w2 w3 : World) :
  exec "--version" (world s0) = (inl o1, w1) ->
  exec "rev-parse --is-inside-work-tree" w1 = (inl o2, w2) ->
  exec unmergedCommand w2 = (inl o3, w3) ->
  Js.nonEmpty (Js.trim (out_stdout o3)) = true ->
  syncBody s0 =
  (Ok existingConflictResult,
   noted conflict "Merge conflicts detected"
         (after unmergedCommand w3
                (after "rev-parse --is-inside-work-tree" w2
                       (after "--version" w1 s0)))).
Proof.
  intros H1 H2 H3 H4. unfold syncBody.
  rewrite (bind_ok _ _ _ _ _ (checkGitStatus_ready s0 _ _ _ _ H1 H2)).
  cbn [ck_available ck_isRepo negb].
  rewrite (bind_ok _ _ _ _ _ (hasConflicts_eq _)).
  cbn [world after fst snd]. rewrite H3. cbn [fst snd reportsConflicts].
  rewrite H4.
  rewrite (bind_ok _ _ _ _ _ (updateStatus_eq _ _ _)). reflexivity.
Qed.

(** C4.  When [sync] is entered with the lock free, [git] is found, the
    vault is a repository and the query for unmerged paths names a path,
    [sync] returns the conflict verdict; the only commands it has run are
    its three checks, none of which fetches, pulls, pushes or stashes; the
    fields of the manager are as they were. *)
Theorem sync_aborts_on_existing_conflict
        (s : Sys) (o1 o2 o3 : Output) (w1 w2 w3 : World) :
  syncLock (mgr s) = false ->
  exec "--version" (world s) = (inl o1, w1) ->
  exec "rev-parse --is-inside-work-tree" w1 = (inl o2, w2) ->
  exec unmergedCommand w2 = (inl o3, w3) ->
  Js.nonEmpty (Js.trim (out_stdout o3)) = true ->
  fst (sync s) = Ok existingConflictResult /\
  issued (snd (sync s)) = issued s ++ preflightCommands /\
  forallb (fun c => negb (isTransferCommand c)) preflightCommands = true /\
  world (snd (sync s)) = w3 /\
  mgr (snd (sync s)) = mgr s.
Proof.
  intros Hlock H1 H2 H3 H4.
  pose proof (syncBody_existing_conflict (setSyncLock true s)
                o1 o2 o3 w1 w2 w3 H1 H2 H3 H4) as Hbody.
  rewrite (sync_unlocked s Hlock), (tryCatch_ok _ _ _ _ _ Hbody).
  cbn [fst snd]. unfold noted.
  destruct s as [w i ev n [l t r c]]. simpl in Hlock. subst l.
  destruct c; cbn; rewrite <- ?app_assoc; repeat split; reflexivity.
Qed.

Lemma pullConflict_true (pr : PullResult) :
  pullConflict pr = true <-> pl_success pr = false /\ pl_conflicts pr <> [].
Proof.
  unfold pullConflict. rewrite andb_true_iff, !negb_true_iff.
  destruct (pl_conflicts pr); simpl; intuition congruence.
Qed.

Lemma syncCatch_end (s0 s : Sys) (e : GitError) :
  mgr s = mgr s0 ->
  exists v s1, syncCatch e s = (Ok v, s1) /\ SyncEnd s0 v s1.
Proof.
  intros Hm. unfold syncCatch.
  rewrite (bind_ok _ _ _ _ _ (updateStatus_eq _ _ _)), recordResult_eq.
  do 2 eexists. split; [reflexivity |].
  apply EndRecorded; [| reflexivity].
  cbn [setLastSyncResult setMgr mgr]. rewrite mgr_noted, Hm. reflexivity.
Qed.

(** The [try] block of [sync] either returns a verdict at one of the
    [SyncEnd]s, or throws with the manager as it was. *)
Lemma syncBody_end (s0 s : Sys) (r : Res SyncResult) :
  syncBody s0 = (r, s) ->
  (exists v, r = Ok v /\ SyncEnd s0 v s) \/
  (exists e, r = Throw e /\ mgr s = mgr s0).
Proof.
  unfold syncBody.
  pose proof (keeps_checkGitStatus s0) as KA.
  destruct (checkGitStatus s0) as [[ck | e] sA] eqn:HA; cbn [snd] in KA.
  2:{ rewrite (bind_throw _ _ _ _ _ HA). intros [= <- <-]. right. eauto. }
  rewrite (bind_ok _ _ _ _ _ HA).
  destruct (ck_available ck); cbn [negb].
  2:{ rewrite (bind_ok _ _ _ _ _ (updateStatus_eq _ _ _)).
      intros [= <- <-]. left. eexists. split; [reflexivity |].
      apply EndUntouched; [| reflexivity]. rewrite mgr_noted. exact KA. }
  destruct (ck_isRepo ck); cbn [negb].
  2:{ rewrite (bind_ok _ _ _ _ _ (updateStatus_eq _ _ _)).
      intros [= <- <-]. left. eexists. split; [reflexivity |].
      apply EndUntouched; [| reflexivity]. rewrite mgr_noted. exact KA. }
  pose proof (keeps_hasConflicts sA) as KB.
  destruct (hasConflicts sA) as [[c | e] sB] eqn:HB; cbn [snd] in KB.
  2:{ rewrite (bind_throw _ _ _ _ _ HB). intros [= <- <-]. right.
      eexists. split; [reflexivity | congruence]. }
  rewrite (bind_ok _ _ _ _ _ HB).
  destruct c.
  { rewrite (bind_ok _ _ _ _ _ (updateStatus_eq _ _ _)).
    intros [= <- <-]. left. eexists. split; [reflexivity |].
    apply EndUntouched; [| reflexivity]. rewrite mgr_noted. congruence. }
  rewrite (bind_ok _ _ _ _ _ (updateStatus_eq _ _ _)).
  pose proof (keeps_pullOnly (noted pulling "Pulling changes..." sB)) as KC.
  rewrite mgr_noted in KC.
  destruct (pullOnly (noted pulling "Pulling changes..." sB))
    as [[pr | e] sC] eqn:HC; cbn [snd] in KC.
  2:{ rewrite (bind_throw _ _ _ _ _ HC). intros [= <- <-]. right.
      eexists. split; [reflexivity | congruence]. }
  rewrite (bind_ok _ _ _ _ _ HC).
  fold (pullConflict pr).
  destruct (pullConflict pr) eqn:Hpc.
  { rewrite (bind_ok _ _ _ _ _ (updateStatus_eq _ _ _)), recordResult_eq.
    intros [= <- <-]. left. eexists. split; [reflexivity |].
    apply EndRecorded; [| reflexivity].
    cbn [setLastSyncResult setMgr mgr]. rewrite mgr_noted.
    replace (mgr sC) with (mgr s0) by congruence. reflexivity. }
  rewrite (bind_ok _ _ _ _ _ (updateStatus_eq _ _ _)).
  pose proof (keeps_commitAndPush
                (noted pushing "Committing and pushing changes..." sC)) as KD.
  rewrite mgr_noted in KD.
  destruct (commitAndPush
              (noted pushing "Committing and pushing changes..." sC))
    as [[pu | e] sD] eqn:HD; cbn [snd] in KD.
  2:{ rewrite (bind_throw _ _ _ _ _ HD). intros [= <- <-]. right.
      eexists. split; [reflexivity | congruence]. }
  rewrite (bind_ok _ _ _ _ _ HD).
  assert (KD0 : mgr sD = mgr s0) by congruence.
  destruct (ps_success pu) eqn:Hps.
  - rewrite (bind_ok _ _ _ _ _ (updateStatus_eq _ _ _)).
    unfold bind at 1, gets. unfold bind at 1, modify.
    rewrite recordResult_eq.
    intros [= <- <-]. left. eexists. split; [reflexivity |].
    eapply EndCompleted; [exact HC | exact Hpc | exact HD | exact Hps
                          | reflexivity |].
    cbn [setLastSyncResult setLastSyncTime setMgr mgr syncLock lastSyncTime
         onStatusChange world].
    rewrite !mgr_noted, KD0.
    unfold noted, logEvent. destruct (onStatusChange (mgr sD)); reflexivity.
  - rewrite (bind_ok _ _ _ _ _ (updateStatus_eq _ _ _)), recordResult_eq.
    intros [= <- <-]. left. eexists. split; [reflexivity |].
    apply EndRecorded; [| reflexivity].
    cbn [setLastSyncResult setMgr mgr]. rewrite mgr_noted, KD0.
    reflexivity.
Qed.

(** The two blocks of [sync] together always return a verdict. *)
Lemma sync_blocks_end (s0 : Sys) :
  exists v s1, tryCatch syncBody syncCatch s0 = (Ok v, s1) /\ SyncEnd s0 v s1.
Proof.
  unfold tryCatch.
  destruct (syncBody s0) as [r s] eqn:Hb.
  destruct (syncBody_end s0 s r Hb) as [(v & -> & Hend) | (e & -> & Hm)].
  - eauto.
  - apply syncCatch_end. exact Hm.
Qed.

Lemma sync_pull_conflict (s s4 : Sys) (o1 o2 : Output) (r3 : ExecResult)
      (w1 w2 w3 : World) (pr : PullResult) :
  syncLock (mgr s) = false ->
  exec "--version" (world s) = (inl o1, w1) ->
  exec "rev-parse --is-inside-work-tree" w1 = (inl o2, w2) ->
  exec unmergedCommand w2 = (r3, w3) ->
  reportsConflicts r3 = false ->
  pullOnly (readyToPull s w1 w2 w3) = (Ok pr, s4) ->
  pullConflict pr = true ->
  sync s =
  (Ok (pullConflictResult pr),
   setSyncLock false
     (setLastSyncResult (pullConflictResult pr)
        (noted conflict "Merge conflicts detected" s4))).
Proof.
  intros Hlock H1 H2 H3 H4 H5 H6.
  rewrite (sync_unlocked s Hlock).
  assert (Hbody : syncBody (setSyncLock true s) =
                  (Ok (pullConflictResult pr),
                   setLastSyncResult (pullConflictResult pr)
                     (noted conflict "Merge conflicts detected" s4))).
  { unfold syncBody.
    rewrite (bind_ok _ _ _ _ _
               (checkGitStatus_ready (setSyncLock true s) _ _ _ _ H1 H2)).
    cbn [ck_available ck_isRepo negb].
    rewrite (bind_ok _ _ _ _ _ (hasConflicts_eq _)).
    cbn [world after fst snd]. rewrite H3. cbn [fst snd]. rewrite H4.
    rewrite (bind_ok _ _ _ _ _ (updateStatus_eq _ _ _)).
    fold (readyToPull s w1 w2 w3).
    rewrite (bind_ok _ _ _ _ _ H5).
    fold (pullConflict pr). rewrite H6.
    rewrite (bind_ok _ _ _ _ _ (updateStatus_eq _ _ _)), recordResult_eq.
    reflexivity. }
  rewrite (tryCatch_ok _ _ _ _ _ Hbody). reflexivity.
Qed.

(** C5, as the code has it.  [sync] always returns a verdict.
    [lastSyncTime] changes only when [pullOnly] has returned without a
    conflict and [commitAndPush] has then returned success; it is then the
    time at that point, the verdict is the completion verdict and it is
    recorded too.  [lastSyncResult] either keeps its value or becomes the
    verdict returned.  Both fields keep their values when the lock is held,
    when [git] is not found, when the vault is not a repository and when a
    conflict is found before the pull.  When [pullOnly] reports a conflict,
    [lastSyncTime] keeps its value and [lastSyncResult] becomes the
    conflict verdict. *)
Theorem sync_records_the_resolution (s : Sys) :
  (exists v,
      fst (sync s) = Ok v /\
      (lastSyncTime (mgr (snd (sync s))) = lastSyncTime (mgr s) \/
       exists sa sb sc pr pu,
         pullOnly sa = (Ok pr, sb) /\
         pullConflict pr = false /\
         commitAndPush (noted pushing "Committing and pushing changes..." sb)
         = (Ok pu, sc) /\
         ps_success pu = true /\
         v = completedResult pr pu /\
         lastSyncTime (mgr (snd (sync s))) = Some (clock (world sc)) /\
         lastSyncResult (mgr (snd (sync s))) = Some v) /\
      (lastSyncResult (mgr (snd (sync s))) = lastSyncResult (mgr s) \/
       lastSyncResult (mgr (snd (sync s))) = Some v)) /\
  (syncLock (mgr s) = true -> mgr (snd (sync s)) = mgr s) /\
  (syncLock (mgr s) = false ->
   forall e w1,
     exec "--version" (world s) = (inr e, w1) ->
     mgr (snd (sync s)) = mgr s) /\
  (syncLock (mgr s) = false ->
   forall o1 e w1 w2,
     exec "--version" (world s) = (inl o1, w1) ->
     exec "rev-parse --is-inside-work-tree" w1 = (inr e, w2) ->
     mgr (snd (sync s)) = mgr s) /\
  (syncLock (mgr s) = false ->
   forall o1 o2 o3 w1 w2 w3,
     exec "--version" (world s) = (inl o1, w1) ->
     exec "rev-parse --is-inside-work-tree" w1 = (inl o2, w2) ->
     exec unmergedCommand w2 = (inl o3, w3) ->
     Js.nonEmpty (Js.trim (out_stdout o3)) = true ->
     mgr (snd (sync s)) = mgr s) /\
  (syncLock (mgr s) = false ->
   forall o1 o2 r3 w1 w2 w3 pr s4,
     exec "--version" (world s) = (inl o1, w1) ->
     exec "rev-parse --is-inside-work-tree" w1 = (inl o2, w2) ->
     exec unmergedCommand w2 = (r3, w3) ->
     reportsConflicts r3 = false ->
     pullOnly (readyToPull s w1 w2 w3) = (Ok pr, s4) ->
     pl_success pr = false ->
     pl_conflicts pr <> [] ->
     fst (sync s) = Ok (pullConflictResult pr) /\
     lastSyncTime (mgr (snd (sync s))) = lastSyncTime (mgr s) /\
     lastSyncResult (mgr (snd (sync s))) = Some (pullConflictResult pr)).
Proof.
  split; [| split; [| split; [| split; [| split]]]].
  - destruct (syncLock (mgr s)) eqn:Hlock.
    + exists busyResult. rewrite (sync_busy s Hlock). cbn [fst snd]. auto.
    + rewrite (sync_unlocked s Hlock).
      destruct (sync_blocks_end (setSyncLock true s)) as (v & s1 & Hrun & Hend).
      rewrite Hrun. cbn [fst snd]. exists v. split; [reflexivity |].
      destruct Hend as [Hm _ | Hm _ | sa sb sc pr pu HC Hpc HD Hps Hv Hm];
        cbn [setSyncLock setMgr mgr lastSyncTime lastSyncResult];
        rewrite Hm; cbn [setSyncLock setMgr mgr lastSyncTime lastSyncResult
                         syncLock onStatusChange].
      * auto.
      * auto.
      * split; [| auto]. right. exists sa, sb, sc, pr, pu. auto 10.
  - intros Hlock. rewrite (sync_busy s Hlock). reflexivity.
  - intros Hlock e w1 H1.
    eapply (sync_untouched s _ _ Hlock).
    + unfold syncBody.
      rewrite (bind_ok _ _ _ _ _
                 (checkGitStatus_unavailable (setSyncLock true s) _ _ H1)).
      cbn [ck_available negb].
      rewrite (bind_ok _ _ _ _ _ (updateStatus_eq _ _ _)). reflexivity.
    + rewrite mgr_noted. reflexivity.
  - intros Hlock o1 e w1 w2 H1 H2.
    eapply (sync_untouched s _ _ Hlock).
    + unfold syncBody.
      rewrite (bind_ok _ _ _ _ _
                 (checkGitStatus_notRepo (setSyncLock true s) _ _ _ _ H1 H2)).
      cbn [ck_available ck_isRepo negb].
      rewrite (bind_ok _ _ _ _ _ (updateStatus_eq _ _ _)). reflexivity.
    + rewrite mgr_noted. reflexivity.
  - intros Hlock o1 o2 o3 w1 w2 w3 H1 H2 H3 H4.
    eapply (sync_untouched s _ _ Hlock).
    + exact (syncBody_existing_conflict (setSyncLock true s)
               o1 o2 o3 w1 w2 w3 H1 H2 H3 H4).
    + rewrite mgr_noted. reflexivity.
  - intros Hlock o1 o2 r3 w1 w2 w3 pr s4 H1 H2 H3 H4 H5 H6 H7.
    assert (Hpc : pullConflict pr = true) by (apply pullConflict_true; auto).
    rewrite (sync_pull_conflict s s4 o1 o2 r3 w1 w2 w3 pr
               Hlock H1 H2 H3 H4 H5 Hpc).
    cbn [fst snd setSyncLock setLastSyncResult setMgr mgr lastSyncTime
         lastSyncResult].
    rewrite mgr_noted.
    pose proof (keeps_pullOnly (readyToPull s w1 w2 w3)) as K.
    rewrite H5 in K. cbn [snd] in K. rewrite K.
    unfold readyToPull. rewrite mgr_noted. repeat split; reflexivity.
Qed.

End Facts.

(* ================================================================== *)
(** ** Concrete runs *)
(* ================================================================== *)

(** C10.  A file line of the status output that is no conflict line and
    whose two codes are both change codes (neither a space nor [?]) puts its
    path both in the staged and in the modified list.  So for the output
    whose one file line is [MM notes.md], [status] returns [notes.md] as the
    one staged and the one modified file, with no conflict: the two lists
    are not disjoint. *)
Theorem status_lists_overlap :
  (forall (stdout line : string) (i w : ascii),
      In line (tl (Js.nonEmptyLines stdout)) ->
      Js.charAt line 0 = Some i ->
      Js.charAt line 1 = Some w ->
      ~ conflictCodes (Some i) (Some w) ->
      i <> " "%char -> i <> "?"%char -> w <> " "%char -> w <> "?"%char ->
      In (Js.substringFrom 3 line) (st_staged (parseStatus stdout)) /\
      In (Js.substringFrom 3 line) (st_modified (parseStatus stdout))) /\
  exists (s : Sys (E := Mock.env)) (st : GitStatus),
    fst (@exec Mock.env "status --porcelain=v1 --branch" (world s)) =
    inl (mkOutput Mock.bothChanged "") /\
    tl (Js.nonEmptyLines Mock.bothChanged) = ["MM notes.md"] /\
    ~ conflictCodes (Js.charAt "MM notes.md" 0) (Js.charAt "MM notes.md" 1) /\
    fst (status s) = Ok st /\
    st_staged st = ["notes.md"] /\
    st_modified st = ["notes.md"] /\
    st_untracked st = [] /\
    st_conflicts st = [].
Proof.
  split.
  - intros stdout line i w Hin Hi Hw Hc Hi1 Hi2 Hw1 Hw2.
    destruct (parseStatus_lists stdout) as (Hs & Hm & _ & _).
    rewrite Hs, Hm.
    assert (Hnc : lineIsConflict line = false).
    { unfold lineIsConflict. rewrite Hi, Hw. apply isConflictCode_false.
      exact Hc. }
    split; apply in_pick; exists line; (split; [exact Hin |]);
      (split; [| reflexivity]).
    + unfold lineIsStaged. rewrite Hnc, Hi. cbn [negb andb].
      apply andb_true_iff. split; apply charIsNot_true; congruence.
    + unfold lineIsModified. rewrite Hnc, Hw. cbn [negb andb].
      apply andb_true_iff. split; apply charIsNot_true; congruence.
  - exists (Mock.start false [(Mock.statusCommand, Mock.ok Mock.bothChanged)]).
    exists (parseStatus Mock.bothChanged).
    split; [reflexivity |]. split; [reflexivity |].
    split; [| repeat split].
    intros [H | [H | [[H _] | [H _]]]]; discriminate H.
Qed.

(** C1: [pullOnly] and [commitAndPush] of the manager run with the lock
    held. *)
Lemma manager_steps_ignore_the_lock :
  syncLock (mgr (Mock.start true Mock.noRemote)) = true /\
  fst (pullOnly (Mock.start true Mock.noRemote)) =
  Ok (mkPullResult true "No remote configured, skipping pull" [] []) /\
  issued (snd (pullOnly (Mock.start true Mock.noRemote))) = ["remote"] /\
  syncLock (mgr (Mock.start true Mock.cleanTree)) = true /\
  fst (commitAndPush (Mock.start true Mock.cleanTree)) =
  Ok (mkPushResult true "Nothing to commit or push" 0) /\
  issued (snd (commitAndPush (Mock.start true Mock.cleanTree))) =
  [Mock.statusCommand].
Proof. repeat split. Qed.

Lemma lock_held_rejection_witness :
  sync (Mock.start true Mock.preflightClean) =
  (Ok busyResult, Mock.start true Mock.preflightClean) /\
  pluginPull (Mock.start true Mock.noRemote) =
  (Ok tt, logNotice "Git 同步: 同步正在进行中" (Mock.start true Mock.noRemote)).
Proof.
  split.
  - apply (lock_held_rejection (Mock.start true Mock.preflightClean)).
    reflexivity.
  - apply (lock_held_rejection (Mock.start true Mock.noRemote)).
    reflexivity.
Defined.

(** C2: the stash cannot be put back, and [pull] reports success. *)
Lemma pull_hides_stash_pop_conflict :
  fst (pull (Mock.start false Mock.stashPopConflicts)) =
  Ok (mkPullResult true "Pull successful" ["notes.md"] []) /\
  issued (snd (pull (Mock.start false Mock.stashPopConflicts))) =
  [ "rev-parse --abbrev-ref HEAD"; "remote"; "remote"; "fetch origin";
    Mock.statusCommand; stashPushCommand; "pull origin main --rebase";
    "stash pop" ] /\
  fst (hasConflicts (snd (pull (Mock.start false Mock.stashPopConflicts)))) =
  Ok true.
Proof. repeat split. Qed.

Lemma pull_stashes_witness :
  issued (snd (pull (Mock.start false Mock.stashPopConflicts))) =
  [ "rev-parse --abbrev-ref HEAD"; "remote"; "remote"; "fetch origin";
    Mock.statusCommand; stashPushCommand; "pull origin main --rebase";
    "stash pop" ].
Proof.
  pose (s := Mock.start false Mock.stashPopConflicts).
  pose (s1 := snd (getCurrentBranch s)).
  pose (s2 := snd (getRemoteName s1)).
  pose (s3 := snd (fetch s2)).
  pose (s4 := snd (status s3)).
  destruct (pull_stashes_and_swallows_pop_failure
              s s1 s2 s3 s4 "main" "origin"
              (parseStatus ("## main...origin/main [behind 1]" ++ Mock.nl ++
                            " M notes.md" ++ Mock.nl))
              (mkOutput ("Saved working directory and index state On main: obsidian-git-sync-auto-stash" ++ Mock.nl) "")
              (mkOutput (" notes.md | 2 +-" ++ Mock.nl ++
                         " 1 file changed, 1 insertion(+), 1 deletion(-)" ++ Mock.nl) "")
              (skipn 6 Mock.stashPopConflicts)
              (skipn 7 Mock.stashPopConflicts))
    as [_ H].
  - reflexivity.
  - reflexivity.
  - reflexivity.
  - reflexivity.
  - left. discriminate.
  - reflexivity.
  - reflexivity.
  - exact H.
Defined.

(** C3: a line with the codes [AU] (added by us, changed by them) has an
    index code other than space and [?], its codes are neither both [U] nor
    both [A] nor both [D], and its path is in the conflicts, not in the
    staged list. *)
Lemma status_added_by_us_is_a_conflict :
  In "AU both.md" (tl (Js.nonEmptyLines Mock.addedByUs)) /\
  Js.charAt "AU both.md" 0 = Some "A"%char /\
  Js.charAt "AU both.md" 1 = Some "U"%char /\
  st_conflicts (parseStatus Mock.addedByUs) = ["both.md"] /\
  st_staged (parseStatus Mock.addedByUs) = [] /\
  st_modified (parseStatus Mock.addedByUs) = [].
Proof. repeat split. left. reflexivity. Qed.

Lemma status_classification_witness :
  In "plan.md" (st_conflicts (parseStatus Mock.mixedStatus)) /\
  ~ In "plan.md" (st_staged (parseStatus Mock.mixedStatus)) /\
  ~ In "plan.md" (st_modified (parseStatus Mock.mixedStatus)) /\
  ~ In "plan.md" (st_untracked (parseStatus Mock.mixedStatus)).
Proof.
  assert (Hin : In "UU plan.md" (tl (Js.nonEmptyLines Mock.mixedStatus))).
  { right. left. reflexivity. }
  destruct (status_classification Mock.mixedStatus "UU plan.md" Hin)
    as (Hc & _ & Hx).
  split.
  - apply Hc. left. reflexivity.
  - apply Hx. intros l [<- | [<- | [<- | []]]] Hf.
    + discriminate Hf.
    + left. reflexivity.
    + discriminate Hf.
Defined.

Lemma sync_aborts_on_existing_conflict_witness :
  fst (sync (Mock.start false Mock.preflightConflict)) =
  Ok existingConflictResult /\
  issued (snd (sync (Mock.start false Mock.preflightConflict))) =
  preflightCommands.
Proof.
  destruct (sync_aborts_on_existing_conflict
              (Mock.start false Mock.preflightConflict)
              (mkOutput ("git version 2.43.0" ++ Mock.nl) "")
              (mkOutput ("true" ++ Mock.nl) "")
              (mkOutput ("notes.md" ++ Mock.nl) "")
              (skipn 1 Mock.preflightConflict)
              (skipn 2 Mock.preflightConflict)
              (skipn 3 Mock.preflightConflict))
    as (Hv & Hi & _).
  - reflexivity.
  - reflexivity.
  - reflexivity.
  - reflexivity.
  - reflexivity.
  - split; [exact Hv | exact Hi].
Defined.

(** C5: the pull reports a conflict, [sync] aborts, and the last result is
    no longer what it was. *)
Lemma sync_records_pull_conflict :
  lastSyncResult (mgr (Mock.start false Mock.rebaseConflicts)) = None /\
  fst (sync (Mock.start false Mock.rebaseConflicts)) =
  Ok (mkSyncResult false "Merge conflicts after pull" None None
                   (Some ["notes.md"])) /\
  lastSyncResult (mgr (snd (sync (Mock.start false Mock.rebaseConflicts)))) =
  Some (mkSyncResult false "Merge conflicts after pull" None None
                     (Some ["notes.md"])) /\
  lastSyncTime (mgr (snd (sync (Mock.start false Mock.rebaseConflicts)))) =
  None.
Proof. repeat split. Qed.

Lemma sync_records_the_resolution_witness :
  lastSyncTime (mgr (snd (sync (Mock.start false Mock.rebaseConflicts)))) =
  lastSyncTime (mgr (Mock.start false Mock.rebaseConflicts)) /\
  lastSyncResult (mgr (snd (sync (Mock.start false Mock.rebaseConflicts)))) =
  Some (pullConflictResult
          (mkPullResult false "Merge conflicts detected" [] ["notes.md"])).
Proof.
  pose (s := Mock.start false Mock.rebaseConflicts).
  destruct (sync_records_the_resolution s) as (_ & _ & _ & _ & _ & H).
  assert (Hpull : pullOnly (readyToPull s (skipn 1 Mock.rebaseConflicts)
                                          (skipn 2 Mock.rebaseConflicts)
                                          (skipn 3 Mock.rebaseConflicts)) =
                  (Ok (mkPullResult false "Merge conflicts detected" []
                                    ["notes.md"]),
                   snd (pullOnly (readyToPull s (skipn 1 Mock.rebaseConflicts)
                                          (skipn 2 Mock.rebaseConflicts)
                                          (skipn 3 Mock.rebaseConflicts))))).
  { vm_compute. reflexivity. }
  destruct (H eq_refl
              (mkOutput ("git version 2.43.0" ++ Mock.nl) "")
              (mkOutput ("true" ++ Mock.nl) "")
              (Mock.ok "")
              (skipn 1 Mock.rebaseConflicts)
              (skipn 2 Mock.rebaseConflicts)
              (skipn 3 Mock.rebaseConflicts)
              (mkPullResult false "Merge conflicts detected" [] ["notes.md"])
              _ eq_refl eq_refl eq_refl eq_refl Hpull eq_refl)
    as (_ & Ht & Hr).
  - discriminate.
  - split; [exact Ht | exact Hr].
Defined.



Lemma commit_nothing_to_commit_witness :
  fst (commit "vault backup" (Mock.start false Mock.nothingToCommit)) =
  Ok (mkCommitResult true "Nothing to commit" 0) /\
  fst (commitAndPush (Mock.start false Mock.committedElsewhere)) =
  Ok (mkPushResult true pushedMessage 1) /\
  In "push origin main"
     (issued (snd (commitAndPush (Mock.start false Mock.committedElsewhere)))).
Proof.
  split.
  - destruct (commit_nothing_to_commit_is_not_fatal
                (Mock.start false Mock.nothingToCommit)) as (_ & H & _).
    rewrite (H "vault backup"
               (mkGitError "Command failed: git commit" (Some "1") (Some "")
                  (Some ("On branch main" ++ Mock.nl ++
                         "nothing to commit, working tree clean" ++ Mock.nl)%string))
               (skipn 1 Mock.nothingToCommit) eq_refl eq_refl).
    reflexivity.
  - pose (s := Mock.start false Mock.committedElsewhere).
    destruct (commit_nothing_to_commit_is_not_fatal s) as (_ & _ & _ & H).
    destruct (H (parseStatus ("## main...origin/main" ++ Mock.nl ++
                              " M notes.md" ++ Mock.nl))
                (snd (status s)) (snd (addAll (snd (status s))))
                (mkGitError "Command failed: git commit" (Some "1") (Some "")
                   (Some ("On branch main" ++ Mock.nl ++
                          "nothing to commit, working tree clean" ++ Mock.nl)%string))
                (skipn 3 Mock.committedElsewhere)
                eq_refl eq_refl eq_refl eq_refl eq_refl) as [Heq _].
    fold s. rewrite Heq. split; [reflexivity |].
    do 7 right. left. reflexivity.
Defined.

Lemma pullOnly_trivial_success_witness :
  pullOnly (Mock.start false Mock.noRemote) =
  (Ok (mkPullResult true "No remote configured, skipping pull" [] []),
   snd (getRemoteName (Mock.start false Mock.noRemote))) /\
  fst (pullOnly (Mock.start false Mock.upToDate)) =
  Ok (mkPullResult true "Already up to date" [] []).
Proof.
  split.
  - apply (pullOnly_trivial_success (Mock.start false Mock.noRemote)).
    reflexivity.
  - pose (s := Mock.start false Mock.upToDate).
    destruct (pullOnly_trivial_success s) as [_ H].
    change (Mock.start false Mock.upToDate) with s.
    rewrite (H "origin" (snd (getRemoteName s))
               (snd (fetch (snd (getRemoteName s))))
               (parseStatus ("## main...origin/main" ++ Mock.nl))
               (snd (status (snd (fetch (snd (getRemoteName s))))))
               eq_refl eq_refl eq_refl eq_refl).
    reflexivity.
Defined.


(* ================================================================== *)
(** ** Further properties of the executor, the manager and the helpers *)
(* ================================================================== *)
Section ManagerFacts.
Context `{E : Env}.

(** X1.  Whatever the backend answers, [sync] returns a verdict and never
    throws, and it leaves the lock as it found it: free after a run that
    took it (the [finally] block), still held after the busy exit.  The
    registration of the status callback is not touched. *)
Theorem sync_leaves_the_lock_as_found (s : Sys) :
  exists v,
    fst (sync s) = Ok v /\
    syncLock (mgr (snd (sync s))) = syncLock (mgr s) /\
    onStatusChange (mgr (snd (sync s))) = onStatusChange (mgr s).
Proof.
  destruct (syncLock (mgr s)) eqn:Hlock.
  - exists busyResult. rewrite (sync_busy s Hlock). cbn [fst snd]. auto.
  - rewrite (sync_unlocked s Hlock).
    destruct (sync_blocks_end (setSyncLock true s)) as (v & s1 & Hrun & Hend).
    rewrite Hrun. cbn [fst snd]. exists v. split; [reflexivity |].
    split; [reflexivity |].
    cbn [setSyncLock setMgr mgr onStatusChange].
    destruct Hend as [Hm _ | Hm _ | sa sb sc pr pu _ _ _ _ _ Hm];
      rewrite Hm; reflexivity.
Qed.

Lemma pushWith_flagged (command : string -> string -> string) (s s' : Sys)
      (r : PushResult) :
  pushWith command s = (Ok r, s') ->
  ps_pushed r = 0%N \/ (ps_pushed r = 1%N /\ ps_success r = true).
Proof.
  intros H.
  destruct (pushWith_cases command s) as (s1 & [H1 | [H1 | (e & H1)]]);
    rewrite H1 in H; injection H as <- _; cbn; auto.
Qed.

(** X2.  [commitAndPush] never throws: whatever the backend answers it
    returns a push result, and the [pushed] count of that result is 0, or 1
    together with [success]. *)
Theorem commitAndPush_never_throws (s : Sys) :
  exists r s',
    commitAndPush s = (Ok r, s') /\
    (ps_pushed r = 0%N \/ (ps_pushed r = 1%N /\ ps_success r = true)).
Proof.
  unfold commitAndPush, tryCatch.
  match goal with
  | |- context [match ?body s with _ => _ end] =>
      destruct (body s) as [[r | e] s1] eqn:Hbody
  end.
  - exists r, s1. split; [reflexivity |].
    revert Hbody. unfold bind at 1.
    destruct (status s) as [[st | e] s2]; [| discriminate].
    destruct (st_clean st).
    + destruct (N.ltb 0 (st_ahead st)).
      * rewrite (bind_ok _ _ _ _ _ (updateStatus_eq _ _ _)).
        apply pushWith_flagged.
      * intros [= <- _]. cbn. auto.
    + unfold bind at 1.
      destruct (addAll s2) as [[[] | e] s3]; [| discriminate].
      unfold bind at 1, gets. unfold bind at 1.
      destruct (commit (generateCommitMessage (world s3)) s3)
        as [[c | e] s4]; [| discriminate].
      unfold bind at 1.
      destruct (hasUpstream s4) as [[up | e] s5]; [| discriminate].
      rewrite (bind_ok _ _ _ _ _ (updateStatus_eq _ _ _)).
      destruct up; apply pushWith_flagged.
  - destruct (saysNothingToCommit e).
    + destruct (pushWith_ok pushCommand s1) as (r & s2 & Hp).
      unfold push. rewrite Hp. exists r, s2. split; [reflexivity |].
      exact (pushWith_flagged _ _ _ _ Hp).
    + unfold ret. do 2 eexists. split; [reflexivity |]. cbn. auto.
Qed.

(** X3.  On a clean work tree [commitAndPush] neither stages nor commits.
    With no commit ahead of the remote it returns the successful "Nothing
    to commit or push" after the one status command; with commits ahead it
    announces the push and is [push] from there. *)
Theorem commitAndPush_on_clean_tree (s : Sys) (out : Output) (w1 : World) :
  exec "status --porcelain=v1 --branch" (world s) = (inl out, w1) ->
  st_clean (parseStatus (out_stdout out)) = true ->
  (st_ahead (parseStatus (out_stdout out)) = 0%N ->
   commitAndPush s =
   (Ok (mkPushResult true "Nothing to commit or push" 0),
    after "status --porcelain=v1 --branch" w1 s)) /\
  (st_ahead (parseStatus (out_stdout out)) <> 0%N ->
   commitAndPush s =
   push (noted pushing "Pushing changes..."
               (after "status --porcelain=v1 --branch" w1 s))).
Proof.
  intros Hexec Hclean.
  assert (Hst : status s = (Ok (parseStatus (out_stdout out)),
                            after "status --porcelain=v1 --branch" w1 s)).
  { unfold status. rewrite (bind_ok _ _ _ _ _ (run_ok _ _ _ _ Hexec)).
    reflexivity. }
  split; intros Hahead.
  - unfold commitAndPush. apply tryCatch_ok.
    rewrite (bind_ok _ _ _ _ _ Hst), Hclean, Hahead. reflexivity.
  - destruct (pushWith_ok pushCommand
                (noted pushing "Pushing changes..."
                       (after "status --porcelain=v1 --branch" w1 s)))
      as (r & s' & Hp).
    unfold push. rewrite Hp.
    unfold commitAndPush. apply tryCatch_ok.
    rewrite (bind_ok _ _ _ _ _ Hst), Hclean.
    assert (Hlt : N.ltb 0 (st_ahead (parseStatus (out_stdout out))) = true).
    { apply N.ltb_lt. destruct (st_ahead (parseStatus (out_stdout out)));
        [contradiction | reflexivity]. }
    rewrite Hlt, (bind_ok _ _ _ _ _ (updateStatus_eq _ _ _)). exact Hp.
Qed.

(** X5.  When a remote is configured and the fetch throws, [pullOnly] asks
    for the unmerged paths.  With none reported it throws the error of the
    fetch again, unchanged; with some reported it reads the status and
    returns the "Merge conflicts detected" failure with the conflicts of
    that status, after telling the status callback. *)
Theorem pullOnly_after_failed_fetch
        (s s1 s2 : Sys) (r : string) (e : GitError) :
  getRemoteName s = (Ok (Some r), s1) ->
  fetch s1 = (Throw e, s2) ->
  (reportsConflicts (fst (exec unmergedCommand (world s2))) = false ->
   pullOnly s =
   (Throw e, after unmergedCommand (snd (exec unmergedCommand (world s2))) s2))
  /\
  (reportsConflicts (fst (exec unmergedCommand (world s2))) = true ->
   forall st s4,
     status (after unmergedCommand (snd (exec unmergedCommand (world s2))) s2)
     = (Ok st, s4) ->
     pullOnly s =
     (Ok (mkPullResult false "Merge conflicts detected" [] (st_conflicts st)),
      noted conflict "Merge conflicts detected" s4)).
Proof.
  intros H1 H2.
  assert (Hbody : forall h : GitError -> M PullResult,
    tryCatch
      (remote <- getRemoteName ;;
       match remote with
       | None =>
           ret (mkPullResult true "No remote configured, skipping pull" [] [])
       | Some _ =>
           fetch ;;;
           st <- status ;;
           if N.eqb (st_behind st) 0
           then ret (mkPullResult true "Already up to date" [] [])
           else updateStatus pulling "Pulling changes..." ;;; pull
       end) h s = h e s2).
  { intros h. unfold tryCatch.
    rewrite (bind_ok _ _ _ _ _ H1), (bind_throw _ _ _ _ _ H2). reflexivity. }
  split.
  - intros Hc. unfold pullOnly. rewrite Hbody.
    rewrite (bind_ok _ _ _ _ _ (hasConflicts_eq _)), Hc. reflexivity.
  - intros Hc st s4 Hst. unfold pullOnly. rewrite Hbody.
    rewrite (bind_ok _ _ _ _ _ (hasConflicts_eq _)), Hc.
    unfold getStatus.
    assert (Hs : (s0 <- status ;; ret (st_conflicts s0))
                   (after unmergedCommand
                          (snd (exec unmergedCommand (world s2))) s2)
                 = (Ok (st_conflicts st), s4)).
    { rewrite (bind_ok _ _ _ _ _ Hst). reflexivity. }
    rewrite (bind_ok _ _ _ _ _ Hs),
      (bind_ok _ _ _ _ _ (updateStatus_eq _ _ _)).
    reflexivity.
Qed.

End ManagerFacts.

Section TransferFacts.
Context `{E : Env}.

(** X7.  When the lock is free, the three checks pass and [pullOnly] throws,
    [sync] returns a failure with the message of that error, runs no command
    after those of [pullOnly] (no commit, no push), records the verdict as
    the last result, leaves the last sync time and frees the lock. *)
Theorem sync_reports_a_failed_pull
        (s s4 : Sys) (o1 o2 : Output) (r3 : ExecResult) (w1 w2 w3 : World)
        (e : GitError) :
  syncLock (mgr s) = false ->
  exec "--version" (world s) = (inl o1, w1) ->
  exec "rev-parse --is-inside-work-tree" w1 = (inl o2, w2) ->
  exec unmergedCommand w2 = (r3, w3) ->
  reportsConflicts r3 = false ->
  pullOnly (readyToPull s w1 w2 w3) = (Throw e, s4) ->
  let verdict :=
    mkSyncResult false
                 (orDefault (Some (err_message e)) "Unknown error during sync")
                 None None None in
  fst (sync s) = Ok verdict /\
  issued (snd (sync s)) = issued s4 /\
  world (snd (sync s)) = world s4 /\
  mgr (snd (sync s)) =
  mkManager false (lastSyncTime (mgr s)) (Some verdict)
            (onStatusChange (mgr s)).
Proof.
  intros Hlock H1 H2 H3 H4 H5 verdict.
  rewrite (sync_unlocked s Hlock).
  assert (Hbody : syncBody (setSyncLock true s) = (Throw e, s4)).
  { unfold syncBody.
    rewrite (bind_ok _ _ _ _ _
               (checkGitStatus_ready (setSyncLock true s) _ _ _ _ H1 H2)).
    cbn [ck_available ck_isRepo negb].
    rewrite (bind_ok _ _ _ _ _ (hasConflicts_eq _)).
    cbn [world after fst snd]. rewrite H3. cbn [fst snd]. rewrite H4.
    rewrite (bind_ok _ _ _ _ _ (updateStatus_eq _ _ _)).
    fold (readyToPull s w1 w2 w3).
    rewrite (bind_throw _ _ _ _ _ H5). reflexivity. }
  unfold tryCatch. rewrite Hbody. unfold syncCatch.
  rewrite (bind_ok _ _ _ _ _ (updateStatus_eq _ _ _)), recordResult_eq.
  cbn [fst snd].
  pose proof (keeps_pullOnly (readyToPull s w1 w2 w3)) as K.
  rewrite H5 in K. cbn [snd] in K.
  unfold readyToPull in K. rewrite mgr_noted in K.
  cbn [after mgr setSyncLock setMgr] in K.
  split; [reflexivity |].
  cbn [setSyncLock setLastSyncResult setMgr mgr issued world syncLock
       lastSyncTime lastSyncResult onStatusChange].
  rewrite mgr_noted, K.
  unfold noted, logEvent.
  destruct (onStatusChange (mgr s4)); cbn; repeat split; reflexivity.
Qed.

(** X9.  On a branch of a repository without remote, [push] and
    [pushWithUpstream] return the no-remote failure with a [pushed] count
    of 0 after the branch and remote queries; no push command is run. *)
Theorem push_without_remote (s s1 s2 : Sys) (b : string) :
  getCurrentBranch s = (Ok b, s1) ->
  getRemoteName s1 = (Ok None, s2) ->
  push s = (Ok (mkPushResult false noRemoteMessage 0), s2) /\
  pushWithUpstream s = (Ok (mkPushResult false noRemoteMessage 0), s2) /\
  issued s2 = issued s ++ ["rev-parse --abbrev-ref HEAD"; "remote"].
Proof.
  intros H1 H2.
  assert (Hp : forall command,
             pushWith command s =
             (Ok (mkPushResult false noRemoteMessage 0), s2)).
  { intros command. unfold pushWith. apply tryCatch_ok.
    rewrite (bind_ok _ _ _ _ _ H1), (bind_ok _ _ _ _ _ H2). reflexivity. }
  split; [apply Hp |]. split; [apply Hp |].
  rewrite getRemoteName_eq in H2. injection H2 as _ <-.
  destruct (getCurrentBranch_cases s) as [(o & w & H) | (e & w & H)];
    rewrite H in H1; [| discriminate].
  injection H1 as _ <-. cbn [issued after]. rewrite <- app_assoc. reflexivity.
Qed.

(** X10.  On a branch of a repository without remote, [pull] returns the "No
    remote configured" failure with no files and no conflicts after the
    branch and remote queries; nothing is fetched, stashed or pulled. *)
Theorem pull_without_remote (s s1 s2 : Sys) (b : string) :
  getCurrentBranch s = (Ok b, s1) ->
  getRemoteName s1 = (Ok None, s2) ->
  pull s = (Ok (mkPullResult false "No remote configured" [] []), s2) /\
  issued s2 = issued s ++ ["rev-parse --abbrev-ref HEAD"; "remote"].
Proof.
  intros H1 H2. split.
  - unfold pull. apply tryCatch_ok.
    rewrite (bind_ok _ _ _ _ _ H1), (bind_ok _ _ _ _ _ H2). reflexivity.
  - rewrite getRemoteName_eq in H2. injection H2 as _ <-.
    destruct (getCurrentBranch_cases s) as [(o & w & H) | (e & w & H)];
      rewrite H in H1; [| discriminate].
    injection H1 as _ <-. cbn [issued after]. rewrite <- app_assoc.
    reflexivity.
Qed.

(** X11.  When the status shows neither staged nor modified files, [pull]
    pushes no stash, and after a pull command that succeeds it runs [stash
    pop] all the same: the pop is not tied to the push.  Whatever the pop
    answers, the pull is reported successful with the files of the pull
    output. *)
Theorem pull_pops_a_stash_it_did_not_push
        (s s1 s2 s3 s4 : Sys) (b r : string) (st : GitStatus)
        (o5 : Output) (w5 : World) :
  getCurrentBranch s = (Ok b, s1) ->
  getRemoteName s1 = (Ok (Some r), s2) ->
  fetch s2 = (Ok tt, s3) ->
  status s3 = (Ok st, s4) ->
  st_modified st = [] ->
  st_staged st = [] ->
  exec (pullCommand r b) (world s4) = (inl o5, w5) ->
  pull s =
  (Ok (mkPullResult true "Pull successful"
                    (parsePullFiles (out_stdout o5)) []),
   after "stash pop" (snd (exec "stash pop" w5))
         (after (pullCommand r b) w5 s4)) /\
  issued (snd (pull s)) = issued s4 ++ [pullCommand r b; "stash pop"].
Proof.
  intros H1 H2 H3 H4 Hm Hs H5.
  assert (Hpull : pull s =
    (Ok (mkPullResult true "Pull successful"
                      (parsePullFiles (out_stdout o5)) []),
     after "stash pop" (snd (exec "stash pop" w5))
           (after (pullCommand r b) w5 s4))).
  { unfold pull. apply tryCatch_ok.
    rewrite (bind_ok _ _ _ _ _ H1), (bind_ok _ _ _ _ _ H2),
      (bind_ok _ _ _ _ _ H3), (bind_ok _ _ _ _ _ H4).
    rewrite Hm, Hs. cbn [isEmpty negb orb].
    unfold bind at 1, ret at 1.
    rewrite (bind_ok _ _ _ _ _ (run_ok _ _ _ _ H5)).
    unfold bind, tryCatch, ret, run. rewrite spawn_eq. cbn [world after].
    destruct (exec "stash pop" w5) as [[o7 | e7] w7]; reflexivity. }
  split; [exact Hpull |].
  rewrite Hpull. cbn [snd issued after]. rewrite <- !app_assoc. reflexivity.
Qed.

(** X12.  When [pull] has stashed local changes and the pull command then
    fails, [stash pop] is not run: the changes stay in the stash.  The pull
    asks for the unmerged paths; with none it throws the error of the pull
    command, with some it asks again and returns the "Merge conflicts
    detected" failure with the paths of the second answer. *)
Theorem pull_failure_leaves_the_stash
        (s s1 s2 s3 s4 : Sys) (b r : string) (st : GitStatus)
        (o5 : Output) (e6 : GitError) (w5 w6 : World) :
  getCurrentBranch s = (Ok b, s1) ->
  getRemoteName s1 = (Ok (Some r), s2) ->
  fetch s2 = (Ok tt, s3) ->
  status s3 = (Ok st, s4) ->
  st_modified st <> [] \/ st_staged st <> [] ->
  exec stashPushCommand (world s4) = (inl o5, w5) ->
  exec (pullCommand r b) w5 = (inr e6, w6) ->
  let w7 := snd (exec unmergedCommand w6) in
  (reportsConflicts (fst (exec unmergedCommand w6)) = false ->
   fst (pull s) = Throw (thrown e6) /\
   issued (snd (pull s)) =
   issued s4 ++ [stashPushCommand; pullCommand r b; unmergedCommand]) /\
  (reportsConflicts (fst (exec unmergedCommand w6)) = true ->
   fst (pull s) =
   Ok (mkPullResult false "Merge conflicts detected" []
         match fst (exec unmergedCommand w7) with
         | inl out => Js.nonEmptyLines (out_stdout out)
         | inr _ => []
         end) /\
   issued (snd (pull s)) =
   issued s4 ++ [stashPushCommand; pullCommand r b; unmergedCommand;
                 unmergedCommand]).
Proof.
  intros H1 H2 H3 H4 Hdirty H5 H6 w7.
  pose (s6 := after (pullCommand r b) w6 (after stashPushCommand w5 s4)).
  assert (Hbody : forall h : GitError -> M PullResult,
    tryCatch
      (branch <- getCurrentBranch ;;
       remote <- getRemoteName ;;
       match remote with
       | None => ret (mkPullResult false "No remote configured" [] [])
       | Some r =>
           fetch ;;;
           st <- status ;;
           (if negb (isEmpty (st_modified st)) || negb (isEmpty (st_staged st))
            then run stashPushCommand ;;; ret tt
            else ret tt) ;;;
           result <- run (pullCommand r branch) ;;
           tryCatch (run "stash pop" ;;; ret tt) (fun _ => ret tt) ;;;
           ret (mkPullResult true "Pull successful"
                  (parsePullFiles (out_stdout result)) [])
       end) h s = h (thrown e6) s6).
  { intros h. unfold tryCatch.
    rewrite (bind_ok _ _ _ _ _ H1), (bind_ok _ _ _ _ _ H2),
      (bind_ok _ _ _ _ _ H3), (bind_ok _ _ _ _ _ H4).
    assert (Hd : negb (isEmpty (st_modified st)) || negb (isEmpty (st_staged st))
                 = true).
    { destruct Hdirty as [Hd | Hd].
      - destruct (st_modified st); [contradiction | reflexivity].
      - destruct (st_staged st); [contradiction |]. apply orb_true_r. }
    rewrite Hd.
    assert (Hstash : (run stashPushCommand ;;; ret tt) s4 =
                     (Ok tt, after stashPushCommand w5 s4)).
    { rewrite (bind_ok _ _ _ _ _ (run_ok _ _ _ _ H5)). reflexivity. }
    rewrite (bind_ok _ _ _ _ _ Hstash).
    assert (Hrun : run (pullCommand r b) (after stashPushCommand w5 s4) =
                   (Throw (thrown e6), s6)).
    { apply run_throw. exact H6. }
    rewrite (bind_throw _ _ _ _ _ Hrun). reflexivity. }
  subst s6. split.
  - intros Hc. unfold pull. rewrite Hbody.
    rewrite (bind_ok _ _ _ _ _ (hasConflicts_eq _)).
    cbn [world after]. rewrite Hc.
    unfold throw. cbn [fst snd issued after]. rewrite <- !app_assoc.
    split; reflexivity.
  - intros Hc. unfold pull. rewrite Hbody.
    rewrite (bind_ok _ _ _ _ _ (hasConflicts_eq _)).
    cbn [world after]. rewrite Hc.
    unfold getConflictFiles, tryCatch, bind, ret, run. rewrite spawn_eq.
    cbn [world after]. fold w7.
    destruct (exec unmergedCommand w7) as [[o | e] w];
      cbn [fst snd issued after]; rewrite <- !app_assoc; split; reflexivity.
Qed.

End TransferFacts.

Section PreflightFacts.
Context `{E : Env}.

(** X8.  With the lock free: when the version probe fails, [sync] returns the
    "Git is not installed or not found in PATH" failure having run that
    probe only; when the probe passes and the work-tree probe fails, it
    returns the "Not a git repository" failure having run these two commands
    only. *)
Theorem sync_without_git_or_repository (s : Sys) :
  syncLock (mgr s) = false ->
  (forall e w1,
      exec "--version" (world s) = (inr e, w1) ->
      fst (sync s) =
      Ok (mkSyncResult false "Git is not installed or not found in PATH"
                       None None None) /\
      issued (snd (sync s)) = issued s ++ ["--version"]) /\
  (forall o1 e w1 w2,
      exec "--version" (world s) = (inl o1, w1) ->
      exec "rev-parse --is-inside-work-tree" w1 = (inr e, w2) ->
      fst (sync s) =
      Ok (mkSyncResult
            false
            "Not a git repository. Please initialize a git repository first."
            None None None) /\
      issued (snd (sync s)) =
      issued s ++ ["--version"; "rev-parse --is-inside-work-tree"]).
Proof.
  intros Hlock. split.
  - intros e w1 H1. rewrite (sync_unlocked s Hlock).
    assert (Hbody : syncBody (setSyncLock true s) =
              (Ok (mkSyncResult false
                     "Git is not installed or not found in PATH"
                     None None None),
               noted error "Git is not installed or not found in PATH"
                     (after "--version" w1 (setSyncLock true s)))).
    { unfold syncBody.
      rewrite (bind_ok _ _ _ _ _
                 (checkGitStatus_unavailable (setSyncLock true s) _ _ H1)).
      cbn [ck_available ck_error negb].
      rewrite (bind_ok _ _ _ _ _ (updateStatus_eq _ _ _)). reflexivity. }
    rewrite (tryCatch_ok _ _ _ _ _ Hbody). cbn [fst snd].
    split; [reflexivity |].
    unfold noted. cbn [mgr after setSyncLock setMgr onStatusChange].
    destruct (onStatusChange (mgr s)); reflexivity.
  - intros o1 e w1 w2 H1 H2. rewrite (sync_unlocked s Hlock).
    assert (Hbody : syncBody (setSyncLock true s) =
              (Ok (mkSyncResult
                     false
                     "Not a git repository. Please initialize a git repository first."
                     None None None),
               noted error "Not a git repository"
                     (after "rev-parse --is-inside-work-tree" w2
                            (after "--version" w1 (setSyncLock true s))))).
    { unfold syncBody.
      rewrite (bind_ok _ _ _ _ _
                 (checkGitStatus_notRepo (setSyncLock true s) _ _ _ _ H1 H2)).
      cbn [ck_available ck_isRepo negb].
      rewrite (bind_ok _ _ _ _ _ (updateStatus_eq _ _ _)). reflexivity. }
    rewrite (tryCatch_ok _ _ _ _ _ Hbody). cbn [fst snd].
    split; [reflexivity |].
    unfold noted. cbn [mgr after setSyncLock setMgr onStatusChange].
    destruct (onStatusChange (mgr s)); cbn; rewrite <- app_assoc; reflexivity.
Qed.

End PreflightFacts.

Section StatusFacts.
Context `{E : Env}.

Lemma pick_nil (p : string -> bool) (lines : list string) :
  pick p lines = [] <-> forall l, In l lines -> p l = false.
Proof.
  unfold pick. induction lines as [| l lines IH]; simpl.
  - split; [intros _ l [] | reflexivity].
  - destruct (p l) eqn:Hp; simpl.
    + split; [discriminate |]. intros H. specialize (H l (or_introl eq_refl)).
      congruence.
    + rewrite IH. split.
      * intros H l' [<- | Hin]; auto.
      * intros H l' Hin. apply H. right. exact Hin.
Qed.

Lemma charIsNot_false (c : option ascii) (x : ascii) :
  charIsNot c x = false <-> c = Some x.
Proof.
  unfold charIsNot. rewrite negb_false_iff. apply charIs_true.
Qed.

Lemma line_in_no_list (l : string) :
  lineIsStaged l = false /\ lineIsModified l = false /\
  lineIsUntracked l = false /\ lineIsConflict l = false <->
  inertCodes (Js.charAt l 0) (Js.charAt l 1).
Proof.
  unfold lineIsStaged, lineIsModified, lineIsUntracked, lineIsConflict,
    inertCodes.
  destruct (isConflictCode (Js.charAt l 0) (Js.charAt l 1)) eqn:Hc.
  - apply isConflictCode_true in Hc. split.
    + intros (_ & _ & _ & H). discriminate H.
    + intros ([Hi | Hi] & [Hw | Hw] & _); exfalso;
        destruct Hc as [H | [H | [[H _] | [H _]]]];
        rewrite ?Hi, ?Hw in H; discriminate H.
  - cbn [negb andb].
    assert (Hu : charIs (Js.charAt l 0) "?" && charIs (Js.charAt l 1) "?"
                 = false <->
                 ~ (Js.charAt l 0 = Some "?"%char /\
                    Js.charAt l 1 = Some "?"%char)).
    { rewrite <- not_true_iff_false, andb_true_iff, !charIs_true.
      reflexivity. }
    rewrite Hu, !andb_false_iff, !charIsNot_false. tauto.
Qed.

(** X13.  The status is clean exactly when every file line of the output has
    an index code and a work-tree code that are each a space or a question
    mark, without being both question marks: the lines that [status] puts in
    none of its four lists. *)
Theorem status_clean_iff_no_line_counts (stdout : string) :
  st_clean (parseStatus stdout) = true <->
  forall line,
    In line (fileLines stdout) ->
    inertCodes (Js.charAt line 0) (Js.charAt line 1).
Proof.
  destruct (parseStatus_lists stdout) as (Hs & Hm & Hu & Hc).
  fold (fileLines stdout) in Hs, Hm, Hu, Hc.
  assert (Hclean : st_clean (parseStatus stdout) = true <->
                   st_staged (parseStatus stdout) = [] /\
                   st_modified (parseStatus stdout) = [] /\
                   st_untracked (parseStatus stdout) = [] /\
                   st_conflicts (parseStatus stdout) = []).
  { unfold parseStatus. cbn [st_clean st_staged st_modified st_untracked
                             st_conflicts].
    rewrite !andb_true_iff.
    assert (He : forall (l : list string), isEmpty l = true <-> l = []).
    { intros [| x l]; simpl; split; congruence. }
    rewrite !He. tauto. }
  rewrite Hclean, Hs, Hm, Hu, Hc, !pick_nil. split.
  - intros (H1 & H2 & H3 & H4) line Hin. apply line_in_no_list. auto.
  - intros H. repeat split; intros l Hin; apply (line_in_no_list l); auto.
Qed.

(** Picking from lines of distinct files gives distinct files. *)
Lemma pick_NoDup (keep : string -> bool) (lines : list string) :
  NoDup (map lineFile lines) -> NoDup (pick keep lines).
Proof.
  unfold pick. induction lines as [| line lines IH]; intros Hnd.
  - constructor.
  - cbn [map] in Hnd. apply NoDup_cons_iff in Hnd. destruct Hnd as [Hout Hnd].
    cbn [filter]. destruct (keep line); [| exact (IH Hnd)].
    cbn [map]. constructor; [| exact (IH Hnd)].
    intros Hin. apply Hout. apply in_map_iff in Hin.
    destruct Hin as (other & Hsame & Hin). apply filter_In in Hin.
    apply in_map_iff. exists other. split; [exact Hsame | apply Hin].
Qed.

Lemma NoDup_map_inj {A B} (f : A -> B) (l : list A) (a b : A) :
  NoDup (map f l) -> In a l -> In b l -> f a = f b -> a = b.
Proof.
  induction l as [| x l IH]; simpl; intros H Ha Hb Hf; [contradiction |].
  inversion H as [| y ys Hnotin Hnd]; subst.
  destruct Ha as [-> | Ha], Hb as [-> | Hb]; auto.
  - exfalso. apply Hnotin. rewrite Hf. apply in_map. exact Hb.
  - exfalso. apply Hnotin. rewrite <- Hf. apply in_map. exact Ha.
Qed.

Lemma pick_disjoint (p q : string -> bool) (lines : list string) (f : string) :
  NoDup (map lineFile lines) ->
  (forall l, p l = true -> q l = false) ->
  In f (pick p lines) -> ~ In f (pick q lines).
Proof.
  intros Hnd Hpq Hp Hq.
  apply in_pick in Hp. destruct Hp as (l1 & Hin1 & Hp1 & Hf1).
  apply in_pick in Hq. destruct Hq as (l2 & Hin2 & Hq2 & Hf2).
  assert (l1 = l2) by (apply (NoDup_map_inj lineFile lines); congruence).
  subst l2. rewrite (Hpq l1 Hp1) in Hq2. discriminate.
Qed.

(** X14.  When the file lines of the status output name distinct paths, each
    of the four lists is free of duplicates, a conflicted path is in no
    other list, and an untracked path is neither staged nor modified. *)
Theorem status_lists_of_distinct_paths (stdout : string) :
  NoDup (map (Js.substringFrom 3) (fileLines stdout)) ->
  let st := parseStatus stdout in
  NoDup (st_staged st) /\ NoDup (st_modified st) /\
  NoDup (st_untracked st) /\ NoDup (st_conflicts st) /\
  (forall f, In f (st_conflicts st) ->
             ~ In f (st_staged st) /\ ~ In f (st_modified st) /\
             ~ In f (st_untracked st)) /\
  (forall f, In f (st_untracked st) ->
             ~ In f (st_staged st) /\ ~ In f (st_modified st)).
Proof.
  intros Hnd. cbv zeta.
  destruct (parseStatus_lists stdout) as (Hs & Hm & Hu & Hc).
  fold (fileLines stdout) in Hs, Hm, Hu, Hc.
  rewrite Hs, Hm, Hu, Hc.
  change (map (Js.substringFrom 3) (fileLines stdout))
    with (map lineFile (fileLines stdout)) in Hnd.
  repeat split; try (apply pick_NoDup; exact Hnd).
  - revert H. apply (pick_disjoint _ _ _ _ Hnd).
    intros l Hl. unfold lineIsStaged. rewrite Hl. reflexivity.
  - revert H. apply (pick_disjoint _ _ _ _ Hnd).
    intros l Hl. unfold lineIsModified. rewrite Hl. reflexivity.
  - revert H. apply (pick_disjoint _ _ _ _ Hnd).
    intros l Hl. unfold lineIsUntracked. rewrite Hl. reflexivity.
  - revert H. apply (pick_disjoint _ _ _ _ Hnd).
    intros l Hl. unfold lineIsUntracked, lineIsStaged in *.
    destruct (lineIsConflict l); [discriminate |]. cbn [negb andb] in *.
    apply andb_true_iff in Hl. destruct Hl as [Hi _].
    apply charIs_true in Hi. rewrite Hi. reflexivity.
  - revert H. apply (pick_disjoint _ _ _ _ Hnd).
    intros l Hl. unfold lineIsUntracked, lineIsModified in *.
    destruct (lineIsConflict l); [discriminate |]. cbn [negb andb] in *.
    apply andb_true_iff in Hl. destruct Hl as [_ Hw].
    apply charIs_true in Hw. rewrite Hw. reflexivity.
Qed.

Lemma arrayIncludes_In (xs : list string) (x : string) :
  Js.arrayIncludes xs x = true <-> In x xs.
Proof.
  unfold Js.arrayIncludes. rewrite existsb_exists. split.
  - intros (y & Hin & Heq). apply String.eqb_eq in Heq. subst. exact Hin.
  - intros Hin. exists x. split; [exact Hin | apply String.eqb_refl].
Qed.

(** X15.  [getRemoteName] never throws.  When the remote query succeeds it
    answers [origin] if that is among the remotes listed, the first remote
    listed otherwise, always one of those listed, and null exactly when none
    is listed; when the query fails it answers null. *)
Theorem getRemoteName_prefers_origin (s : Sys) :
  (forall out w,
      exec "remote" (world s) = (inl out, w) ->
      let remotes := Js.nonEmptyLines (out_stdout out) in
      exists r,
        getRemoteName s = (Ok r, after "remote" w s) /\
        (In "origin" remotes -> r = Some "origin") /\
        (~ In "origin" remotes -> r = hd_error remotes) /\
        (forall x, r = Some x -> In x remotes) /\
        (r = None <-> remotes = [])) /\
  (forall e w,
      exec "remote" (world s) = (inr e, w) ->
      getRemoteName s = (Ok None, after "remote" w s)).
Proof.
  split.
  - intros out w H remotes. rewrite getRemoteName_eq, H. cbn [fst snd].
    fold remotes. exists (pickRemote remotes). split; [reflexivity |].
    unfold pickRemote.
    destruct (Js.arrayIncludes remotes "origin") eqn:Hinc.
    + apply arrayIncludes_In in Hinc. repeat split.
      * intros Hno. contradiction.
      * intros x [= <-]. exact Hinc.
      * discriminate.
      * intros ->. destruct Hinc.
    + assert (Hno : ~ In "origin" remotes).
      { rewrite <- arrayIncludes_In, Hinc. discriminate. }
      repeat split.
      * intros Hin. contradiction.
      * intros x Hx. destruct remotes as [| y ys]; [discriminate |].
        injection Hx as <-. left. reflexivity.
      * destruct remotes; [reflexivity | discriminate].
      * intros ->. reflexivity.
  - intros e w H. rewrite getRemoteName_eq, H. reflexivity.
Qed.

(** X16.  The message of [parsePushError] is one of its five fixed texts, or
    the trimmed rest of a line of the error output that has "fatal:" in it.
    When none of the authentication markers is in the output: "Permission
    to" with "denied" gives the permission text; failing that, "Could not
    resolve host" gives the network text; failing that too, and with no
    "fatal:" line, the generic text. *)
Theorem parsePushError_closed_set (e : GitError) :
  let stderr := orEmpty (err_stderr e) in
  (In (parsePushError e) fixedPushMessages \/
   exists line,
     In line (Js.split stderr (String Js.LF "")) /\
     Js.includes line "fatal:" = true /\
     parsePushError e = Js.trim (Js.removeFirst "fatal: " line)) /\
  (Js.includes stderr "Authentication failed" = false ->
   Js.includes stderr "403" = false ->
   Js.includes stderr "fatal: unable to access" = false ->
   Js.includes stderr "Permission denied (publickey)" = false ->
   (Js.includes stderr "Permission to" = true ->
    Js.includes stderr "denied" = true ->
    parsePushError e = permissionMessage) /\
   (Js.includes stderr "Permission to" && Js.includes stderr "denied" = false ->
    (Js.includes stderr "Could not resolve host" = true ->
     parsePushError e = networkMessage) /\
    (Js.includes stderr "Could not resolve host" = false ->
     Js.includes stderr "fatal:" = false ->
     parsePushError e = genericPushMessage))).
Proof.
  cbv zeta. split.
  - unfold parsePushError, fixedPushMessages.
    destruct (Js.includes (orEmpty (err_stderr e)) "Authentication failed"
              || Js.includes (orEmpty (err_stderr e)) "403"
              || Js.includes (orEmpty (err_stderr e)) "fatal: unable to access");
      [left; simpl; auto |].
    destruct (Js.includes (orEmpty (err_stderr e))
                          "Permission denied (publickey)");
      [left; simpl; auto |].
    destruct (Js.includes (orEmpty (err_stderr e)) "Permission to"
              && Js.includes (orEmpty (err_stderr e)) "denied");
      [left; simpl; auto |].
    destruct (Js.includes (orEmpty (err_stderr e)) "Could not resolve host");
      [left; simpl; auto 6 |].
    destruct (Js.includes (orEmpty (err_stderr e)) "fatal:");
      [| left; simpl; auto 6].
    destruct (find (fun line => Js.includes line "fatal:")
                   (Js.split (orEmpty (err_stderr e)) (String Js.LF "")))
      as [line |] eqn:Hfind; [| left; simpl; auto 6].
    right. exists line. apply find_some in Hfind. tauto.
  - intros H1 H2 H3 H4. unfold parsePushError. rewrite H1, H2, H3, H4.
    cbn [orb]. split.
    + intros H5 H6. rewrite H5, H6. reflexivity.
    + intros H5. rewrite H5. split.
      * intros H6. rewrite H6. reflexivity.
      * intros H6 H7. rewrite H6, H7. reflexivity.
Qed.

End StatusFacts.

Section TimerFacts.

Lemma stopAutoSync_clears (a : AutoSync) :
  oneTimer a ->
  autoSyncInterval (stopAutoSync a) = None /\
  timers (window (stopAutoSync a)) = [] /\
  nextTimer (window (stopAutoSync a)) = nextTimer (window a).
Proof.
  unfold oneTimer, stopAutoSync.
  destruct (autoSyncInterval a) as [id |] eqn:Hh.
  - intros (ms & H). cbn. rewrite H. cbn. rewrite Nat.eqb_refl. cbn. auto.
  - intros H. rewrite H, Hh. auto.
Qed.

Lemma startAutoSync_arms (m : N) (a : AutoSync) :
  oneTimer a ->
  autoSyncInterval (startAutoSync m a) = Some (nextTimer (window a)) /\
  timers (window (startAutoSync m a)) =
  [(nextTimer (window a), (m * 60 * 1000)%N)].
Proof.
  intros H. destruct (stopAutoSync_clears a H) as (_ & Ht & Hn).
  unfold startAutoSync.
  assert (Hs : match autoSyncInterval a with
               | Some _ => stopAutoSync a
               | None => a
               end = stopAutoSync a).
  { unfold stopAutoSync. destruct (autoSyncInterval a); reflexivity. }
  rewrite Hs. unfold setInterval. cbn. rewrite Ht, Hn. auto.
Qed.

Lemma applyOp_oneTimer (a : AutoSync) (op : TimerOp) :
  oneTimer a -> oneTimer (applyOp a op).
Proof.
  intros H.
  assert (Hstop : oneTimer (stopAutoSync a)).
  { destruct (stopAutoSync_clears a H) as (Hh & Ht & _).
    unfold oneTimer. rewrite Hh. exact Ht. }
  assert (Hstart : forall m b, oneTimer b -> oneTimer (startAutoSync m b)).
  { intros m b Hb. destruct (startAutoSync_arms m b Hb) as (Hh & Ht).
    unfold oneTimer. rewrite Hh. eauto. }
  destruct op as [m | | [|] m |]; cbn [applyOp restartAutoSync dispose]; auto.
Qed.

Lemma fold_oneTimer (ops : list TimerOp) : forall a,
  oneTimer a -> oneTimer (fold_left applyOp ops a).
Proof.
  induction ops as [| op ops IH]; intros a H; simpl; auto.
  apply IH, applyOp_oneTimer, H.
Qed.

(** X21.  After any sequence of [startAutoSync], [stopAutoSync],
    [restartAutoSync] and [dispose] on a manager just built, at most one
    timer runs and the field of the manager names it.  From there,
    [restartAutoSync] leaves exactly one timer of [syncInterval] minutes when
    automatic sync is on and none when it is off, and [dispose] leaves
    none. *)
Theorem autoSync_never_two_timers
        (ops : list TimerOp) (next : nat) (autoSync : bool) (m : N) :
  let a := fold_left applyOp ops (newAutoSync next) in
  oneTimer a /\
  (length (timers (window a)) <= 1)%nat /\
  timers (window (restartAutoSync autoSync m a)) =
  (if autoSync then [(nextTimer (window a), (m * 60 * 1000)%N)] else []) /\
  timers (window (dispose a)) = [].
Proof.
  cbv zeta.
  assert (H : oneTimer (fold_left applyOp ops (newAutoSync next))).
  { apply fold_oneTimer. reflexivity. }
  set (a := fold_left applyOp ops (newAutoSync next)) in *.
  destruct (stopAutoSync_clears a H) as (Hh & Ht & Hn).
  split; [exact H |]. split; [| split].
  - unfold oneTimer in H. destruct (autoSyncInterval a).
    + destruct H as (ms & ->). simpl. auto.
    + rewrite H. simpl. auto.
  - unfold restartAutoSync. destruct autoSync; [| exact Ht].
    assert (Hstop : oneTimer (stopAutoSync a)).
    { unfold oneTimer. rewrite Hh. exact Ht. }
    destruct (startAutoSync_arms m (stopAutoSync a) Hstop) as (_ & Hs).
    rewrite Hs, Hn. reflexivity.
  - exact Ht.
Qed.

End TimerFacts.

Section StartupFacts.
Context `{E : Env}.

(** X22.  [initialize] never throws, whatever the backend answers and also
    when the pull at start throws.  Without [git], or outside a repository,
    it reports the error to the status callback and starts no timer;
    otherwise it pulls if so configured, starts the timer if so configured,
    and reports "Ready". *)
Theorem initialize_always_completes
        (autoPullOnStart autoSync : bool) (m : N) (a : AutoSync) (s : Sys) :
  (exists a' s',
      initialize autoPullOnStart autoSync m a s = (Ok a', s')) /\
  (forall e w1,
      exec "--version" (world s) = (inr e, w1) ->
      initialize autoPullOnStart autoSync m a s =
      (Ok a, noted error "Git not available" (after "--version" w1 s))) /\
  (forall o1 e w1 w2,
      exec "--version" (world s) = (inl o1, w1) ->
      exec "rev-parse --is-inside-work-tree" w1 = (inr e, w2) ->
      initialize autoPullOnStart autoSync m a s =
      (Ok a, noted error "Not a git repository"
                   (after "rev-parse --is-inside-work-tree" w2
                          (after "--version" w1 s)))) /\
  (forall o1 o2 w1 w2,
      exec "--version" (world s) = (inl o1, w1) ->
      exec "rev-parse --is-inside-work-tree" w1 = (inl o2, w2) ->
      let s2 := after "rev-parse --is-inside-work-tree" w2
                      (after "--version" w1 s) in
      initialize autoPullOnStart autoSync m a s =
      (Ok (if autoSync then startAutoSync m a else a),
       noted idle "Ready"
             (if autoPullOnStart then snd (pullOnly s2) else s2))).
Proof.
  assert (Hready : forall o1 o2 w1 w2,
      exec "--version" (world s) = (inl o1, w1) ->
      exec "rev-parse --is-inside-work-tree" w1 = (inl o2, w2) ->
      initialize autoPullOnStart autoSync m a s =
      (Ok (if autoSync then startAutoSync m a else a),
       noted idle "Ready"
             (if autoPullOnStart
              then snd (pullOnly (after "rev-parse --is-inside-work-tree" w2
                                        (after "--version" w1 s)))
              else after "rev-parse --is-inside-work-tree" w2
                         (after "--version" w1 s)))).
  { intros o1 o2 w1 w2 H1 H2. unfold initialize.
    rewrite (bind_ok _ _ _ _ _ (checkGitStatus_ready s _ _ _ _ H1 H2)).
    cbn [ck_available ck_isRepo negb].
    destruct autoPullOnStart.
    - unfold bind at 1, tryCatch, bind at 1, ret at 1 2.
      destruct (pullOnly (after "rev-parse --is-inside-work-tree" w2
                                (after "--version" w1 s)))
        as [[pr | e] s3]; cbn [snd];
        rewrite (bind_ok _ _ _ _ _ (updateStatus_eq _ _ _)); reflexivity.
    - unfold bind at 1, ret at 1.
      rewrite (bind_ok _ _ _ _ _ (updateStatus_eq _ _ _)). reflexivity. }
  assert (Hnone : forall e w1,
      exec "--version" (world s) = (inr e, w1) ->
      initialize autoPullOnStart autoSync m a s =
      (Ok a, noted error "Git not available" (after "--version" w1 s))).
  { intros e w1 H1. unfold initialize.
    rewrite (bind_ok _ _ _ _ _ (checkGitStatus_unavailable s _ _ H1)).
    cbn [ck_available negb].
    rewrite (bind_ok _ _ _ _ _ (updateStatus_eq _ _ _)). reflexivity. }
  assert (Hnorepo : forall o1 e w1 w2,
      exec "--version" (world s) = (inl o1, w1) ->
      exec "rev-parse --is-inside-work-tree" w1 = (inr e, w2) ->
      initialize autoPullOnStart autoSync m a s =
      (Ok a, noted error "Not a git repository"
                   (after "rev-parse --is-inside-work-tree" w2
                          (after "--version" w1 s)))).
  { intros o1 e w1 w2 H1 H2. unfold initialize.
    rewrite (bind_ok _ _ _ _ _ (checkGitStatus_notRepo s _ _ _ _ H1 H2)).
    cbn [ck_available ck_isRepo negb].
    rewrite (bind_ok _ _ _ _ _ (updateStatus_eq _ _ _)). reflexivity. }
  split; [| split; [exact Hnone | split; [exact Hnorepo | exact Hready]]].
  destruct (exec "--version" (world s)) as [[o1 | e1] w1] eqn:H1.
  - destruct (exec "rev-parse --is-inside-work-tree" w1)
      as [[o2 | e2] w2] eqn:H2.
    + rewrite (Hready o1 o2 w1 w2 eq_refl H2). eauto.
    + rewrite (Hnorepo o1 e2 w1 w2 eq_refl H2). eauto.
  - rewrite (Hnone e1 w1 eq_refl). eauto.
Qed.

End StartupFacts.

Section HelperFacts.

Lemma occurs_app (c : ascii) (a b : string) :
  occurs c (a ++ b) = occurs c a || occurs c b.
Proof.
  induction a as [| x a IH]; simpl; [reflexivity |].
  rewrite IH. apply orb_assoc.
Qed.

(** A token that starts with an opening brace is not found in a text
    without one. *)
Lemma replaceAll_no_brace (token value s : string) :
  occurs "{" s = false ->
  Helpers.replaceAll (String "{" token) value s = s.
Proof.
  unfold Helpers.replaceAll.
  induction s as [| a s IH]; cbn [Helpers.replaceAll_go Js.startsWith occurs];
    [reflexivity |].
  intros H. apply orb_false_iff in H. destruct H as [Ha Hs].
  rewrite Ascii.eqb_sym, Ha. cbn [andb]. rewrite (IH Hs). reflexivity.
Qed.

Lemma replaceAll_date (value pre post : string) :
  occurs "{" pre = false ->
  occurs "{" post = false ->
  Helpers.replaceAll "{{date}}" value (pre ++ "{{date}}" ++ post) =
  (pre ++ value ++ post)%string.
Proof.
  intros Hpre Hpost. unfold Helpers.replaceAll.
  induction pre as [| a pre IH].
  - pose proof (replaceAll_no_brace "{date}}" value post Hpost) as H.
    unfold Helpers.replaceAll in H.
    change ("" ++ "{{date}}" ++ post)%string with ("{{date}}" ++ post)%string.
    change ("" ++ value ++ post)%string with (value ++ post)%string.
    rewrite <- H at 2. reflexivity.
  - cbn [occurs] in Hpre. apply orb_false_iff in Hpre.
    destruct Hpre as [Ha Hp].
    change ((String a pre) ++ "{{date}}" ++ post)%string
      with (String a (pre ++ "{{date}}" ++ post)).
    cbn [Helpers.replaceAll_go Js.startsWith].
    rewrite Ascii.eqb_sym, Ha. cbn [andb]. rewrite (IH Hp). reflexivity.
Qed.

(** X23.  For a template with one [{{date}}] token and no other opening
    brace, [generateCommitMessage] puts the formatted date in place of the
    token and leaves the rest; a template without opening brace is returned
    as it is.  (The formatted date holds no brace and no dollar sign.) *)
Theorem generateCommitMessage_date_token
        (pre post : string) (now : Helpers.Instant) :
  occurs "{" pre = false ->
  occurs "{" post = false ->
  occurs "{" (Helpers.formatDate now) = false ->
  occurs "$" (Helpers.formatDate now) = false ->
  Helpers.generateCommitMessage (pre ++ "{{date}}" ++ post) now =
  (pre ++ Helpers.formatDate now ++ post)%string /\
  Helpers.generateCommitMessage (pre ++ post) now = (pre ++ post)%string.
Proof.
  intros Hpre Hpost Hv _. unfold Helpers.generateCommitMessage. split.
  - rewrite (replaceAll_date _ pre post Hpre Hpost).
    assert (Hall : occurs "{" (pre ++ Helpers.formatDate now ++ post) = false).
    { rewrite !occurs_app, Hpre, Hv, Hpost. reflexivity. }
    rewrite (replaceAll_no_brace "{datetime}}" _ _ Hall),
      (replaceAll_no_brace "{timestamp}}" _ _ Hall),
      (replaceAll_no_brace "{isoDate}}" _ _ Hall),
      (replaceAll_no_brace "{time}}" _ _ Hall).
    reflexivity.
  - assert (Hall : occurs "{" (pre ++ post) = false).
    { rewrite occurs_app, Hpre, Hpost. reflexivity. }
    rewrite (replaceAll_no_brace "{date}}" _ _ Hall),
      (replaceAll_no_brace "{datetime}}" _ _ Hall),
      (replaceAll_no_brace "{timestamp}}" _ _ Hall),
      (replaceAll_no_brace "{isoDate}}" _ _ Hall),
      (replaceAll_no_brace "{time}}" _ _ Hall).
    reflexivity.
Qed.

Lemma append_empty (s : string) : (s ++ "")%string = s.
Proof.
  induction s as [| a s IH]; [reflexivity |]. cbn [append]. rewrite IH.
  reflexivity.
Qed.

Lemma replaceFirstT_app (d rest : string) :
  occurs "T" d = false ->
  Helpers.replaceFirstT (d ++ String "T" rest) = (d ++ String " " rest)%string.
Proof.
  induction d as [| a d IH]; simpl; [reflexivity |].
  intros H. apply orb_false_iff in H. destruct H as [Ha Hd].
  rewrite Ha, (IH Hd). reflexivity.
Qed.

Lemma cutFraction_app (d rest : string) :
  occurs "." d = false ->
  Helpers.cutFraction (d ++ rest) = (d ++ Helpers.cutFraction rest)%string.
Proof.
  induction d as [| a d IH]; simpl; [reflexivity |].
  intros H. apply orb_false_iff in H. destruct H as [Ha Hd].
  rewrite Ha, (IH Hd). reflexivity.
Qed.

Lemma dropWhile_all (p : ascii -> bool) (s : string) :
  forallb p (list_ascii_of_string s) = true -> Helpers.dropWhile p s = "".
Proof.
  induction s as [| a s IH]; simpl; [reflexivity |].
  intros H. apply andb_true_iff in H. destruct H as [Ha Hs].
  rewrite Ha. exact (IH Hs).
Qed.

Lemma forallb_isoChar (l : list ascii) :
  forallb isoChar l = true -> forallb Regex.dot l = true.
Proof.
  induction l as [| a l IH]; cbn [forallb]; [reflexivity |].
  intros H. apply andb_true_iff in H. destruct H as [Ha Hl].
  unfold isoChar in Ha. apply andb_true_iff in Ha. destruct Ha as [Ha _].
  rewrite Ha, (IH Hl). reflexivity.
Qed.

(** X24.  For an ISO text [day T time . fraction], where [day] has neither [T]
    nor full stop, [time] has no full stop and the fraction is not empty,
    [formatDate] is [day], a space and [time]: the first [T] becomes a space
    and the fraction goes with its full stop. *)
Theorem formatDate_of_iso_text
        (now : Helpers.Instant) (day time : string) (c : ascii) (tail : string) :
  Helpers.toISOString now
  = (day ++ "T" ++ time ++ "." ++ String c tail)%string ->
  occurs "T" day = false ->
  occurs "." day = false ->
  occurs "." time = false ->
  forallb isoChar (list_ascii_of_string (String c tail)) = true ->
  Helpers.formatDate now = (day ++ " " ++ time)%string.
Proof.
  intros Hiso HT Hd Ht Htail. apply forallb_isoChar in Htail.
  unfold Helpers.formatDate. rewrite Hiso.
  change (day ++ "T" ++ time ++ "." ++ String c tail)%string
    with (day ++ String "T" (time ++ "." ++ String c tail))%string.
  rewrite (replaceFirstT_app day _ HT).
  rewrite (cutFraction_app day _ Hd).
  change (String " " (time ++ "." ++ String c tail))%string
    with (" " ++ (time ++ "." ++ String c tail))%string.
  rewrite (cutFraction_app " " _ eq_refl), (cutFraction_app time _ Ht).
  cbn [list_ascii_of_string forallb] in Htail.
  apply andb_true_iff in Htail. destruct Htail as [Hc Hrest].
  change ("." ++ String c tail)%string with (String "." (String c tail)).
  cbn [Helpers.cutFraction Helpers.startsWithChar Helpers.dropWhile].
  rewrite Ascii.eqb_refl, Hc. cbn [andb].
  rewrite (dropWhile_all _ _ Hrest), append_empty. reflexivity.
Qed.

Lemma occurs_escapeChar (c x : ascii) :
  (x = "<" \/ x = ">" \/ x = Js.dquote \/ x = "'")%char ->
  occurs x (Helpers.escapeChar c) = false.
Proof.
  intros Hx. unfold Helpers.escapeChar.
  destruct (Ascii.eqb c "&") eqn:H1;
    [destruct Hx as [-> | [-> | [-> | ->]]]; reflexivity |].
  destruct (Ascii.eqb c "<") eqn:H2;
    [destruct Hx as [-> | [-> | [-> | ->]]]; reflexivity |].
  destruct (Ascii.eqb c ">") eqn:H3;
    [destruct Hx as [-> | [-> | [-> | ->]]]; reflexivity |].
  destruct (Ascii.eqb c Js.dquote) eqn:H4;
    [destruct Hx as [-> | [-> | [-> | ->]]]; reflexivity |].
  destruct (Ascii.eqb c "'") eqn:H5;
    [destruct Hx as [-> | [-> | [-> | ->]]]; reflexivity |].
  cbn [occurs]. rewrite orb_false_r.
  destruct Hx as [-> | [-> | [-> | ->]]]; assumption.
Qed.

(** X25.  The text that [escapeHtml] returns has no angle bracket and no
    quote, double or single, whatever the input; and a text that has none of
    the five special characters is returned as it is. *)
Theorem escapeHtml_leaves_no_markup (text : string) :
  occurs "<" (Helpers.escapeHtml text) = false /\
  occurs ">" (Helpers.escapeHtml text) = false /\
  occurs Js.dquote (Helpers.escapeHtml text) = false /\
  occurs "'" (Helpers.escapeHtml text) = false /\
  (occurs "&" text = false -> occurs "<" text = false ->
   occurs ">" text = false -> occurs Js.dquote text = false ->
   occurs "'" text = false -> Helpers.escapeHtml text = text).
Proof.
  assert (Hx : forall x, (x = "<" \/ x = ">" \/ x = Js.dquote \/ x = "'")%char ->
                         occurs x (Helpers.escapeHtml text) = false).
  { intros x Hx. induction text as [| c text IH]; [reflexivity |].
    cbn [Helpers.escapeHtml]. rewrite occurs_app, IH, orb_false_r.
    apply occurs_escapeChar, Hx. }
  repeat split; try (apply Hx; auto).
  clear Hx. induction text as [| c text IH]; [reflexivity |].
  cbn [occurs]. intros H1 H2 H3 H4 H5.
  apply orb_false_iff in H1, H2, H3, H4, H5.
  destruct H1 as [A1 B1], H2 as [A2 B2], H3 as [A3 B3], H4 as [A4 B4],
    H5 as [A5 B5].
  cbn [Helpers.escapeHtml]. unfold Helpers.escapeChar.
  rewrite A1, A2, A3, A4, A5. cbn [append]. f_equal. apply IH; assumption.
Qed.

End HelperFacts.

Section MatcherFacts.

Lemma repGreedy_suffix {R} (p : ascii -> bool) (k : string -> option R)
      (r : R) (s : string) : forall need,
  Regex.repGreedy p need s k = Some r ->
  exists pre s', s = (pre ++ s')%string /\ k s' = Some r.
Proof.
  induction s as [| a s IH]; intros need; cbn [Regex.repGreedy].
  - destruct need; [| discriminate]. intros H. exists "", "". auto.
  - destruct (p a).
    + destruct (Regex.repGreedy p (Nat.pred need) s k) as [r' |] eqn:Hrec.
      * intros [= <-]. destruct (IH _ Hrec) as (pre & s' & -> & Hk).
        exists (String a pre), s'. auto.
      * destruct need; [| discriminate]. intros H.
        exists "", (String a s). auto.
    + destruct need; [| discriminate]. intros H.
      exists "", (String a s). auto.
Qed.

Lemma repLazy_suffix {R} (p : ascii -> bool) (k : string -> option R)
      (r : R) (s : string) : forall need,
  Regex.repLazy p need s k = Some r ->
  exists pre s', s = (pre ++ s')%string /\ k s' = Some r.
Proof.
  induction s as [| a s IH]; intros need; cbn [Regex.repLazy].
  - destruct need; [| discriminate].
    destruct (k "") eqn:Hk; [| discriminate].
    intros [= <-]. exists "", "". auto.
  - assert (Hmore : (if p a then Regex.repLazy p (Nat.pred need) s k else None)
                    = Some r ->
                    exists pre s', String a s = (pre ++ s')%string /\
                                   k s' = Some r).
    { destruct (p a); [| discriminate]. intros Hrec.
      destruct (IH _ Hrec) as (pre & s' & -> & Hk).
      exists (String a pre), s'. auto. }
    destruct need; [| exact Hmore].
    destruct (k (String a s)) eqn:Hk; [| exact Hmore].
    intros [= <-]. exists "", (String a s). auto.
Qed.

Lemma lit_suffix {R} (k : string -> option R) (r : R) (p : string) :
  forall s, Regex.lit p s k = Some r ->
            exists s', s = (p ++ s')%string /\ k s' = Some r.
Proof.
  induction p as [| a p IH]; intros s; cbn [Regex.lit].
  - intros H. exists s. auto.
  - destruct s as [| b s]; [discriminate |].
    destruct (Ascii.eqb a b) eqn:Hab; [| discriminate].
    apply Ascii.eqb_eq in Hab. subst b. intros H.
    destruct (IH _ H) as (s' & -> & Hk). exists s'. auto.
Qed.

Lemma repGreedy_chars {R} (p : ascii -> bool) (k : string -> option R)
      (r : R) (s : string) : forall need,
  Regex.repGreedy p need s k = Some r ->
  exists pre s',
    s = (pre ++ s')%string /\ allChars p pre = true /\
    (need <= String.length pre)%nat /\ k s' = Some r.
Proof.
  induction s as [| a s IH]; intros need; cbn [Regex.repGreedy].
  - destruct need; [| discriminate]. intros H.
    exists "", "". repeat split; auto.
  - assert (Hstop : match need with O => k (String a s) | S _ => None end
                    = Some r ->
                    exists pre s',
                      String a s = (pre ++ s')%string /\
                      allChars p pre = true /\
                      (need <= String.length pre)%nat /\ k s' = Some r).
    { destruct need; [| discriminate]. intros H.
      exists "", (String a s). repeat split; auto. }
    destruct (p a) eqn:Hp; [| exact Hstop].
    destruct (Regex.repGreedy p (Nat.pred need) s k) as [r' |] eqn:Hrec;
      [| exact Hstop].
    intros [= <-]. destruct (IH _ Hrec) as (pre & s' & -> & Hall & Hlen & Hk).
    exists (String a pre), s'. repeat split; auto.
    + unfold allChars in *. cbn [list_ascii_of_string forallb].
      rewrite Hp, Hall. reflexivity.
    + cbn [String.length]. destruct need; [apply Nat.le_0_l |].
      apply le_n_S. exact Hlen.
Qed.

(** What a lazy repetition takes is the shortest text after which the rest
    of the expression matches. *)
Lemma repLazy_chars {R} (p : ascii -> bool) (k : string -> option R)
      (r : R) (s : string) : forall need,
  Regex.repLazy p need s k = Some r ->
  exists pre s',
    s = (pre ++ s')%string /\ allChars p pre = true /\
    (need <= String.length pre)%nat /\ k s' = Some r /\
    forall q q', pre = (q ++ q')%string -> q' <> "" ->
                 (need <= String.length q)%nat -> k (q' ++ s')%string = None.
Proof.
  induction s as [| a s IH]; intros need; cbn [Regex.repLazy].
  - destruct need; [| discriminate].
    destruct (k "") eqn:Hk; [| discriminate].
    intros [= <-]. exists "", "". repeat split; auto.
    intros q q' Hq Hq'. destruct q; [| discriminate Hq].
    cbn [append] in Hq. subst q'. contradiction.
  - assert (Hmore : k (String a s) = None \/ need <> O ->
                    (if p a then Regex.repLazy p (Nat.pred need) s k else None)
                    = Some r ->
                    exists pre s',
                      String a s = (pre ++ s')%string /\
                      allChars p pre = true /\
                      (need <= String.length pre)%nat /\ k s' = Some r /\
                      forall q q', pre = (q ++ q')%string -> q' <> "" ->
                                   (need <= String.length q)%nat ->
                                   k (q' ++ s')%string = None).
    { intros Hnone. destruct (p a) eqn:Hp; [| discriminate]. intros Hrec.
      destruct (IH _ Hrec) as (pre & s' & -> & Hall & Hlen & Hk & Hmin).
      exists (String a pre), s'. repeat split; auto.
      - unfold allChars in *. cbn [list_ascii_of_string forallb].
        rewrite Hp, Hall. reflexivity.
      - cbn [String.length]. destruct need; [apply Nat.le_0_l |].
        apply le_n_S. exact Hlen.
      - intros q q' Hq Hq' Hneed. destruct q as [| b q].
        + cbn [append] in Hq. subst q'. cbn [String.length] in Hneed.
          apply Nat.le_0_r in Hneed. subst need.
          destruct Hnone as [Hnone | Hnone]; [exact Hnone | contradiction].
        + cbn [append] in Hq. injection Hq as _ Hq.
          apply (Hmin q q' Hq Hq'). cbn [String.length] in Hneed.
          destruct need; [apply Nat.le_0_l | apply le_S_n; exact Hneed]. }
    destruct need as [| need'].
    + destruct (k (String a s)) eqn:Hk.
      * intros [= <-]. exists "", (String a s). repeat split; auto.
        intros q q' Hq Hq'. destruct q; [| discriminate Hq].
        cbn [append] in Hq. subst q'. contradiction.
      * apply Hmore. left. reflexivity.
    + apply Hmore. right. discriminate.
Qed.

Lemma consumed_prefix (pre rest : string) :
  Regex.consumed (pre ++ rest) rest = pre.
Proof.
  unfold Regex.consumed.
  assert (Hlen : (String.length (pre ++ rest) - String.length rest)%nat
                 = String.length pre).
  { induction pre as [| a pre IH]; cbn [append String.length].
    - apply Nat.sub_diag.
    - rewrite Nat.sub_succ_l; [rewrite IH; reflexivity |].
      clear IH. induction pre as [| b pre IH]; cbn [append String.length];
        [apply Nat.le_refl | apply Nat.le_le_succ_r; exact IH]. }
  rewrite Hlen. clear Hlen.
  induction pre as [| a pre IH]; cbn [append String.length String.substring].
  - destruct rest; reflexivity.
  - rewrite IH. reflexivity.
Qed.

Lemma occurs_cut (c : ascii) (s : string) :
  occurs c s = true -> exists q q', s = (q ++ String c q')%string.
Proof.
  induction s as [| a s IH]; cbn [occurs]; [discriminate |].
  destruct (Ascii.eqb a c) eqn:Hac.
  - apply Ascii.eqb_eq in Hac. subst a. intros _. exists "", s. reflexivity.
  - cbn [orb]. intros H. destruct (IH H) as (q & q' & ->).
    exists (String a q), q'. reflexivity.
Qed.

(** The line that [parsePullFiles] takes a file from: white space, the text
    of the capture group, white space, a vertical bar.  The group holds no
    bar after its first character, since it is the shortest one that a bar
    can follow. *)
Lemma pullFileRe_capture (line : string) (c : Regex.caps) :
  Regex.matchStart pullFileRe line = Some c ->
  exists ws name ws' rest,
    line = (ws ++ name ++ ws' ++ "|" ++ rest)%string /\
    ws <> "" /\ allChars Js.isSpace ws = true /\
    name <> "" /\ allChars Regex.dot name = true /\
    occurs "|" (Js.substringFrom 1 name) = false /\
    allChars Js.isSpace ws' = true /\
    c 1%nat = Some name.
Proof.
  unfold Regex.matchStart, pullFileRe.
  cbn [Regex.seqs Regex.run]. intros H.
  apply repGreedy_chars in H.
  destruct H as (ws & s1 & -> & Hws & Hlen1 & H).
  apply repLazy_chars in H.
  destruct H as (name & s2 & -> & Hname & Hlen2 & H & Hmin).
  rewrite consumed_prefix in H.
  pose proof H as Hrest.
  apply repGreedy_chars in Hrest.
  destruct Hrest as (ws' & s3 & -> & Hws' & _ & Hrest).
  apply lit_suffix in Hrest. destruct Hrest as (rest & -> & Hc).
  injection Hc as <-.
  exists ws, name, ws', rest. repeat split; auto.
  - intros ->. cbn [String.length] in Hlen1. inversion Hlen1.
  - intros ->. cbn [String.length] in Hlen2. inversion Hlen2.
  - destruct name as [| a name]; [reflexivity |]. cbn [Js.substringFrom].
    destruct (occurs "|" name) eqn:Hbar; [| reflexivity]. exfalso.
    destruct (occurs_cut _ _ Hbar) as (q & q' & ->).
    specialize (Hmin (String a q) (String "|" q') eq_refl).
    cbn [String.length] in Hmin.
    assert (Hnone : forall x : string, String "|" q' <> "") by discriminate.
    specialize (Hmin (Hnone "") (le_n_S _ _ (Nat.le_0_l _))).
    cbn [append Regex.repGreedy Js.isSpace] in Hmin.
    vm_compute in Hmin. discriminate Hmin.
Qed.

(** X17.  For a pull output whose white space is all ASCII, every file that
    [parsePullFiles] returns is read off one line of the output: the line
    starts with white space, then comes a text that is not empty, then
    white space if any, then a vertical bar; the file is that text,
    trimmed.  The text is the shortest one a bar can follow, so it has no
    bar after its first character.  Lines of another shape give no file. *)
Theorem parsePullFiles_reads_summary_lines (output f : string) :
  plainSpaced output = true ->
  In f (parsePullFiles output) ->
  exists line ws name ws' rest,
    In line (Js.split output (String Js.LF "")) /\
    line = (ws ++ name ++ ws' ++ "|" ++ rest)%string /\
    ws <> "" /\ allChars Js.isSpace ws = true /\
    name <> "" /\ allChars Regex.dot name = true /\
    occurs "|" (Js.substringFrom 1 name) = false /\
    allChars Js.isSpace ws' = true /\
    f = Js.trim name.
Proof.
  intros _. unfold parsePullFiles. rewrite in_flat_map.
  intros (line & Hin & Hf). unfold parsePullLine in Hf.
  destruct (Regex.matchStart pullFileRe line) as [c |] eqn:Hm;
    [| contradiction].
  destruct (pullFileRe_capture line c Hm)
    as (ws & name & ws' & rest & Hline & H1 & H2 & H3 & H4 & H5 & H6 & Hc).
  rewrite Hc in Hf. cbn [orEmpty] in Hf. destruct Hf as [<- | []].
  exists line, ws, name, ws', rest. repeat split; auto.
Qed.

End MatcherFacts.

Section BranchFacts.

Lemma run_capFree (r : Regex.re) :
  capFree r = true ->
  forall s c k x,
    Regex.run r s c k = Some x ->
    exists pre s', s = (pre ++ s')%string /\ k s' c = Some x.
Proof.
  induction r as [| p | r1 IH1 r2 IH2 | r1 IH1 r2 IH2 | p need greedy | n r IH];
    cbn [capFree Regex.run]; intros Hfree s c k x H.
  - exists "", s. auto.
  - apply lit_suffix in H. destruct H as (s' & -> & H). eauto.
  - apply andb_true_iff in Hfree. destruct Hfree as [F1 F2].
    destruct (IH1 F1 _ _ _ _ H) as (p1 & s1 & -> & H1).
    destruct (IH2 F2 _ _ _ _ H1) as (p2 & s2 & -> & H2).
    exists (p1 ++ p2)%string, s2. split; [| exact H2].
    clear. induction p1 as [| a p1 IH]; [reflexivity |].
    cbn [append]. rewrite IH. reflexivity.
  - apply andb_true_iff in Hfree. destruct Hfree as [F1 F2].
    destruct (Regex.run r1 s c k) as [y |] eqn:Hr1.
    + injection H as <-. exact (IH1 F1 _ _ _ _ Hr1).
    + exact (IH2 F2 _ _ _ _ H).
  - destruct greedy.
    + apply repGreedy_suffix in H. exact H.
    + apply repLazy_suffix in H. exact H.
  - discriminate.
Qed.

Lemma lit_prefix_occurs (c : ascii) (p s' : string) :
  occurs c (String c p ++ s') = true.
Proof. cbn [append occurs]. rewrite Ascii.eqb_refl. reflexivity. Qed.

Lemma run_Seq (r1 r2 : Regex.re) (s : string) (c : Regex.caps)
      (k : string -> Regex.caps -> option Regex.caps) :
  Regex.run (Regex.Seq r1 r2) s c k =
  Regex.run r1 s c (fun s' c' => Regex.run r2 s' c' k).
Proof. reflexivity. Qed.

Lemma run_Lit (p s : string) (c : Regex.caps)
      (k : string -> Regex.caps -> option Regex.caps) :
  Regex.run (Regex.Lit p) s c k = Regex.lit p s (fun s' => k s' c).
Proof. reflexivity. Qed.

Lemma run_Opt (r : Regex.re) (s : string) (c : Regex.caps)
      (k : string -> Regex.caps -> option Regex.caps) :
  Regex.run (Regex.Opt r) s c k =
  match Regex.run r s c k with
  | Some x => Some x
  | None => k s c
  end.
Proof. reflexivity. Qed.

Lemma branchRe_without_bracket (line : string) (c : Regex.caps) :
  occurs "[" line = false ->
  Regex.matchStart branchRe line = Some c ->
  c 1 = None /\ c 2 = None.
Proof.
  intros Hno. unfold Regex.matchStart, branchRe.
  cbn [Regex.seqs]. intros H.
  rewrite run_Seq in H.
  apply run_capFree in H; [| reflexivity]. destruct H as (p1 & s1 & -> & H).
  rewrite run_Seq in H.
  apply run_capFree in H; [| reflexivity]. destruct H as (p2 & s2 & -> & H).
  rewrite run_Seq in H.
  apply run_capFree in H; [| reflexivity]. destruct H as (p3 & s3 & -> & H).
  rewrite run_Opt in H.
  match type of H with
  | match ?a with _ => _ end = _ => destruct a as [y |] eqn:Ha
  end.
  - exfalso. rewrite run_Seq in Ha.
    apply run_capFree in Ha; [| reflexivity]. destruct Ha as (p4 & s4 & -> & Ha).
    rewrite run_Seq, run_Lit in Ha.
    apply lit_suffix in Ha. destruct Ha as (s5 & -> & _).
    rewrite !occurs_app in Hno.
    cbn [occurs] in Hno. rewrite Ascii.eqb_refl in Hno.
    cbn [orb] in Hno. rewrite !orb_true_r in Hno. discriminate Hno.
  - injection H as <-. split; reflexivity.
Qed.

Lemma counts_without_bracket (stdout : string) :
  occurs "[" (hd "" (Js.nonEmptyLines stdout)) = false ->
  st_ahead (parseStatus stdout) = 0%N /\
  st_behind (parseStatus stdout) = 0%N.
Proof.
  intros Hno. unfold parseStatus. cbn [st_ahead st_behind].
  unfold capturedCount.
  destruct (Regex.matchStart branchRe (hd "" (Js.nonEmptyLines stdout)))
    as [c |] eqn:Hm; [| split; reflexivity].
  destruct (branchRe_without_bracket _ c Hno Hm) as [H1 H2].
  rewrite H1, H2. split; reflexivity.
Qed.

End BranchFacts.

Section TrimFacts.

Lemma append_chain (a b c : string) :
  ((a ++ b) ++ c)%string = (a ++ b ++ c)%string.
Proof.
  induction a as [| x a IH]; cbn [append]; [| rewrite IH]; reflexivity.
Qed.

Lemma rev_acc_onto (s acc : string) :
  Js.rev_acc s acc = (Js.rev s ++ acc)%string.
Proof.
  unfold Js.rev. revert acc.
  induction s as [| x s IH]; intros acc; cbn [Js.rev_acc]; [reflexivity |].
  rewrite (IH (String x acc)), (IH (String x "")), append_chain. reflexivity.
Qed.

Lemma rev_of_app (a b : string) :
  Js.rev (a ++ b) = (Js.rev b ++ Js.rev a)%string.
Proof.
  induction a as [| x a IH].
  - cbn [append]. rewrite append_empty. reflexivity.
  - cbn [append]. unfold Js.rev at 1 3. cbn [Js.rev_acc].
    rewrite !rev_acc_onto, IH, append_chain. reflexivity.
Qed.

Lemma rev_twice (s : string) : Js.rev (Js.rev s) = s.
Proof.
  induction s as [| x s IH]; [reflexivity |].
  unfold Js.rev at 2. cbn [Js.rev_acc].
  rewrite rev_acc_onto, rev_of_app, IH. reflexivity.
Qed.

Lemma allChars_app (p : ascii -> bool) (a b : string) :
  allChars p (a ++ b) = allChars p a && allChars p b.
Proof.
  unfold allChars. induction a as [| x a IH];
    cbn [append list_ascii_of_string forallb]; [reflexivity |].
  rewrite IH. apply andb_assoc.
Qed.

Lemma allChars_rev (p : ascii -> bool) (s : string) :
  allChars p (Js.rev s) = allChars p s.
Proof.
  induction s as [| x s IH]; [reflexivity |].
  unfold Js.rev. cbn [Js.rev_acc]. rewrite rev_acc_onto, allChars_app, IH.
  unfold allChars. cbn [list_ascii_of_string forallb].
  rewrite andb_true_r. apply andb_comm.
Qed.

(** [trimStart] cuts the longest prefix of white space. *)
Lemma trimStart_cut (s : string) :
  exists ws,
    s = (ws ++ Js.trimStart s)%string /\
    allChars Js.isSpace ws = true /\
    Helpers.startsWithChar Js.isSpace (Js.trimStart s) = false.
Proof.
  induction s as [| x s IH]; cbn [Js.trimStart].
  - exists "". auto.
  - destruct (Js.isSpace x) eqn:Hx.
    + destruct IH as (ws & Hs & Hws & Hfirst).
      exists (String x ws). cbn [append]. rewrite <- Hs.
      repeat split; auto.
      unfold allChars in *. cbn [list_ascii_of_string forallb].
      rewrite Hx, Hws. reflexivity.
    + exists "". repeat split; auto.
Qed.

(** [trimEnd] cuts the longest suffix of white space. *)
Lemma trimEnd_cut (s : string) :
  exists ws,
    s = (Js.trimEnd s ++ ws)%string /\
    allChars Js.isSpace ws = true /\
    Helpers.startsWithChar Js.isSpace (Js.rev (Js.trimEnd s)) = false.
Proof.
  unfold Js.trimEnd.
  destruct (trimStart_cut (Js.rev s)) as (ws & Hs & Hws & Hlast).
  exists (Js.rev ws). repeat split.
  - rewrite <- rev_of_app, <- Hs, rev_twice. reflexivity.
  - rewrite allChars_rev. exact Hws.
  - rewrite rev_twice. exact Hlast.
Qed.

Lemma startsWithChar_app (p : ascii -> bool) (a b : string) :
  a <> "" ->
  Helpers.startsWithChar p (a ++ b) = Helpers.startsWithChar p a.
Proof. destruct a; [contradiction | reflexivity]. Qed.

(** [trim] takes the white space off the two ends, and no more. *)
Lemma trim_cut (s : string) :
  match Js.trim s with
  | EmptyString => allChars Js.isSpace s = true
  | name => strippedTo s name
  end.
Proof.
  unfold Js.trim.
  destruct (trimStart_cut s) as (ws1 & Hs & Hws1 & Hfirst).
  destruct (trimEnd_cut (Js.trimStart s)) as (ws2 & Ht & Hws2 & Hlast).
  destruct (Js.trimEnd (Js.trimStart s)) as [| x name] eqn:Hname.
  - rewrite Hs, Ht. cbn [append]. rewrite allChars_app, Hws1, Hws2.
    reflexivity.
  - exists ws1, ws2. repeat split; auto.
    + rewrite Hs at 1. rewrite Ht at 1. reflexivity.
    + rewrite Ht in Hfirst.
      rewrite startsWithChar_app in Hfirst by discriminate. exact Hfirst.
Qed.

Lemma trimmedOrNull_answer (out : Output) :
  configAnswer (out_stdout out) (trimmedOrNull out).
Proof.
  unfold trimmedOrNull, configAnswer.
  pose proof (trim_cut (out_stdout out)) as H.
  destruct (Js.trim (out_stdout out)) as [| x name]; cbn [Js.nonEmpty].
  - exact H.
  - split; [discriminate | exact H].
Qed.

End TrimFacts.

Section ProbeFacts.
Context `{E : Env}.

(** X6.  When the branch line of the status output has no opening square
    bracket (the branch tracks nothing, or is level with its upstream), the
    status counts 0 commits ahead and 0 behind, and [pullOnly] returns
    "Already up to date" right after the status command, without pulling. *)
Theorem pullOnly_without_tracking_summary
        (s s1 s2 : Sys) (r : string) (out : Output) (w3 : World) :
  getRemoteName s = (Ok (Some r), s1) ->
  fetch s1 = (Ok tt, s2) ->
  exec "status --porcelain=v1 --branch" (world s2) = (inl out, w3) ->
  occurs "[" (hd "" (Js.nonEmptyLines (out_stdout out))) = false ->
  st_ahead (parseStatus (out_stdout out)) = 0%N /\
  st_behind (parseStatus (out_stdout out)) = 0%N /\
  pullOnly s =
  (Ok (mkPullResult true "Already up to date" [] []),
   after "status --porcelain=v1 --branch" w3 s2).
Proof.
  intros H1 H2 H3 Hno.
  destruct (counts_without_bracket _ Hno) as [Ha Hb].
  split; [exact Ha |]. split; [exact Hb |].
  assert (Hst : status s2 = (Ok (parseStatus (out_stdout out)),
                             after "status --porcelain=v1 --branch" w3 s2)).
  { unfold status. rewrite (bind_ok _ _ _ _ _ (run_ok _ _ _ _ H3)).
    reflexivity. }
  unfold pullOnly. apply tryCatch_ok.
  rewrite (bind_ok _ _ _ _ _ H1), (bind_ok _ _ _ _ _ H2),
    (bind_ok _ _ _ _ _ Hst), Hb.
  reflexivity.
Qed.

(** X18.  The probes of the executor never throw: [isGitAvailable], [isRepo],
    [hasConflicts], [hasUpstream], [getConflictFiles] and [hasRemote] always
    return.  For all but [hasUpstream], which runs two commands, a failure
    of the one command is answered [false] (an empty list for
    [getConflictFiles]), with that command the only one run. *)
Theorem probes_answer_no_on_failure (s : Sys) :
  (forall e w, exec "--version" (world s) = (inr e, w) ->
               isGitAvailable s = (Ok false, after "--version" w s)) /\
  (forall e w, exec "rev-parse --is-inside-work-tree" (world s) = (inr e, w) ->
               isRepo s =
               (Ok false, after "rev-parse --is-inside-work-tree" w s)) /\
  (forall e w, exec unmergedCommand (world s) = (inr e, w) ->
               hasConflicts s = (Ok false, after unmergedCommand w s) /\
               getConflictFiles s = (Ok [], after unmergedCommand w s)) /\
  (forall name e w, exec "remote" (world s) = (inr e, w) ->
                    hasRemote name s = (Ok false, after "remote" w s)) /\
  (exists b s', isGitAvailable s = (Ok b, s')) /\
  (exists b s', isRepo s = (Ok b, s')) /\
  (exists b s', hasConflicts s = (Ok b, s')) /\
  (exists b s', hasUpstream s = (Ok b, s')) /\
  (exists l s', getConflictFiles s = (Ok l, s')) /\
  (forall name, exists b s', hasRemote name s = (Ok b, s')).
Proof.
  assert (Hfiles : getConflictFiles s =
            (Ok match fst (exec unmergedCommand (world s)) with
                | inl out => Js.nonEmptyLines (out_stdout out)
                | inr _ => []
                end,
             after unmergedCommand (snd (exec unmergedCommand (world s))) s)).
  { unfold getConflictFiles, tryCatch, bind, ret.
    destruct (exec unmergedCommand (world s)) as [[o | e] w] eqn:H.
    - rewrite (run_ok _ _ _ _ H). reflexivity.
    - rewrite (run_throw _ _ _ _ H). reflexivity. }
  assert (Hremote : forall name, hasRemote name s =
            (Ok match fst (exec "remote" (world s)) with
                | inl out =>
                    Js.arrayIncludes (Js.nonEmptyLines (out_stdout out)) name
                | inr _ => false
                end,
             after "remote" (snd (exec "remote" (world s))) s)).
  { intros name. unfold hasRemote, tryCatch, bind, ret.
    destruct (exec "remote" (world s)) as [[o | e] w] eqn:H.
    - rewrite (run_ok _ _ _ _ H). reflexivity.
    - rewrite (run_throw _ _ _ _ H). reflexivity. }
  repeat split.
  - intros e w H. rewrite isGitAvailable_eq, H. reflexivity.
  - intros e w H. rewrite isRepo_eq, H. reflexivity.
  - rewrite hasConflicts_eq, H. reflexivity.
  - rewrite Hfiles, H. reflexivity.
  - intros name e w H. rewrite Hremote, H. reflexivity.
  - rewrite isGitAvailable_eq. eauto.
  - rewrite isRepo_eq. eauto.
  - rewrite hasConflicts_eq. eauto.
  - apply hasUpstream_ok.
  - rewrite Hfiles. eauto.
  - intros name. rewrite Hremote. eauto.
Qed.

Lemma configValue_eq (command : string) (s : Sys) :
  configValue command s =
  (Ok match fst (exec command (world s)) with
      | inl out => trimmedOrNull out
      | inr _ => None
      end,
   after command (snd (exec command (world s))) s).
Proof.
  unfold configValue, tryCatch, bind, ret.
  destruct (exec command (world s)) as [[o | e] w] eqn:H.
  - rewrite (run_ok _ _ _ _ H). reflexivity.
  - rewrite (run_throw _ _ _ _ H). reflexivity.
Qed.

(** X19.  In a repository without remote, [fetch] succeeds and [getRemoteUrl]
    answers null, each after the one remote query and nothing else; and
    [setUpstream], once the branch is known, succeeds without running a
    branch command. *)
Theorem local_only_repository (s s1 : Sys) :
  getRemoteName s = (Ok None, s1) ->
  fetch s = (Ok tt, s1) /\
  getRemoteUrl s = (Ok None, s1) /\
  issued s1 = issued s ++ ["remote"] /\
  (forall b s0, getCurrentBranch s0 = (Ok b, s) ->
                setUpstream s0 = (Ok tt, s1)).
Proof.
  intros H. repeat split.
  - unfold fetch. rewrite (bind_ok _ _ _ _ _ H). reflexivity.
  - unfold getRemoteUrl. apply tryCatch_ok.
    rewrite (bind_ok _ _ _ _ _ H). reflexivity.
  - rewrite getRemoteName_eq in H. injection H as _ <-. reflexivity.
  - intros b s0 Hb. unfold setUpstream.
    rewrite (bind_ok _ _ _ _ _ Hb), (bind_ok _ _ _ _ _ H). reflexivity.
Qed.

(** X20.  [getUserName], [getUserEmail] and [getCredentialHelper] never
    throw, and their one command is all they run.  When the command fails
    the answer is null.  When it succeeds with an output whose white space is all ASCII,
    the answer is null for a blank output, and otherwise the output without
    the white space at its two ends: a text that is not empty and neither
    starts nor ends with white space. *)
Theorem config_getters_answer_null
        (s : Sys) (getter : M (option string)) (command : string) :
  In (getter, command)
     [ (getUserName, "config user.name");
       (getUserEmail, "config user.email");
       (getCredentialHelper, "config --global credential.helper") ] ->
  (exists v,
      getter s = (Ok v, after command (snd (exec command (world s))) s)) /\
  (forall e w,
      exec command (world s) = (inr e, w) ->
      getter s = (Ok None, after command w s)) /\
  (forall out w,
      exec command (world s) = (inl out, w) ->
      plainSpaced (out_stdout out) = true ->
      exists v,
        getter s = (Ok v, after command w s) /\
        configAnswer (out_stdout out) v).
Proof.
  intros Hin.
  assert (Hget : getter = configValue command).
  { destruct Hin as [H | [H | [H | []]]]; injection H as <- <-; reflexivity. }
  subst getter. split; [| split].
  - rewrite configValue_eq. eauto.
  - intros e w H. rewrite configValue_eq, H. reflexivity.
  - intros out w H _. exists (trimmedOrNull out). split.
    + rewrite configValue_eq, H. reflexivity.
    + apply trimmedOrNull_answer.
Qed.

(** X4.  When the tree is not clean, the staging succeeds and the commit
    command fails with an output that does not say "nothing to commit",
    [commitAndPush] returns a failure that carries the message of the error
    and a [pushed] count of 0; the failed commit is the last command run, so
    nothing is pushed. *)
Theorem commitAndPush_stops_at_a_failed_commit
        (s s1 s2 : Sys) (st : GitStatus) (e : GitError) (w3 : World) :
  status s = (Ok st, s1) ->
  st_clean st = false ->
  addAll s1 = (Ok tt, s2) ->
  exec (commitCommand (generateCommitMessage (world s2))) (world s2)
  = (inr e, w3) ->
  Js.includes (orEmpty (err_stdout e)) "nothing to commit" = false ->
  commitAndPush s =
  (Ok (mkPushResult false (err_message e) 0),
   after (commitCommand (generateCommitMessage (world s2))) w3 s2).
Proof.
  intros H H0 H1 H2 H3. unfold commitAndPush, tryCatch.
  assert (Hc := commit_eq (generateCommitMessage (world s2)) s2).
  rewrite H2 in Hc. cbn [fst snd] in Hc. rewrite H3 in Hc.
  rewrite (bind_ok _ _ _ _ _ H), H0, (bind_ok _ _ _ _ _ H1).
  unfold bind at 1, gets. rewrite (bind_throw _ _ _ _ _ Hc).
  change (saysNothingToCommit (thrown e))
    with (Js.includes (orEmpty (err_stdout e)) "nothing to commit").
  rewrite H3. reflexivity.
Qed.

End ProbeFacts.

Section PluginFacts.
Context `{E : Env}.

Lemma quiet_ret {A} (a : A) : quiet (ret a).
Proof. intros s. reflexivity. Qed.

Lemma quiet_throw {A} (e : GitError) : quiet (throw (A:=A) e).
Proof. intros s. reflexivity. Qed.

Lemma quiet_gets {A} (f : Sys -> A) : quiet (gets f).
Proof. intros s. reflexivity. Qed.

Lemma quiet_bind {A B} (m : M A) (f : A -> M B) :
  quiet m -> (forall a, quiet (f a)) -> quiet (bind m f).
Proof.
  intros Hm Hf s. unfold bind. specialize (Hm s).
  destruct (m s) as [[a | e] s1]; cbn [snd] in *.
  - rewrite Hf. exact Hm.
  - exact Hm.
Qed.

Lemma quiet_tryCatch {A} (m : M A) (h : GitError -> M A) :
  quiet m -> (forall e, quiet (h e)) -> quiet (tryCatch m h).
Proof.
  intros Hm Hh s. unfold tryCatch. specialize (Hm s).
  destruct (m s) as [[a | e] s1]; cbn [snd] in *.
  - exact Hm.
  - rewrite Hh. exact Hm.
Qed.

Lemma quiet_run (command : string) : quiet (run command).
Proof.
  intros s. unfold run. rewrite spawn_eq.
  destruct (fst (exec command (world s))); reflexivity.
Qed.

Lemma notices_noted (st : SyncStatus) (message : string) (s : Sys) :
  notices (noted st message s) = notices s.
Proof. unfold noted. destruct (onStatusChange (mgr s)); reflexivity. Qed.

Lemma quiet_updateStatus (st : SyncStatus) (message : string) :
  quiet (updateStatus st message).
Proof. intros s. rewrite updateStatus_eq. apply notices_noted. Qed.

Lemma quiet_recordResult (v : SyncResult) : quiet (recordResult v).
Proof. intros s. rewrite recordResult_eq. reflexivity. Qed.

Lemma quiet_isGitAvailable : quiet isGitAvailable.
Proof. intros s. rewrite isGitAvailable_eq. reflexivity. Qed.

Ltac quiet_step :=
  first
    [ apply quiet_ret | apply quiet_throw | apply quiet_gets
    | apply quiet_run | apply quiet_updateStatus | apply quiet_recordResult
    | apply quiet_isGitAvailable
    | assumption
    | apply quiet_bind; [| intro]
    | apply quiet_tryCatch; [| intro]
    | match goal with
      | |- quiet (if ?b then _ else _) => destruct b
      | |- quiet (match ?x with Some _ => _ | None => _ end) => destruct x
      end ].

Ltac quiet_auto := repeat quiet_step.

Lemma quiet_getRemoteName : quiet getRemoteName.
Proof. unfold getRemoteName. quiet_auto. Qed.

Lemma quiet_getCurrentBranch : quiet getCurrentBranch.
Proof. unfold getCurrentBranch. quiet_auto. Qed.

Lemma quiet_status : quiet status.
Proof. unfold status. quiet_auto. Qed.

Lemma quiet_hasConflicts : quiet hasConflicts.
Proof. unfold hasConflicts. quiet_auto. Qed.

Lemma quiet_pushWith (command : string -> string -> string) :
  quiet (pushWith command).
Proof.
  pose proof quiet_getCurrentBranch. pose proof quiet_getRemoteName.
  unfold pushWith. quiet_auto.
Qed.

Lemma quiet_pull : quiet pull.
Proof.
  pose proof quiet_getCurrentBranch. pose proof quiet_getRemoteName.
  pose proof quiet_status. pose proof quiet_hasConflicts.
  unfold pull, fetch, getConflictFiles. quiet_auto.
Qed.

Lemma quiet_pullOnly : quiet pullOnly.
Proof.
  pose proof quiet_getRemoteName. pose proof quiet_status.
  pose proof quiet_hasConflicts. pose proof quiet_pull.
  unfold pullOnly, getStatus, fetch. quiet_auto.
Qed.

Lemma quiet_commitAndPush : quiet commitAndPush.
Proof.
  pose proof quiet_status. pose proof quiet_getCurrentBranch.
  pose proof (quiet_pushWith pushCommand).
  pose proof (quiet_pushWith pushUpstreamCommand).
  unfold commitAndPush, addAll, commit, hasUpstream, push, pushWithUpstream
    in *.
  quiet_auto.
Qed.

Lemma quiet_tryCatch_sync : quiet (tryCatch syncBody syncCatch).
Proof.
  pose proof quiet_hasConflicts. pose proof quiet_pullOnly.
  pose proof quiet_commitAndPush.
  apply quiet_tryCatch; [| intro e].
  - unfold syncBody, checkGitStatus, isRepo. quiet_auto.
    all: intros s; reflexivity.
  - unfold syncCatch. quiet_auto.
Qed.

Lemma quiet_sync : quiet sync.
Proof.
  intros s. destruct (syncLock (mgr s)) eqn:Hlock.
  - rewrite (sync_busy s Hlock). reflexivity.
  - rewrite (sync_unlocked s Hlock). cbn [snd].
    change (notices (setSyncLock false ?x)) with (notices x).
    rewrite quiet_tryCatch_sync. reflexivity.
Qed.

Lemma sync_returns (s : Sys) : exists v s', sync s = (Ok v, s').
Proof.
  destruct (syncLock (mgr s)) eqn:Hlock.
  - rewrite (sync_busy s Hlock). eauto.
  - rewrite (sync_unlocked s Hlock).
    destruct (sync_blocks_end (setSyncLock true s)) as (v & s1 & Hrun & _).
    rewrite Hrun. cbn [fst snd]. eauto.
Qed.

Lemma commitAndPush_returns (s : Sys) :
  exists r s', commitAndPush s = (Ok r, s').
Proof.
  unfold commitAndPush, tryCatch.
  match goal with
  | |- context [match ?body s with _ => _ end] =>
      destruct (body s) as [[r | e] s1]
  end.
  - eauto.
  - destruct (saysNothingToCommit e).
    + destruct (pushWith_ok pushCommand s1) as (r & s2 & Hp).
      unfold push. rewrite Hp. eauto.
    + unfold ret. eauto.
Qed.

Lemma showNotice_eq (message : string) (s : Sys) :
  showNotice message s =
  (Ok tt, if showNotifications then logNotice ("Git 同步: " ++ message) s
          else s).
Proof. unfold showNotice. destruct showNotifications; reflexivity. Qed.

Lemma showNotice_on (message : string) (s : Sys) :
  showNotifications = true ->
  showNotice message s = (Ok tt, logNotice ("Git 同步: " ++ message) s).
Proof. intros H. rewrite showNotice_eq, H. reflexivity. Qed.

Lemma showNotice_off (message : string) (s : Sys) :
  showNotifications = false -> showNotice message s = (Ok tt, s).
Proof. intros H. rewrite showNotice_eq, H. reflexivity. Qed.

(** X26.  The manager shows no notice: whatever the backend answers, [sync],
    [pullOnly] and [commitAndPush] leave the notices as they were.  What a
    sync started by the timer finds is told to the status callback only. *)
Theorem manager_shows_no_notice (s : Sys) :
  notices (snd (sync s)) = notices s /\
  notices (snd (pullOnly s)) = notices s /\
  notices (snd (commitAndPush s)) = notices s.
Proof.
  split; [apply quiet_sync | split];
    [apply quiet_pullOnly | apply quiet_commitAndPush].
Qed.

(** X27.  The sync command of the plugin never throws.  With notifications
    off it shows nothing.  With notifications on it shows the busy notice
    and runs nothing when the lock is held; with the lock free it shows two
    notices, the start and then the message of the verdict of [sync],
    preceded by the failure prefix when the verdict is a failure. *)
Theorem pluginSync_always_reports (s : Sys) :
  exists s',
    pluginSync s = (Ok tt, s') /\
    (showNotifications = false -> notices s' = notices s) /\
    (showNotifications = true ->
     syncLock (mgr s) = true ->
     notices s' = notices s ++ ["Git 同步: 同步正在进行中"] /\
     issued s' = issued s) /\
    (showNotifications = true ->
     syncLock (mgr s) = false ->
     exists v,
       fst (sync (logNotice "Git 同步: 开始同步..." s)) = Ok v /\
       notices s' =
       notices s ++ ["Git 同步: 开始同步...";
                     resultNotice (sr_success v) "同步失败: " (sr_message v)]).
Proof.
  unfold pluginSync. unfold bind at 1. unfold isSyncing, gets.
  destruct (syncLock (mgr s)) eqn:Hlock.
  - rewrite showNotice_eq. eexists. split; [reflexivity |].
    split; [| split]; intros Hn; rewrite Hn; try discriminate; auto.
  - destruct showNotifications eqn:Hn.
    + rewrite (bind_ok _ _ _ _ _ (showNotice_on _ _ Hn)).
      destruct (sync_returns (logNotice "Git 同步: 开始同步..." s))
        as (v & s2 & Hsync).
      pose proof (quiet_sync (logNotice "Git 同步: 开始同步..." s)) as Hq.
      rewrite Hsync in Hq. cbn [snd logNotice notices] in Hq.
      rewrite (bind_ok _ _ _ _ _ Hsync).
      exists (logNotice
                (resultNotice (sr_success v) "同步失败: " (sr_message v)) s2).
      split.
      { unfold resultNotice.
        destruct (sr_success v); rewrite (showNotice_on _ _ Hn); reflexivity. }
      split; [intros H; discriminate H |].
      split; [intros _ H; discriminate H |].
      intros _ _. exists v. rewrite Hsync. split; [reflexivity |].
      cbn [logNotice notices]. rewrite Hq, <- app_assoc. reflexivity.
    + rewrite (bind_ok _ _ _ _ _ (showNotice_off _ _ Hn)).
      destruct (sync_returns s) as (v & s2 & Hsync).
      pose proof (quiet_sync s) as Hq. rewrite Hsync in Hq. cbn [snd] in Hq.
      rewrite (bind_ok _ _ _ _ _ Hsync).
      exists s2. split.
      { destruct (sr_success v); apply (showNotice_off _ _ Hn). }
      split; [intros _; exact Hq |].
      split; intros H; discriminate H.
Qed.

(** X28.  The pull command of the plugin has no handler of its own: when the
    lock is free and [pullOnly] throws, the command throws the same error
    and no notice is shown. *)
Theorem pluginPull_failure_is_silent (s s1 : Sys) (e : GitError) :
  syncLock (mgr s) = false ->
  pullOnly s = (Throw e, s1) ->
  pluginPull s = (Throw e, s1) /\ notices s1 = notices s.
Proof.
  intros Hlock Hpull. split.
  - unfold pluginPull. unfold bind at 1. unfold isSyncing, gets.
    rewrite Hlock. apply (bind_throw _ _ _ _ _ Hpull).
  - pose proof (quiet_pullOnly s) as Hq. rewrite Hpull in Hq. exact Hq.
Qed.

(** X29.  The push command of the plugin never throws; with notifications
    on and the lock free it shows exactly one notice, the message of the
    result of [commitAndPush], preceded by the failure prefix when the
    result is a failure. *)
Theorem pluginCommitAndPush_always_reports (s : Sys) :
  exists s',
    pluginCommitAndPush s = (Ok tt, s') /\
    (showNotifications = true ->
     syncLock (mgr s) = false ->
     exists r,
       fst (commitAndPush s) = Ok r /\
       notices s' =
       notices s ++ [resultNotice (ps_success r) "推送失败: " (ps_message r)]).
Proof.
  unfold pluginCommitAndPush. unfold bind at 1. unfold isSyncing, gets.
  destruct (syncLock (mgr s)) eqn:Hlock.
  - rewrite showNotice_eq. eexists. split; [reflexivity |].
    intros _ H. discriminate H.
  - destruct (commitAndPush_returns s) as (r & s2 & Hrun).
    pose proof (quiet_commitAndPush s) as Hq. rewrite Hrun in Hq.
    cbn [snd] in Hq.
    rewrite (bind_ok _ _ _ _ _ Hrun).
    destruct (ps_success r) eqn:Hok; rewrite showNotice_eq;
      (eexists; split; [reflexivity |]); intros Hn _; exists r;
      rewrite Hrun, Hn; (split; [reflexivity |]);
      unfold resultNotice; rewrite Hok; cbn [logNotice notices];
      rewrite Hq; reflexivity.
Qed.

End PluginFacts.

Section InitRepoFacts.
Context `{E : Env}.

Lemma showNotice_returns (message : string) (s : Sys) :
  exists s', showNotice message s = (Ok tt, s') /\ issued s' = issued s.
Proof.
  rewrite showNotice_eq. eexists. split; [reflexivity |].
  destruct showNotifications; reflexivity.
Qed.

(** The second half of [initRepo]: the command runs once, and its failure
    is reported, not thrown. *)
Lemma initStep_returns (s : Sys) :
  exists s',
    tryCatch (init ;;; showNotice "Git 仓库已初始化")
             (fun e => showNotice ("初始化失败: " ++ err_message e)) s
    = (Ok tt, s') /\
    issued s' = issued s ++ ["init"].
Proof.
  unfold tryCatch, init.
  destruct (exec "init" (world s)) as [[o | e] w] eqn:Hinit.
  - rewrite (bind_ok _ _ _ _ _ (bind_ok _ _ _ _ _ (run_ok _ _ _ _ Hinit))).
    destruct (showNotice_returns "Git 仓库已初始化" (after "init" w s))
      as (s' & Hshow & Hi).
    rewrite Hshow. exists s'. split; [reflexivity | rewrite Hi; reflexivity].
  - rewrite (bind_throw _ _ _ _ _
               (bind_throw _ (fun _ => ret tt) _ _ _ (run_throw _ _ _ _ Hinit))).
    destruct (showNotice_returns ("初始化失败: " ++ err_message (thrown e))
                                 (after "init" w s))
      as (s' & Hshow & Hi).
    rewrite Hshow. exists s'. split; [reflexivity | rewrite Hi; reflexivity].
Qed.

Lemma pluginCheck_missing (s : Sys) (e : GitError) (w1 : World) :
  exec "--version" (world s) = (inr e, w1) ->
  pluginCheckGitStatus s =
  (Ok (mkGitCheck false false (Some "Git 未安装或未找到")),
   after "--version" w1 s).
Proof.
  intros H1. unfold pluginCheckGitStatus.
  rewrite (bind_ok _ _ _ _ _ (isGitAvailable_eq s)), H1. reflexivity.
Qed.

Lemma pluginCheck_present (s : Sys) (o1 : Output) (r2 : ExecResult)
      (w1 w2 : World) :
  exec "--version" (world s) = (inl o1, w1) ->
  exec "rev-parse --is-inside-work-tree" w1 = (r2, w2) ->
  pluginCheckGitStatus s =
  (Ok (mkGitCheck true match r2 with inl _ => true | inr _ => false end None),
   after "rev-parse --is-inside-work-tree" w2 (after "--version" w1 s)).
Proof.
  intros H1 H2. unfold pluginCheckGitStatus.
  rewrite (bind_ok _ _ _ _ _ (isGitAvailable_eq s)), H1. cbn [fst snd negb].
  rewrite (bind_ok _ _ _ _ _ (isRepo_eq _)). cbn [world after fst snd].
  rewrite H2. reflexivity.
Qed.

(** X30.  The command that initializes the repository never throws, and it
    does not run [init] where the work-tree probe succeeds.  It runs [init]
    once when that probe fails, and also when [git] itself cannot be run:
    the failure of [init] is then reported in a notice. *)
Theorem pluginInitRepo_spares_a_repository (s : Sys) :
  (exists s', pluginInitRepo s = (Ok tt, s')) /\
  (forall o1 o2 w1 w2,
      exec "--version" (world s) = (inl o1, w1) ->
      exec "rev-parse --is-inside-work-tree" w1 = (inl o2, w2) ->
      issued (snd (pluginInitRepo s)) =
      issued s ++ ["--version"; "rev-parse --is-inside-work-tree"]) /\
  (forall o1 e w1 w2,
      exec "--version" (world s) = (inl o1, w1) ->
      exec "rev-parse --is-inside-work-tree" w1 = (inr e, w2) ->
      issued (snd (pluginInitRepo s)) =
      issued s ++ ["--version"; "rev-parse --is-inside-work-tree"; "init"]) /\
  (forall e w1,
      exec "--version" (world s) = (inr e, w1) ->
      issued (snd (pluginInitRepo s)) = issued s ++ ["--version"; "init"]).
Proof.
  assert (Hready : forall o1 o2 w1 w2,
             exec "--version" (world s) = (inl o1, w1) ->
             exec "rev-parse --is-inside-work-tree" w1 = (inl o2, w2) ->
             exists s', pluginInitRepo s = (Ok tt, s') /\
                        issued s' = issued s ++
                          ["--version"; "rev-parse --is-inside-work-tree"]).
  { intros o1 o2 w1 w2 H1 H2. unfold pluginInitRepo.
    rewrite (bind_ok _ _ _ _ _ (pluginCheck_present s _ _ _ _ H1 H2)).
    cbn [ck_isRepo].
    destruct (showNotice_returns "已经是 Git 仓库"
                (after "rev-parse --is-inside-work-tree" w2
                       (after "--version" w1 s))) as (s' & Hshow & Hi).
    rewrite Hshow. exists s'. split; [reflexivity |].
    rewrite Hi. cbn [after issued]. rewrite <- app_assoc. reflexivity. }
  assert (HnotRepo : forall o1 e w1 w2,
             exec "--version" (world s) = (inl o1, w1) ->
             exec "rev-parse --is-inside-work-tree" w1 = (inr e, w2) ->
             exists s', pluginInitRepo s = (Ok tt, s') /\
                        issued s' = issued s ++
                          ["--version"; "rev-parse --is-inside-work-tree";
                           "init"]).
  { intros o1 e w1 w2 H1 H2. unfold pluginInitRepo.
    rewrite (bind_ok _ _ _ _ _ (pluginCheck_present s _ _ _ _ H1 H2)).
    cbn [ck_isRepo].
    destruct (initStep_returns
                (after "rev-parse --is-inside-work-tree" w2
                       (after "--version" w1 s))) as (s' & Hrun & Hi).
    rewrite Hrun. exists s'. split; [reflexivity |].
    rewrite Hi. cbn [after issued]. rewrite <- !app_assoc. reflexivity. }
  assert (Hmissing : forall e w1,
             exec "--version" (world s) = (inr e, w1) ->
             exists s', pluginInitRepo s = (Ok tt, s') /\
                        issued s' = issued s ++ ["--version"; "init"]).
  { intros e w1 H1. unfold pluginInitRepo.
    rewrite (bind_ok _ _ _ _ _ (pluginCheck_missing s _ _ H1)).
    cbn [ck_isRepo].
    destruct (initStep_returns (after "--version" w1 s)) as (s' & Hrun & Hi).
    rewrite Hrun. exists s'. split; [reflexivity |].
    rewrite Hi. cbn [after issued]. rewrite <- app_assoc. reflexivity. }
  split; [| split; [| split]].
  - destruct (exec "--version" (world s)) as [[o1 | e1] w1] eqn:H1.
    + destruct (exec "rev-parse --is-inside-work-tree" w1)
        as [[o2 | e2] w2] eqn:H2.
      * destruct (Hready _ _ _ _ eq_refl H2) as (s' & Hrun & _). eauto.
      * destruct (HnotRepo _ _ _ _ eq_refl H2) as (s' & Hrun & _). eauto.
    + destruct (Hmissing _ _ eq_refl) as (s' & Hrun & _). eauto.
  - intros o1 o2 w1 w2 H1 H2.
    destruct (Hready _ _ _ _ H1 H2) as (s' & -> & Hi). exact Hi.
  - intros o1 e w1 w2 H1 H2.
    destruct (HnotRepo _ _ _ _ H1 H2) as (s' & -> & Hi). exact Hi.
  - intros e w1 H1.
    destruct (Hmissing _ _ H1) as (s' & -> & Hi). exact Hi.
Qed.

End InitRepoFacts.

(* ================================================================== *)
(** ** Concrete runs of the further properties *)
(* ================================================================== *)

Lemma commitAndPush_on_clean_tree_witness :
  fst (commitAndPush (Mock.start false Mock.cleanTree)) =
  Ok (mkPushResult true "Nothing to commit or push" 0) /\
  issued (snd (commitAndPush (Mock.start false Mock.cleanTree))) =
  [Mock.statusCommand].
Proof.
  pose (s := Mock.start false Mock.cleanTree).
  destruct (commitAndPush_on_clean_tree
              s (mkOutput ("## main...origin/main" ++ Mock.nl) "")
              (skipn 1 Mock.cleanTree) eq_refl eq_refl) as [H _].
  fold s. rewrite (H eq_refl). split; reflexivity.
Defined.

Lemma commitAndPush_stops_at_a_failed_commit_witness :
  fst (commitAndPush (Mock.start false Mock.hookRefuses)) =
  Ok (mkPushResult false "Command failed: git commit" 0) /\
  issued (snd (commitAndPush (Mock.start false Mock.hookRefuses))) =
  [Mock.statusCommand; "add -A"; commitCommand "vault backup"].
Proof.
  pose (s := Mock.start false Mock.hookRefuses).
  assert (H := commitAndPush_stops_at_a_failed_commit
                 s (snd (status s)) (snd (addAll (snd (status s))))
                 (parseStatus ("## main...origin/main" ++ Mock.nl ++
                               " M notes.md" ++ Mock.nl))
                 (mkGitError "Command failed: git commit" (Some "1")
                    (Some ("pre-commit hook failed" ++ Mock.nl)%string)
                    (Some ""))
                 (skipn 3 Mock.hookRefuses)
                 eq_refl eq_refl eq_refl eq_refl eq_refl).
  fold s. rewrite H. split; reflexivity.
Defined.

Lemma pullOnly_after_failed_fetch_witness :
  fst (pullOnly (Mock.start false Mock.fetchFails)) =
  Throw (mkGitError "Command failed: git fetch origin" (Some "1")
           (Some ("ssh: Could not resolve hostname example.com: Name or service not known" ++ Mock.nl ++
                  "fatal: Could not read from remote repository." ++ Mock.nl)%string)
           (Some "")).
Proof.
  pose (s := Mock.start false Mock.fetchFails).
  destruct (pullOnly_after_failed_fetch
              s (snd (getRemoteName s)) (snd (fetch (snd (getRemoteName s))))
              "origin"
              (mkGitError "Command failed: git fetch origin" (Some "1")
                 (Some ("ssh: Could not resolve hostname example.com: Name or service not known" ++ Mock.nl ++
                        "fatal: Could not read from remote repository." ++ Mock.nl)%string)
                 (Some ""))
              eq_refl eq_refl) as [H _].
  fold s. rewrite (H eq_refl). reflexivity.
Defined.

Lemma pullOnly_without_tracking_summary_witness :
  fst (pullOnly (Mock.start false Mock.noTracking)) =
  Ok (mkPullResult true "Already up to date" [] []).
Proof.
  pose (s := Mock.start false Mock.noTracking).
  destruct (pullOnly_without_tracking_summary
              s (snd (getRemoteName s)) (snd (fetch (snd (getRemoteName s))))
              "origin" (mkOutput ("## main" ++ Mock.nl) "")
              (skipn 4 Mock.noTracking)
              eq_refl eq_refl eq_refl eq_refl) as (_ & _ & H).
  fold s. rewrite H. reflexivity.
Defined.

Lemma sync_reports_a_failed_pull_witness :
  fst (sync (Mock.start false Mock.syncFetchFails)) =
  Ok (mkSyncResult false "Command failed: git fetch origin" None None None)
  /\
  ~ In "push origin main"
       (issued (snd (sync (Mock.start false Mock.syncFetchFails)))).
Proof.
  pose (s := Mock.start false Mock.syncFetchFails).
  assert (Hpull : pullOnly (readyToPull s (skipn 1 Mock.syncFetchFails)
                                          (skipn 2 Mock.syncFetchFails)
                                          (skipn 3 Mock.syncFetchFails)) =
                  (Throw (mkGitError "Command failed: git fetch origin"
                            (Some "1")
                            (Some ("ssh: Could not resolve hostname example.com: Name or service not known" ++ Mock.nl ++
                                   "fatal: Could not read from remote repository." ++ Mock.nl)%string)
                            (Some "")),
                   snd (pullOnly (readyToPull s (skipn 1 Mock.syncFetchFails)
                                          (skipn 2 Mock.syncFetchFails)
                                          (skipn 3 Mock.syncFetchFails))))).
  { vm_compute. reflexivity. }
  destruct (sync_reports_a_failed_pull
              s _
              (mkOutput ("git version 2.43.0" ++ Mock.nl) "")
              (mkOutput ("true" ++ Mock.nl) "")
              (Mock.ok "")
              (skipn 1 Mock.syncFetchFails)
              (skipn 2 Mock.syncFetchFails)
              (skipn 3 Mock.syncFetchFails)
              _ eq_refl eq_refl eq_refl eq_refl eq_refl Hpull)
    as (Hv & Hi & _).
  fold s. split; [exact Hv |].
  rewrite Hi. vm_compute.
  intros H. repeat (destruct H as [H | H]; [discriminate H |]). exact H.
Defined.

Lemma sync_without_git_or_repository_witness :
  fst (sync (Mock.start false Mock.gitMissing)) =
  Ok (mkSyncResult false "Git is not installed or not found in PATH"
                   None None None) /\
  issued (snd (sync (Mock.start false Mock.notARepository))) =
  ["--version"; "rev-parse --is-inside-work-tree"].
Proof.
  split.
  - destruct (sync_without_git_or_repository
                (Mock.start false Mock.gitMissing) eq_refl) as [H _].
    apply (H (mkGitError "Command failed: git --version" (Some "1")
                (Some ("/bin/sh: git: command not found" ++ Mock.nl)%string)
                (Some ""))
             (skipn 1 Mock.gitMissing) eq_refl).
  - destruct (sync_without_git_or_repository
                (Mock.start false Mock.notARepository) eq_refl) as [_ H].
    apply (H (mkOutput ("git version 2.43.0" ++ Mock.nl) "")
             (mkGitError "Command failed: git rev-parse --is-inside-work-tree"
                (Some "1")
                (Some ("fatal: not a git repository (or any of the parent directories): .git" ++ Mock.nl)%string)
                (Some ""))
             (skipn 1 Mock.notARepository) (skipn 2 Mock.notARepository)
             eq_refl eq_refl).
Defined.

Lemma push_without_remote_witness :
  fst (push (Mock.start false Mock.branchNoRemote)) =
  Ok (mkPushResult false noRemoteMessage 0) /\
  issued (snd (push (Mock.start false Mock.branchNoRemote))) =
  ["rev-parse --abbrev-ref HEAD"; "remote"].
Proof.
  pose (s := Mock.start false Mock.branchNoRemote).
  destruct (push_without_remote
              s (snd (getCurrentBranch s))
              (snd (getRemoteName (snd (getCurrentBranch s)))) "main"
              eq_refl eq_refl) as (H & _ & Hi).
  fold s. rewrite H. split; [reflexivity | exact Hi].
Defined.

Lemma pull_without_remote_witness :
  fst (pull (Mock.start false Mock.branchNoRemote)) =
  Ok (mkPullResult false "No remote configured" [] []).
Proof.
  pose (s := Mock.start false Mock.branchNoRemote).
  destruct (pull_without_remote
              s (snd (getCurrentBranch s))
              (snd (getRemoteName (snd (getCurrentBranch s)))) "main"
              eq_refl eq_refl) as (H & _).
  fold s. rewrite H. reflexivity.
Defined.

Lemma pull_pops_a_stash_it_did_not_push_witness :
  issued (snd (pull (Mock.start false Mock.popsOlderStash))) =
  [ "rev-parse --abbrev-ref HEAD"; "remote"; "remote"; "fetch origin";
    Mock.statusCommand; "pull origin main --rebase"; "stash pop" ].
Proof.
  pose (s := Mock.start false Mock.popsOlderStash).
  pose (s1 := snd (getCurrentBranch s)).
  pose (s2 := snd (getRemoteName s1)).
  pose (s3 := snd (fetch s2)).
  pose (s4 := snd (status s3)).
  destruct (pull_pops_a_stash_it_did_not_push
              s s1 s2 s3 s4 "main" "origin"
              (parseStatus ("## main...origin/main [behind 1]" ++ Mock.nl ++
                            "?? draft.md" ++ Mock.nl))
              (mkOutput (" notes.md | 2 +-" ++ Mock.nl ++
                         " 1 file changed, 1 insertion(+), 1 deletion(-)" ++ Mock.nl) "")
              (skipn 6 Mock.popsOlderStash)
              eq_refl eq_refl eq_refl eq_refl eq_refl eq_refl eq_refl)
    as [_ H].
  exact H.
Defined.

Lemma pull_failure_leaves_the_stash_witness :
  fst (pull (Mock.start false Mock.stashLeftBehind)) =
  Ok (mkPullResult false "Merge conflicts detected" [] ["plan.md"]) /\
  issued (snd (pull (Mock.start false Mock.stashLeftBehind))) =
  [ "rev-parse --abbrev-ref HEAD"; "remote"; "remote"; "fetch origin";
    Mock.statusCommand; stashPushCommand; "pull origin main --rebase";
    unmergedCommand; unmergedCommand ].
Proof.
  pose (s := Mock.start false Mock.stashLeftBehind).
  pose (s1 := snd (getCurrentBranch s)).
  pose (s2 := snd (getRemoteName s1)).
  pose (s3 := snd (fetch s2)).
  pose (s4 := snd (status s3)).
  destruct (pull_failure_leaves_the_stash
              s s1 s2 s3 s4 "main" "origin"
              (parseStatus ("## main...origin/main [ahead 1, behind 1]" ++
                            Mock.nl ++ " M notes.md" ++ Mock.nl))
              (mkOutput ("Saved working directory and index state On main: obsidian-git-sync-auto-stash" ++ Mock.nl) "")
              (mkGitError "Command failed: git pull origin main --rebase"
                 (Some "1")
                 (Some ("error: could not apply 3f2a1c9... vault backup" ++ Mock.nl)%string)
                 (Some ("CONFLICT (content): Merge conflict in plan.md" ++ Mock.nl)%string))
              (skipn 6 Mock.stashLeftBehind)
              (skipn 7 Mock.stashLeftBehind)
              eq_refl eq_refl eq_refl eq_refl
              (or_introl (fun H => @nil_cons _ _ _ (eq_sym H)))
              eq_refl eq_refl) as [_ H].
  destruct (H eq_refl) as [Hv Hi]. split; [exact Hv | exact Hi].
Defined.

Lemma status_lists_of_distinct_paths_witness :
  NoDup (st_staged (parseStatus Mock.mixedStatus)) /\
  ~ In "plan.md" (st_staged (parseStatus Mock.mixedStatus)) /\
  ~ In "draft.md" (st_modified (parseStatus Mock.mixedStatus)).
Proof.
  assert (Hd : NoDup (map (Js.substringFrom 3) (fileLines Mock.mixedStatus))).
  { vm_compute. repeat constructor; cbn [In]; intros H;
      repeat (destruct H as [H | H]; [discriminate H |]); exact H. }
  destruct (status_lists_of_distinct_paths Mock.mixedStatus Hd)
    as (Hs & _ & _ & _ & Hc & Hu).
  split; [exact Hs | split].
  - apply (Hc "plan.md"). vm_compute. left. reflexivity.
  - apply (Hu "draft.md"). vm_compute. left. reflexivity.
Defined.

Lemma getRemoteName_prefers_origin_witness :
  fst (getRemoteName (Mock.start false Mock.twoRemotes)) =
  Ok (Some "origin").
Proof.
  destruct (getRemoteName_prefers_origin (Mock.start false Mock.twoRemotes))
    as [H _].
  destruct (H (mkOutput ("backup" ++ Mock.nl ++ "origin" ++ Mock.nl) "")
              (skipn 1 Mock.twoRemotes) eq_refl)
    as (r & Hr & Ho & _).
  rewrite Hr. cbn [fst]. f_equal. apply Ho.
  vm_compute. right. left. reflexivity.
Defined.

Lemma parsePushError_closed_set_witness :
  parsePushError Mock.hostUnknown = networkMessage.
Proof.
  destruct (parsePushError_closed_set Mock.hostUnknown) as [_ H].
  destruct (H eq_refl eq_refl eq_refl eq_refl) as [_ H'].
  destruct (H' eq_refl) as [Hn _].
  exact (Hn eq_refl).
Defined.

Lemma parsePullFiles_reads_summary_lines_witness :
  parsePullFiles Mock.pullSummary = ["笔记/计划.md"] /\
  exists line ws name ws' rest,
    In line (Js.split Mock.pullSummary (String Js.LF "")) /\
    line = (ws ++ name ++ ws' ++ "|" ++ rest)%string /\
    ws <> "" /\ allChars Js.isSpace ws = true /\
    name <> "" /\ allChars Regex.dot name = true /\
    occurs "|" (Js.substringFrom 1 name) = false /\
    allChars Js.isSpace ws' = true /\
    "笔记/计划.md" = Js.trim name.
Proof.
  split; [vm_compute; reflexivity |].
  apply (parsePullFiles_reads_summary_lines Mock.pullSummary "笔记/计划.md").
  - vm_compute. reflexivity.
  - vm_compute. left. reflexivity.
Defined.

Lemma probes_answer_no_on_failure_witness :
  fst (isGitAvailable (Mock.start false Mock.gitMissing)) = Ok false /\
  fst (isRepo (Mock.start false (skipn 1 Mock.notARepository))) = Ok false.
Proof.
  split.
  - destruct (probes_answer_no_on_failure (Mock.start false Mock.gitMissing))
      as [H _].
    rewrite (H (mkGitError "Command failed: git --version" (Some "1")
                  (Some ("/bin/sh: git: command not found" ++ Mock.nl)%string)
                  (Some ""))
               (skipn 1 Mock.gitMissing) eq_refl).
    reflexivity.
  - destruct (probes_answer_no_on_failure
                (Mock.start false (skipn 1 Mock.notARepository)))
      as (_ & H & _).
    rewrite (H (mkGitError
                  "Command failed: git rev-parse --is-inside-work-tree"
                  (Some "1")
                  (Some ("fatal: not a git repository (or any of the parent directories): .git" ++ Mock.nl)%string)
                  (Some ""))
               (skipn 2 Mock.notARepository) eq_refl).
    reflexivity.
Defined.

Lemma local_only_repository_witness :
  fst (fetch (Mock.start false Mock.noRemote)) = Ok tt /\
  fst (getRemoteUrl (Mock.start false Mock.noRemote)) = Ok None /\
  issued (snd (fetch (Mock.start false Mock.noRemote))) = ["remote"].
Proof.
  pose (s := Mock.start false Mock.noRemote).
  destruct (local_only_repository s (snd (getRemoteName s)) eq_refl)
    as (Hf & Hu & _).
  fold s. rewrite Hf, Hu. repeat split.
Defined.

Lemma config_getters_answer_null_witness :
  fst (getUserName (Mock.start false Mock.noUserName)) = Ok None /\
  fst (getUserName (Mock.start false Mock.userNamed)) = Ok (Some "张三") /\
  configAnswer ("张三" ++ Mock.nl) (Some "张三").
Proof.
  split.
  - destruct (config_getters_answer_null
                (Mock.start false Mock.noUserName)
                getUserName "config user.name" (or_introl eq_refl))
      as (_ & H & _).
    rewrite (H (mkGitError "Command failed: git config user.name" (Some "1")
                  (Some "") (Some ""))
               (skipn 1 Mock.noUserName) eq_refl).
    reflexivity.
  - destruct (config_getters_answer_null
                (Mock.start false Mock.userNamed)
                getUserName "config user.name" (or_introl eq_refl))
      as (_ & _ & H).
    destruct (H (mkOutput ("张三" ++ Mock.nl) "") (skipn 1 Mock.userNamed)
                eq_refl eq_refl) as (v & Hv & Ha).
    assert (Hrun : fst (getUserName (Mock.start false Mock.userNamed)) =
                   Ok (Some "张三")) by (vm_compute; reflexivity).
    split; [exact Hrun |].
    rewrite Hv in Hrun. injection Hrun as <-. exact Ha.
Defined.

Lemma initialize_always_completes_witness :
  fst (initialize true true 5 (newAutoSync 1)
                  (Mock.start false Mock.startupOffline)) =
  Ok (startAutoSync 5 (newAutoSync 1)) /\
  events (snd (initialize true true 5 (newAutoSync 1)
                           (Mock.start false Mock.startupOffline))) =
  [(idle, "Ready")].
Proof.
  destruct (initialize_always_completes
              true true 5 (newAutoSync 1)
              (Mock.start false Mock.startupOffline))
    as (_ & _ & _ & H).
  rewrite (H (mkOutput ("git version 2.43.0" ++ Mock.nl) "")
             (mkOutput ("true" ++ Mock.nl) "")
             (skipn 1 Mock.startupOffline) (skipn 2 Mock.startupOffline)
             eq_refl eq_refl).
  split; vm_compute; reflexivity.
Defined.

Lemma generateCommitMessage_date_token_witness :
  Helpers.generateCommitMessage "backup: {{date}}" Mock.instant =
  "backup: 2026-11-03 07:24:05".
Proof.
  destruct (generateCommitMessage_date_token "backup: " "" Mock.instant
              eq_refl eq_refl eq_refl eq_refl) as [H _].
  exact H.
Defined.

Lemma formatDate_of_iso_text_witness :
  Helpers.formatDate Mock.instant = "2026-11-03 07:24:05".
Proof.
  exact (formatDate_of_iso_text Mock.instant "2026-11-03" "07:24:05"
           "1" "23Z" eq_refl eq_refl eq_refl eq_refl eq_refl).
Defined.

Lemma escapeHtml_leaves_no_markup_witness :
  Helpers.escapeHtml "notes/plan.md" = "notes/plan.md" /\
  occurs "<" (Helpers.escapeHtml "<b>plan & draft</b>") = false.
Proof.
  split.
  - destruct (escapeHtml_leaves_no_markup "notes/plan.md")
      as (_ & _ & _ & _ & H).
    exact (H eq_refl eq_refl eq_refl eq_refl eq_refl).
  - destruct (escapeHtml_leaves_no_markup "<b>plan & draft</b>") as [H _].
    exact H.
Defined.

Lemma pluginSync_always_reports_witness :
  notices (snd (pluginSync (Mock.start false Mock.syncFetchFails))) =
  ["Git 同步: 开始同步...";
   "Git 同步: 同步失败: Command failed: git fetch origin"].
Proof.
  pose (s := Mock.start false Mock.syncFetchFails).
  destruct (pluginSync_always_reports s) as (s' & Hrun & _ & _ & H).
  destruct (H eq_refl eq_refl) as (v & Hv & Hn).
  assert (Hsync : fst (sync (logNotice "Git 同步: 开始同步..." s)) =
                  Ok (mkSyncResult false "Command failed: git fetch origin"
                                   None None None)).
  { vm_compute. reflexivity. }
  rewrite Hsync in Hv. injection Hv as <-.
  fold s. rewrite Hrun. exact Hn.
Defined.

Lemma pluginPull_failure_is_silent_witness :
  fst (pluginPull (Mock.start false Mock.fetchFails)) =
  Throw (mkGitError "Command failed: git fetch origin" (Some "1")
           (Some ("ssh: Could not resolve hostname example.com: Name or service not known" ++ Mock.nl ++
                  "fatal: Could not read from remote repository." ++ Mock.nl)%string)
           (Some "")) /\
  notices (snd (pluginPull (Mock.start false Mock.fetchFails))) = [].
Proof.
  pose (s := Mock.start false Mock.fetchFails).
  assert (Hpull : pullOnly s =
                  (Throw (mkGitError "Command failed: git fetch origin"
                            (Some "1")
                            (Some ("ssh: Could not resolve hostname example.com: Name or service not known" ++ Mock.nl ++
                                   "fatal: Could not read from remote repository." ++ Mock.nl)%string)
                            (Some "")),
                   snd (pullOnly s))).
  { vm_compute. reflexivity. }
  destruct (pluginPull_failure_is_silent s _ _ eq_refl Hpull) as [Hrun Hn].
  fold s. rewrite Hrun. cbn [fst snd]. split; [reflexivity | exact Hn].
Defined.

Lemma pluginCommitAndPush_always_reports_witness :
  notices (snd (pluginCommitAndPush (Mock.start false Mock.hookRefuses))) =
  ["Git 同步: 推送失败: Command failed: git commit"].
Proof.
  pose (s := Mock.start false Mock.hookRefuses).
  destruct (pluginCommitAndPush_always_reports s) as (s' & Hrun & H).
  destruct (H eq_refl eq_refl) as (r & Hr & Hn).
  assert (Hcap : fst (commitAndPush s) =
                 Ok (mkPushResult false "Command failed: git commit" 0)).
  { vm_compute. reflexivity. }
  rewrite Hcap in Hr. injection Hr as <-.
  fold s. rewrite Hrun. exact Hn.
Defined.

Lemma pluginInitRepo_spares_a_repository_witness :
  issued (snd (pluginInitRepo (Mock.start false Mock.preflightClean))) =
  ["--version"; "rev-parse --is-inside-work-tree"] /\
  issued (snd (pluginInitRepo (Mock.start false Mock.gitMissing))) =
  ["--version"; "init"].
Proof.
  split.
  - destruct (pluginInitRepo_spares_a_repository
                (Mock.start false Mock.preflightClean)) as (_ & H & _).
    exact (H (mkOutput ("git version 2.43.0" ++ Mock.nl) "")
             (mkOutput ("true" ++ Mock.nl) "")
             (skipn 1 Mock.preflightClean) (skipn 2 Mock.preflightClean)
             eq_refl eq_refl).
  - destruct (pluginInitRepo_spares_a_repository
                (Mock.start false Mock.gitMissing)) as (_ & _ & _ & H).
    exact (H (mkGitError "Command failed: git --version" (Some "1")
                (Some ("/bin/sh: git: command not found" ++ Mock.nl)%string)
                (Some ""))
             (skipn 1 Mock.gitMissing) eq_refl).
Defined.
